(** * Foodgram: the serializers and view-sets of [backend/foodgram/api]

    A shallow embedding of [api/serializers.py] and [api/views.py] over an
    explicit relational store.  Tables are lists of rows (order is the
    order of the table's own queryset, duplicates are possible unless an
    operation excludes them; the two querysets of the views that join or
    group tables come in an order the database chooses, a parameter of the
    model), foreign keys are the referenced primary keys, serializer and view
    code runs in a small state-and-exception monad in which
    [transaction.atomic] restores the store when its body raises. *)

From stdpp Require Import base option list gmap strings pretty.
From Stdlib Require Import ZArith Lia Ascii.

(** ** The models ([recipes.models], [users.models])

    The model classes are imported by both files; the fields below are the
    ones the serializers list in their [Meta.fields] or read directly. *)

Module User.
Record t := mk {
  id : Z; email : string; username : string;
  first_name : string; last_name : string }.
#[global] Instance eq_dec : EqDecision t.
Proof. solve_decision. Defined.
End User.

Module Tag.
Record t := mk { id : Z; name : string }.
#[global] Instance eq_dec : EqDecision t.
Proof. solve_decision. Defined.
End Tag.

Module Ingredient.
Record t := mk { id : Z; name : string; measurement_unit : string }.
#[global] Instance eq_dec : EqDecision t.
Proof. solve_decision. Defined.
End Ingredient.

(** [image] is the image the row holds, named as the row was given it and
    empty when there is none; the name under which the storage files an
    upload is the storage's choice and is not part of the model. *)
Module Recipe.
Record t := mk {
  id : Z; author : Z; name : string; image : string;
  text : string; cooking_time : Z }.
#[global] Instance eq_dec : EqDecision t.
Proof. solve_decision. Defined.
End Recipe.

Module RecipeIngredient.
Record t := mk { recipe : Z; ingredient : Z; amount : Z }.
#[global] Instance eq_dec : EqDecision t.
Proof. solve_decision. Defined.
End RecipeIngredient.

Module Favorite.
Record t := mk { user : Z; recipe : Z }.
#[global] Instance eq_dec : EqDecision t.
Proof. solve_decision. Defined.
End Favorite.

Module ShoppingCart.
Record t := mk { user : Z; recipe : Z }.
#[global] Instance eq_dec : EqDecision t.
Proof. solve_decision. Defined.
End ShoppingCart.

Module Subscription.
Record t := mk { user : Z; author : Z }.
#[global] Instance eq_dec : EqDecision t.
Proof. solve_decision. Defined.
End Subscription.

(** The many-to-many table behind [Recipe.tags]. *)
Module RecipeTag.
Record t := mk { recipe : Z; tag : Z }.
#[global] Instance eq_dec : EqDecision t.
Proof. solve_decision. Defined.
End RecipeTag.

(** The database: one list of rows per [Model.objects], and the sequence
    that hands out the primary keys of new recipes. *)
Record State := mkState {
  User_objects : list User.t;
  Tag_objects : list Tag.t;
  Ingredient_objects : list Ingredient.t;
  Recipe_objects : list Recipe.t;
  Recipe_tags : list RecipeTag.t;
  RecipeIngredient_objects : list RecipeIngredient.t;
  Favorite_objects : list Favorite.t;
  ShoppingCart_objects : list ShoppingCart.t;
  Subscription_objects : list Subscription.t;
  Recipe_next_id : Z }.

Definition empty_db : State := mkState [] [] [] [] [] [] [] [] [] 1.

(** ** Exceptions and the two monads *)

Inductive Exc :=
| ValidationError (message : string)
| Http404
| NotAuthenticated
| PermissionDenied
| MethodNotAllowed
| DoesNotExist
| MultipleObjectsReturned
| ProtectedError
| IntegrityError
| KeyError (key : string)
| ValueError
| TypeError
| AttributeError
| AssertionError
| OverflowError.

#[global] Instance Exc_eq_dec : EqDecision Exc.
Proof. solve_decision. Defined.

(** Code that only reads the store: a value or an exception. *)
Definition Result (A : Type) : Type := Exc + A.

Definition rbind {A B} (m : Result A) (k : A → Result B) : Result B :=
  match m with inl e => inl e | inr a => k a end.

Fixpoint rmapM {A B} (f : A → Result B) (l : list A) : Result (list B) :=
  match l with
  | [] => inr []
  | x :: l' =>
      rbind (f x) (λ y, rbind (rmapM f l') (λ ys, inr (y :: ys)))
  end.

(** Code that writes: the store is threaded, and an exception leaves the
    writes made before it in place. *)
Definition M (A : Type) : Type := State → Result A * State.

Definition ret {A} (a : A) : M A := λ st, (inr a, st).
Definition raise {A} (e : Exc) : M A := λ st, (inl e, st).
Definition bind {A B} (m : M A) (k : A → M B) : M B :=
  λ st, match m st with
        | (inl e, st') => (inl e, st')
        | (inr a, st') => k a st'
        end.
Definition get_db : M State := λ st, (inr st, st).
Definition put_db (st' : State) : M unit := λ _, (inr tt, st').
Definition query {A} (q : State → Result A) : M A := λ st, (q st, st).

Notation "x <- m ;; k" := (bind m (λ x, k))
  (at level 100, m at next level, right associativity,
   format "'[v' x  <-  m  ;;  '/' k ']'").
Notation "m ;;; k" := (bind m (λ _, k))
  (at level 100, right associativity).

(** [@transaction.atomic]: when the body raises, every write it made is
    rolled back and the exception propagates. *)
Definition atomic {A} (m : M A) : M A :=
  λ st, match m st with
        | (inl e, _) => (inl e, st)
        | (inr a, st') => (inr a, st')
        end.

(** ** Requests, responses and what the project configures outside [api/] *)

Inductive Method := GET | POST | PATCH | DELETE.

#[global] Instance Method_eq_dec : EqDecision Method.
Proof. solve_decision. Defined.

Module Request.
(** [user] is [None] for [AnonymousUser]. *)
Record t := mk {
  method : Method;
  user : option User.t;
  query_params : gmap string string }.
#[global] Instance eq_dec : EqDecision t.
Proof. solve_decision. Defined.
End Request.

Definition is_authenticated (request : Request.t) : bool :=
  match Request.user request with Some _ => true | None => false end.

Inductive on_delete := CASCADE | PROTECT.

(** Declared outside the two files: the page size of the paginator
    (rest_framework's page-number pagination; [0] stands for no paginator),
    the permission class [api.permissions.IsAdminAuthorOrReadOnly], the
    [on_delete] of the foreign keys that point to [Recipe], and the
    database.  Two querysets of the views name no order ([order_by] is
    absent from them and the models' [Meta] is not in these files): the
    users joined with their followers, and the groups of the shopping list.
    The database returns their rows in an order of its own choosing, which
    may depend on everything it stores and on the user the query names; all
    that is known of it is that it loses and invents no row. *)
Record Settings := mkSettings {
  PAGE_SIZE : nat;
  has_permission : Request.t → bool;
  has_object_permission : Request.t → Recipe.t → bool;
  Recipe_on_delete : on_delete;
  following_order : State → User.t → list User.t → list User.t;
  group_order :
    State → User.t → list (string * string) → list (string * string);
  following_order_Permutation :
    ∀ st user rows, following_order st user rows ≡ₚ rows;
  group_order_Permutation :
    ∀ st user keys, group_order st user keys ≡ₚ keys }.

(** ** Querysets *)

(** [queryset.exists()] *)
Definition exists_ {A} (queryset : list A) : bool :=
  match queryset with [] => false | _ :: _ => true end.

(** [Model.objects.get(...)] on the rows that match. *)
Definition get_ {A} (matching : list A) : Result A :=
  match matching with
  | [] => inl DoesNotExist
  | [x] => inr x
  | _ :: _ :: _ => inl MultipleObjectsReturned
  end.

(** [get_object_or_404(Model, ...)] *)
Definition get_object_or_404 {A} (matching : list A) : Result A :=
  match matching with
  | [] => inl Http404
  | [x] => inr x
  | _ :: _ :: _ => inl MultipleObjectsReturned
  end.

Definition Zsum (l : list Z) : Z := foldr Z.add 0%Z l.

(** Python's [int(s)] on text: blanks around the number are skipped, a
    sign may precede the digits, and one underscore may stand between two
    digits; anything else is a [ValueError], and so is a number of more than
    4300 digits (the limit of [sys.set_int_max_str_digits], which Python
    has had by default since September 2022).  The text is read as ASCII:
    the blanks and decimal digits of other scripts, which [int] reads from
    the Unicode tables of its version, are refused here, so that a number
    this function returns is the number [int] returns. *)
Definition isspace (c : ascii) : bool :=
  let n := nat_of_ascii c in
  bool_decide (9 ≤ n ≤ 13) || bool_decide (n = 32).

Definition digit (c : ascii) : option Z :=
  let n := nat_of_ascii c in
  if bool_decide (48 ≤ n ≤ 57) then Some (Z.of_nat (n - 48)) else None.

Fixpoint lstrip (s : list ascii) : list ascii :=
  match s with
  | c :: s' => if isspace c then lstrip s' else s
  | [] => []
  end.

Definition strip (s : list ascii) : list ascii :=
  reverse (lstrip (reverse (lstrip s))).

(** The digits of a literal, most significant first: their value and their
    number.  [after_digit] tells that the character before was a digit, as
    an underscore and the end of the literal require. *)
Fixpoint digits (value : Z) (count : nat) (after_digit : bool)
    (s : list ascii) : option (Z * nat) :=
  match s with
  | [] => if after_digit then Some (value, count) else None
  | c :: s' =>
      match digit c with
      | Some d => digits (10 * value + d) (S count) true s'
      | None =>
          if after_digit && bool_decide (c = "_"%char)
          then digits value count false s'
          else None
      end
  end.

Definition int_max_str_digits : nat := 4300.

Definition int (s : string) : Result Z :=
  let literal := strip (String.list_ascii_of_string s) in
  let (negative, literal) :=
    match literal with
    | c :: literal' =>
        if bool_decide (c = "-"%char) then (true, literal')
        else if bool_decide (c = "+"%char) then (false, literal')
        else (false, literal)
    | [] => (false, [])
    end in
  match digits 0 0 false literal with
  | Some (value, count) =>
      if decide (int_max_str_digits < count) then inl ValueError
      else inr (if negative then - value else value)%Z
  | None => inl ValueError
  end.

(** [queryset[:n]]: a queryset refuses a negative bound (with an
    [AssertionError] up to Django 3.2, with a [ValueError] from Django 4.0
    on), and a bound beyond the 64-bit [LIMIT] of the database fails when
    the rows are fetched ([OverflowError] from SQLite, a [DataError] from
    PostgreSQL). *)
Definition slice_to {A} (queryset : list A) (n : Z) : Result (list A) :=
  if decide (n < 0)%Z then inl AssertionError
  else if decide (2 ^ 63 ≤ n)%Z then inl OverflowError
  else inr (take (Z.to_nat n) queryset).

(** [user.recipes.all()]: the recipes whose author is [obj]. *)
Definition User_recipes (st : State) (obj : User.t) : list Recipe.t :=
  filter (λ r, Recipe.author r = User.id obj) (Recipe_objects st).

(** [recipe.tags.all()]: [Tag] joined with the many-to-many table. *)
Definition Recipe_tags_all (st : State) (obj : Recipe.t) : list Tag.t :=
  rt ← Recipe_tags st;
  t ← Tag_objects st;
  if decide (RecipeTag.recipe rt = Recipe.id obj ∧ RecipeTag.tag rt = Tag.id t)
  then [t] else [].

(** [recipe.recipes.all()]: the [RecipeIngredient] rows of a recipe
    (the serializer reads them through [source='recipes']). *)
Definition Recipe_recipes (st : State) (obj : Recipe.t)
  : list RecipeIngredient.t :=
  filter (λ ri, RecipeIngredient.recipe ri = Recipe.id obj)
         (RecipeIngredient_objects st).

(** [recipe.ingredients.all()]: [Ingredient] joined with [RecipeIngredient]
    on the rows of the recipe. *)
Definition Recipe_ingredients_all (st : State) (obj : Recipe.t)
  : list Ingredient.t :=
  ri ← RecipeIngredient_objects st;
  i ← Ingredient_objects st;
  if decide (RecipeIngredient.recipe ri = Recipe.id obj
             ∧ RecipeIngredient.ingredient ri = Ingredient.id i)
  then [i] else [].

(** Following a foreign key to its row. *)
Definition User_get (st : State) (pk : Z) : Result User.t :=
  get_ (filter (λ u, User.id u = pk) (User_objects st)).
Definition Recipe_get (st : State) (pk : Z) : Result Recipe.t :=
  get_ (filter (λ r, Recipe.id r = pk) (Recipe_objects st)).
Definition Ingredient_get (st : State) (pk : Z) : Result Ingredient.t :=
  get_ (filter (λ i, Ingredient.id i = pk) (Ingredient_objects st)).
Definition Tag_get (st : State) (pk : Z) : Result Tag.t :=
  get_ (filter (λ t, Tag.id t = pk) (Tag_objects st)).

(** ** api/serializers.py: the read serializers

    A serializer's [context.get('request')] is an [option Request.t]; its
    [.data] is a record of the fields in [Meta.fields]. *)

Module UserGetData.
Record t := mk {
  email : string; id : Z; username : string; first_name : string;
  last_name : string; is_subscribed : bool }.
End UserGetData.

(** What a serialized image field is (rest_framework's
    [FileField.to_representation], which [ImageField] and the project's
    [Base64ImageField] inherit): [null] for a row without a file, and
    otherwise the URL the storage gives the file, made absolute by the
    request of the context when there is one.  The text of a URL belongs to
    the storage and to the host of the request; here a URL is what it is
    built from. *)
Module Url.
Record t := mk { context : option Request.t; name : string }.
End Url.

Definition ImageField_to_representation (context : option Request.t)
    (value : string) : option Url.t :=
  if decide (value = "") then None else Some (Url.mk context value).

Module RecipeSmallData.
Record t := mk {
  id : Z; name : string; image : option Url.t; cooking_time : Z }.
End RecipeSmallData.

Module UserSubscribeRepresentData.
Record t := mk {
  email : string; id : Z; username : string; first_name : string;
  last_name : string; is_subscribed : bool;
  recipes : list RecipeSmallData.t; recipes_count : nat }.
End UserSubscribeRepresentData.

Module RecipeIngredientData.
Record t := mk {
  id : Z; name : string; measurement_unit : string; amount : Z }.
End RecipeIngredientData.

Module RecipeReadData.
Record t := mk {
  id : Z; tags : list Tag.t; author : UserGetData.t;
  ingredients : list RecipeIngredientData.t;
  is_favorited : bool; is_in_shopping_cart : bool;
  name : string; image : option Url.t; text : string; cooking_time : Z }.
End RecipeReadData.

Module UserGetSerializer.

Definition get_is_subscribed (context : option Request.t) (st : State)
    (obj : User.t) : Result bool :=
  match context with
  | None => inl AttributeError
  | Some request =>
      inr (match Request.user request with
           | None => false
           | Some user =>
               exists_ (filter (λ s, Subscription.user s = User.id user
                                     ∧ Subscription.author s = User.id obj)
                               (Subscription_objects st))
           end)
  end.

Definition to_representation (context : option Request.t) (st : State)
    (obj : User.t) : Result UserGetData.t :=
  rbind (get_is_subscribed context st obj) (λ is_subscribed,
  inr (UserGetData.mk (User.email obj) (User.id obj) (User.username obj)
         (User.first_name obj) (User.last_name obj) is_subscribed)).

End UserGetSerializer.

Module RecipeSmallSerializer.

Definition to_representation (context : option Request.t) (obj : Recipe.t)
    : RecipeSmallData.t :=
  RecipeSmallData.mk (Recipe.id obj) (Recipe.name obj)
    (ImageField_to_representation context (Recipe.image obj))
    (Recipe.cooking_time obj).

End RecipeSmallSerializer.

Module UserSubscribeRepresentSerializer.

Definition get_recipes (context : option Request.t) (st : State)
    (obj : User.t) : Result (list RecipeSmallData.t) :=
  let recipes_limit :=
    match context with
    | Some request => Request.query_params request !! "recipes_limit"
    | None => None
    end in
  let recipes := User_recipes st obj in
  rbind (match recipes_limit with
         | None | Some "" => inr recipes
         | Some limit => rbind (int limit) (slice_to (User_recipes st obj))
         end) (λ recipes,
  inr (RecipeSmallSerializer.to_representation context <$> recipes)).

Definition get_recipes_count (st : State) (obj : User.t) : nat :=
  length (User_recipes st obj).

Definition to_representation (context : option Request.t) (st : State)
    (obj : User.t) : Result UserSubscribeRepresentData.t :=
  rbind (UserGetSerializer.get_is_subscribed context st obj) (λ is_subscribed,
  rbind (get_recipes context st obj) (λ recipes,
  inr (UserSubscribeRepresentData.mk
         (User.email obj) (User.id obj) (User.username obj)
         (User.first_name obj) (User.last_name obj) is_subscribed
         recipes (get_recipes_count st obj)))).

End UserSubscribeRepresentSerializer.

Module RecipeIngredientSerializer.

(** [id], [name] and [measurement_unit] are read through the [ingredient]
    foreign key of the row. *)
Definition to_representation (st : State) (obj : RecipeIngredient.t)
    : Result RecipeIngredientData.t :=
  rbind (Ingredient_get st (RecipeIngredient.ingredient obj)) (λ ingredient,
  inr (RecipeIngredientData.mk (Ingredient.id ingredient)
         (Ingredient.name ingredient) (Ingredient.measurement_unit ingredient)
         (RecipeIngredient.amount obj))).

End RecipeIngredientSerializer.

Module RecipeReadSerializer.

Definition get_is_favorited (context : option Request.t) (st : State)
    (obj : Recipe.t) : Result bool :=
  match context with
  | None => inl AttributeError
  | Some request =>
      inr (match Request.user request with
           | None => false
           | Some user =>
               exists_ (filter (λ f, Favorite.user f = User.id user
                                     ∧ Favorite.recipe f = Recipe.id obj)
                               (Favorite_objects st))
           end)
  end.

Definition get_is_in_shopping_cart (context : option Request.t) (st : State)
    (obj : Recipe.t) : Result bool :=
  match context with
  | None => inl AttributeError
  | Some request =>
      inr (match Request.user request with
           | None => false
           | Some user =>
               exists_ (filter (λ c, ShoppingCart.user c = User.id user
                                     ∧ ShoppingCart.recipe c = Recipe.id obj)
                               (ShoppingCart_objects st))
           end)
  end.

Definition to_representation (context : option Request.t) (st : State)
    (obj : Recipe.t) : Result RecipeReadData.t :=
  let tags := Recipe_tags_all st obj in
  rbind (User_get st (Recipe.author obj)) (λ author,
  rbind (UserGetSerializer.to_representation context st author) (λ author,
  rbind (rmapM (RecipeIngredientSerializer.to_representation st)
               (Recipe_recipes st obj)) (λ ingredients,
  rbind (get_is_favorited context st obj) (λ is_favorited,
  rbind (get_is_in_shopping_cart context st obj) (λ is_in_shopping_cart,
  inr (RecipeReadData.mk (Recipe.id obj) tags author ingredients
         is_favorited is_in_shopping_cart (Recipe.name obj)
         (ImageField_to_representation context (Recipe.image obj))
         (Recipe.text obj) (Recipe.cooking_time obj))))))).

End RecipeReadSerializer.

(** ** api/serializers.py: the write serializers *)

Definition invalid_pk : string := "Invalid pk - object does not exist.".
Definition field_required : string := "This field is required.".
Definition field_blank : string := "This field may not be blank.".

Module UserSubscribeSerializer.

(** [data={'user': request.user.id, 'author': author.id}] *)
Record data := mk_data { user : Z; author : Z }.
(** The validated data holds the two [User] instances. *)
Record validated := mk_validated { v_user : User.t; v_author : User.t }.

Definition unique_message : string :=
  "Вы уже подписаны на этого пользователя".

(** The two primary-key fields of [fields = '__all__']. *)
Definition to_internal_value (st : State) (d : data) : Result validated :=
  match User_get st (user d), User_get st (author d) with
  | inr u, inr a => inr (mk_validated u a)
  | _, _ => inl (ValidationError invalid_pk)
  end.

(** [UniqueTogetherValidator(queryset=Subscription.objects.all(),
    fields=('user', 'author'))] *)
Definition UniqueTogetherValidator (st : State) (v : validated)
    : Result unit :=
  if exists_ (filter (λ s, Subscription.user s = User.id (v_user v)
                           ∧ Subscription.author s = User.id (v_author v))
                     (Subscription_objects st))
  then inl (ValidationError unique_message)
  else inr tt.

Definition validate (context : option Request.t) (v : validated)
    : Result validated :=
  match context with
  | None => inl AttributeError
  | Some request =>
      if bool_decide (User.id <$> Request.user request
                      = Some (User.id (v_author v)))
      then inl (ValidationError "Нельзя подписываться на самого себя!")
      else inr v
  end.

(** [is_valid(raise_exception=True)]: the fields, then the validators of
    [Meta], then [validate]. *)
Definition is_valid (context : option Request.t) (st : State) (d : data)
    : Result validated :=
  rbind (to_internal_value st d) (λ v,
  rbind (UniqueTogetherValidator st v) (λ _,
  validate context v)).

(** [save()] creates the row. *)
Definition save (v : validated) : M Subscription.t :=
  λ st,
    let instance :=
      Subscription.mk (User.id (v_user v)) (User.id (v_author v)) in
    (inr instance,
     mkState (User_objects st) (Tag_objects st) (Ingredient_objects st)
       (Recipe_objects st) (Recipe_tags st) (RecipeIngredient_objects st)
       (Favorite_objects st) (ShoppingCart_objects st)
       (Subscription_objects st ++ [instance]) (Recipe_next_id st)).

Definition to_representation (context : option Request.t) (st : State)
    (instance : Subscription.t) : Result UserSubscribeRepresentData.t :=
  rbind (User_get st (Subscription.author instance)) (λ author,
  UserSubscribeRepresentSerializer.to_representation context st author).

End UserSubscribeSerializer.

(** [FavoriteSerializer] and [ShoppingCartSerializer] are the same code over
    two models, and the view helpers [create_model_instance] and
    [delete_model_instance] take the serializer or the model as an argument:
    the interface both models offer. *)
Class UserRecipeModel (T : Type) := {
  um_user : T → Z;
  um_recipe : T → Z;
  um_new : Z → Z → T;
  um_objects : State → list T;
  um_set_objects : list T → State → State;
  (** the message of the serializer's [UniqueTogetherValidator] *)
  um_unique_message : string }.

#[global] Instance Favorite_model : UserRecipeModel Favorite.t := {
  um_user := Favorite.user;
  um_recipe := Favorite.recipe;
  um_new := Favorite.mk;
  um_objects := Favorite_objects;
  um_set_objects rows st :=
    mkState (User_objects st) (Tag_objects st) (Ingredient_objects st)
      (Recipe_objects st) (Recipe_tags st) (RecipeIngredient_objects st)
      rows (ShoppingCart_objects st)
      (Subscription_objects st) (Recipe_next_id st);
  um_unique_message := "Рецепт уже добавлен в избранное" }.

#[global] Instance ShoppingCart_model : UserRecipeModel ShoppingCart.t := {
  um_user := ShoppingCart.user;
  um_recipe := ShoppingCart.recipe;
  um_new := ShoppingCart.mk;
  um_objects := ShoppingCart_objects;
  um_set_objects rows st :=
    mkState (User_objects st) (Tag_objects st) (Ingredient_objects st)
      (Recipe_objects st) (Recipe_tags st) (RecipeIngredient_objects st)
      (Favorite_objects st) rows
      (Subscription_objects st) (Recipe_next_id st);
  um_unique_message := "Рецепт уже добавлен в список покупок" }.

Module UserRecipeSerializer.
Section Serializer.
Context {T : Type} `{UserRecipeModel T}.

(** [data={'user': request.user.id, 'recipe': instance.id}] *)
Record data := mk_data { user : Z; recipe : Z }.
Record validated := mk_validated { v_user : User.t; v_recipe : Recipe.t }.

Definition to_internal_value (st : State) (d : data) : Result validated :=
  match User_get st (user d), Recipe_get st (recipe d) with
  | inr u, inr r => inr (mk_validated u r)
  | _, _ => inl (ValidationError invalid_pk)
  end.

(** [UniqueTogetherValidator(queryset=Model.objects.all(),
    fields=('user', 'recipe'))] *)
Definition UniqueTogetherValidator (st : State) (v : validated)
    : Result unit :=
  if exists_ (filter (λ x : T, um_user x = User.id (v_user v)
                               ∧ um_recipe x = Recipe.id (v_recipe v))
                     (um_objects st))
  then inl (ValidationError um_unique_message)
  else inr tt.

Definition is_valid (st : State) (d : data) : Result validated :=
  rbind (to_internal_value st d) (λ v,
  rbind (UniqueTogetherValidator st v) (λ _, inr v)).

Definition save (v : validated) : M T :=
  λ st,
    let instance := um_new (User.id (v_user v)) (Recipe.id (v_recipe v)) in
    (inr instance, um_set_objects (um_objects st ++ [instance]) st).

Definition to_representation (context : option Request.t) (st : State)
    (instance : T) : Result RecipeSmallData.t :=
  rbind (Recipe_get st (um_recipe instance)) (λ recipe,
  inr (RecipeSmallSerializer.to_representation context recipe)).

End Serializer.
End UserRecipeSerializer.

(** An entry of the [ingredients] list
    ([RecipeIngredientCreateSerializer], fields [id] and [amount]). *)
Module Item.
Record t := mk { id : Z; amount : Z }.
End Item.

(** The dictionary a [RecipeCreateSerializer] validates: a key is absent
    ([None]) or holds a value of the type of its field; tags are primary
    keys of [Tag]. *)
Module RecipeData.
Record t := mk {
  ingredients : option (list Item.t);
  tags : option (list Z);
  image : option string;
  name : option string;
  text : option string;
  cooking_time : option Z }.
End RecipeData.

Module RecipeCreateSerializer.

(** What [obj.get(field)] can return, and Python's truth value of it. *)
Inductive value :=
| VStr (s : string)
| VInt (n : Z)
| VTags (l : list Z)
| VItems (l : list Item.t).

Definition get (obj : RecipeData.t) (field : string) : option value :=
  if decide (field = "ingredients") then VItems <$> RecipeData.ingredients obj
  else if decide (field = "tags") then VTags <$> RecipeData.tags obj
  else if decide (field = "image") then VStr <$> RecipeData.image obj
  else if decide (field = "name") then VStr <$> RecipeData.name obj
  else if decide (field = "text") then VStr <$> RecipeData.text obj
  else if decide (field = "cooking_time")
       then VInt <$> RecipeData.cooking_time obj
  else None.

Definition truthy (v : option value) : bool :=
  match v with
  | None => false
  | Some (VStr s) => negb (bool_decide (s = ""))
  | Some (VInt n) => negb (bool_decide (n = 0%Z))
  | Some (VTags l) => negb (bool_decide (l = []))
  | Some (VItems l) => negb (bool_decide (l = []))
  end.

(** The loop [for field in ['name', 'text', 'cooking_time']]. *)
Fixpoint validate_required (fields : list string) (obj : RecipeData.t)
    : Result unit :=
  match fields with
  | [] => inr tt
  | field :: fields' =>
      if truthy (get obj field) then validate_required fields' obj
      else inl (ValidationError (field +:+ " - Обязательное поле."))
  end.

Definition validate (obj : RecipeData.t) : Result RecipeData.t :=
  rbind (validate_required ["name"; "text"; "cooking_time"] obj) (λ _,
  if negb (truthy (get obj "tags"))
  then inl (ValidationError "Нужно указать минимум 1 тег.")
  else if negb (truthy (get obj "ingredients"))
  then inl (ValidationError "Нужно указать минимум 1 ингредиент.")
  else
    let inrgedient_id_list :=
      Item.id <$> default [] (RecipeData.ingredients obj) in
    let unique_ingredient_id_list : gset Z :=
      list_to_set inrgedient_id_list in
    if decide (length inrgedient_id_list ≠ size unique_ingredient_id_list)
    then inl (ValidationError "Ингредиенты должны быть уникальны.")
    else inr obj).

Definition present {A} (o : option A) : bool :=
  match o with Some _ => true | None => false end.

(** The fields run before [validate]: every field is required unless the
    update is partial, [name] and [text] may not be blank
    ([extra_kwargs]), and every tag is a primary key of [Tag.objects.all()].
    Validators that the model fields carry are declared outside this file. *)
Definition to_internal_value (partial : bool) (st : State)
    (d : RecipeData.t) : Result RecipeData.t :=
  if negb partial
     && negb (present (RecipeData.ingredients d)
              && present (RecipeData.tags d)
              && present (RecipeData.image d)
              && present (RecipeData.name d)
              && present (RecipeData.text d)
              && present (RecipeData.cooking_time d))
  then inl (ValidationError field_required)
  else if bool_decide (RecipeData.name d = Some "")
          || bool_decide (RecipeData.text d = Some "")
  then inl (ValidationError field_blank)
  else
    match rmapM (Tag_get st) (default [] (RecipeData.tags d)) with
    | inr _ => inr d
    | inl _ => inl (ValidationError invalid_pk)
    end.

Definition is_valid (partial : bool) (st : State) (d : RecipeData.t)
    : Result RecipeData.t :=
  rbind (to_internal_value partial st d) validate.

(** [recipe.tags.set(tags)]: the rows of the recipe whose tag is not in
    [tags] go, and one row is added for every tag of [tags] that the recipe
    does not have yet. *)
Definition Recipe_tags_set (recipe : Recipe.t) (tags : list Z) : M unit :=
  λ st,
    let old_ids :=
      RecipeTag.tag <$>
        filter (λ rt, RecipeTag.recipe rt = Recipe.id recipe)
               (Recipe_tags st) in
    let kept :=
      filter (λ rt, ¬ (RecipeTag.recipe rt = Recipe.id recipe
                       ∧ RecipeTag.tag rt ∉ tags)) (Recipe_tags st) in
    let new_objs :=
      remove_dups (filter (λ t, t ∉ old_ids) tags) in
    (inr tt,
     mkState (User_objects st) (Tag_objects st) (Ingredient_objects st)
       (Recipe_objects st)
       (kept ++ (RecipeTag.mk (Recipe.id recipe) <$> new_objs))
       (RecipeIngredient_objects st) (Favorite_objects st)
       (ShoppingCart_objects st) (Subscription_objects st)
       (Recipe_next_id st)).

(** [RecipeIngredient.objects.bulk_create(rows)] *)
Definition RecipeIngredient_bulk_create (rows : list RecipeIngredient.t)
    : M unit :=
  λ st,
    (inr tt,
     mkState (User_objects st) (Tag_objects st) (Ingredient_objects st)
       (Recipe_objects st) (Recipe_tags st)
       (RecipeIngredient_objects st ++ rows) (Favorite_objects st)
       (ShoppingCart_objects st) (Subscription_objects st)
       (Recipe_next_id st)).

Definition tags_and_ingredients_set (recipe : Recipe.t) (tags : list Z)
    (ingredients : list Item.t) : M unit :=
  atomic (
    Recipe_tags_set recipe tags ;;;
    rows <- query (λ st,
      rmapM (λ ingredient,
               rbind (Ingredient_get st (Item.id ingredient)) (λ i,
               inr (RecipeIngredient.mk (Recipe.id recipe) (Ingredient.id i)
                      (Item.amount ingredient))))
            ingredients) ;;
    RecipeIngredient_bulk_create rows).

(** [validated_data.pop(key)] *)
Definition pop {A} (key : string) (v : option A) : M A :=
  match v with Some a => ret a | None => raise (KeyError key) end.

(** [Recipe.objects.create(author=user, **validated_data)] with the keys
    left after the two [pop]s: the row gets the next primary key; an absent
    string is stored empty, an absent [cooking_time] violates NOT NULL, and
    [AnonymousUser] is no author. *)
Definition Recipe_objects_create (author : option User.t)
    (validated_data : RecipeData.t) : M Recipe.t :=
  match author, RecipeData.cooking_time validated_data with
  | None, _ => raise ValueError
  | Some _, None => raise IntegrityError
  | Some author, Some cooking_time =>
      λ st,
        let recipe :=
          Recipe.mk (Recipe_next_id st) (User.id author)
            (default "" (RecipeData.name validated_data))
            (default "" (RecipeData.image validated_data))
            (default "" (RecipeData.text validated_data))
            cooking_time in
        (inr recipe,
         mkState (User_objects st) (Tag_objects st) (Ingredient_objects st)
           (Recipe_objects st ++ [recipe]) (Recipe_tags st)
           (RecipeIngredient_objects st) (Favorite_objects st)
           (ShoppingCart_objects st) (Subscription_objects st)
           (Recipe_next_id st + 1))
  end.

Definition create (request : Request.t) (validated_data : RecipeData.t)
    : M Recipe.t :=
  atomic (
    tags <- pop "tags" (RecipeData.tags validated_data) ;;
    ingredients <- pop "ingredients" (RecipeData.ingredients validated_data) ;;
    recipe <- Recipe_objects_create (Request.user request) validated_data ;;
    tags_and_ingredients_set recipe tags ingredients ;;;
    ret recipe).

(** [RecipeIngredient.objects.filter(recipe=instance,
    ingredient__in=instance.ingredients.all()).delete()] *)
Definition RecipeIngredient_delete_of (instance : Recipe.t) : M unit :=
  λ st,
    let ingredient__in := Ingredient.id <$> Recipe_ingredients_all st instance in
    (inr tt,
     mkState (User_objects st) (Tag_objects st) (Ingredient_objects st)
       (Recipe_objects st) (Recipe_tags st)
       (filter (λ ri, ¬ (RecipeIngredient.recipe ri = Recipe.id instance
                         ∧ RecipeIngredient.ingredient ri ∈ ingredient__in))
               (RecipeIngredient_objects st))
       (Favorite_objects st) (ShoppingCart_objects st)
       (Subscription_objects st) (Recipe_next_id st)).

(** [instance.save()]: the row with the primary key of [instance] is
    written, or inserted when there is none.  An image that came with the
    data is filed by the storage at this point; the row then holds that
    image, and the name the storage gave the file is not modelled. *)
Definition Recipe_save (instance : Recipe.t) : M unit :=
  λ st,
    let rows :=
      if exists_ (filter (λ r, Recipe.id r = Recipe.id instance)
                         (Recipe_objects st))
      then (λ r, if decide (Recipe.id r = Recipe.id instance)
                 then instance else r) <$> Recipe_objects st
      else Recipe_objects st ++ [instance] in
    (inr tt,
     mkState (User_objects st) (Tag_objects st) (Ingredient_objects st)
       rows (Recipe_tags st) (RecipeIngredient_objects st)
       (Favorite_objects st) (ShoppingCart_objects st)
       (Subscription_objects st) (Recipe_next_id st)).

Definition update (instance : Recipe.t) (validated_data : RecipeData.t)
    : M Recipe.t :=
  atomic (
    let instance :=
      Recipe.mk (Recipe.id instance) (Recipe.author instance)
        (default (Recipe.name instance) (RecipeData.name validated_data))
        (default (Recipe.image instance) (RecipeData.image validated_data))
        (default (Recipe.text instance) (RecipeData.text validated_data))
        (default (Recipe.cooking_time instance)
                 (RecipeData.cooking_time validated_data)) in
    tags <- pop "tags" (RecipeData.tags validated_data) ;;
    ingredients <- pop "ingredients" (RecipeData.ingredients validated_data) ;;
    RecipeIngredient_delete_of instance ;;;
    tags_and_ingredients_set instance tags ingredients ;;;
    Recipe_save instance ;;;
    ret instance).

Definition to_representation (context : option Request.t) (st : State)
    (instance : Recipe.t) : Result RecipeReadData.t :=
  RecipeReadSerializer.to_representation context st instance.

End RecipeCreateSerializer.

(** ** api/views.py *)

Definition nl : string := String (Ascii.ascii_of_nat 10) "".

(** A row of [.values('ingredient__name',
    'ingredient__measurement_unit').annotate(ingredient_amount=Sum(...))]. *)
Module CartRow.
Record t := mk {
  ingredient__name : string;
  ingredient__measurement_unit : string;
  ingredient_amount : Z }.
End CartRow.

Inductive Data :=
| NoData
| Errors (errors : string)
| UserSubscribe (d : UserSubscribeRepresentData.t)
| RecipeSmall (d : RecipeSmallData.t)
| RecipeRead (d : RecipeReadData.t)
| Page (count : nat) (results : list UserSubscribeRepresentData.t)
| Text (content : list string).

Record Response := mkResponse { status_code : nat; data : Data }.

Definition HTTP_200_OK := 200.
Definition HTTP_201_CREATED := 201.
Definition HTTP_204_NO_CONTENT := 204.
Definition HTTP_400_BAD_REQUEST := 400.

(** What rest_framework raises for a request the permission class refuses. *)
Definition permission_denied (request : Request.t) : Exc :=
  if is_authenticated request then PermissionDenied else NotAuthenticated.

Module UserViewSet.

(** [User.objects.filter(following__user=user)]: [User] joined with the
    subscriptions that name the row as [author], kept where the
    subscription's [user] is the given one, in the order the database
    returns the rows. *)
Definition filter_following__user (cfg : Settings) (st : State)
    (user : User.t) : list User.t :=
  following_order cfg st user (
    u ← User_objects st;
    s ← Subscription_objects st;
    if decide (Subscription.author s = User.id u
               ∧ Subscription.user s = User.id user)
    then [u] else []).

(** [paginate_queryset] of the page-number paginator: the page named by the
    [page] query parameter (the first one by default, ['last'] for the last
    one), [NotFound] for a page that does not exist, [None] without a
    paginator. *)
Definition paginate_queryset {A} (cfg : Settings) (request : Request.t)
    (queryset : list A) : Result (option (list A)) :=
  let page_size := PAGE_SIZE cfg in
  if decide (page_size = 0) then inr None
  else
    let count := length queryset in
    let num_pages := Nat.max 1 ((count + page_size - 1) `div` page_size) in
    let number : Result Z :=
      match Request.query_params request !! "page" with
      | None => inr 1%Z
      | Some s =>
          if decide (s = "last") then inr (Z.of_nat num_pages)
          else match int s with inr n => inr n | inl _ => inl Http404 end
      end in
    rbind number (λ number,
    if decide (number < 1 ∨ Z.of_nat num_pages < number)%Z then inl Http404
    else
      let bottom := (Z.to_nat number - 1) * page_size in
      inr (Some (take page_size (drop bottom queryset)))).

Definition subscriptions (cfg : Settings) (request : Request.t)
    : M Response :=
  match Request.method request with
  | GET =>
      query (λ st,
        match Request.user request with
        | None => inl TypeError
        | Some user =>
            let queryset := filter_following__user cfg st user in
            rbind (paginate_queryset cfg request queryset) (λ page,
            match page with
            | None => inl TypeError
            | Some page =>
                rbind (rmapM (UserSubscribeRepresentSerializer.to_representation
                                (Some request) st) page) (λ data,
                inr (mkResponse HTTP_200_OK (Page (length queryset) data)))
            end)
        end)
  | _ => raise MethodNotAllowed
  end.

(** [Subscription.objects.get(user=..., author=...).delete()] *)
Definition Subscription_get_delete (user author : Z) : M unit :=
  λ st,
    let matching (s : Subscription.t) :=
      Subscription.user s = user ∧ Subscription.author s = author in
    match get_ (filter matching (Subscription_objects st)) with
    | inl e => (inl e, st)
    | inr _ =>
        (inr tt,
         mkState (User_objects st) (Tag_objects st) (Ingredient_objects st)
           (Recipe_objects st) (Recipe_tags st) (RecipeIngredient_objects st)
           (Favorite_objects st) (ShoppingCart_objects st)
           (filter (λ s, ¬ matching s) (Subscription_objects st))
           (Recipe_next_id st))
    end.

Definition subscribe (request : Request.t) (id : Z) : M Response :=
  match Request.user request with
  | None => raise NotAuthenticated
  | Some user =>
      match Request.method request with
      | POST =>
          author <- query (λ st,
            get_object_or_404
              (filter (λ u, User.id u = id) (User_objects st))) ;;
          validated <- query (λ st,
            UserSubscribeSerializer.is_valid (Some request) st
              (UserSubscribeSerializer.mk_data
                 (User.id user) (User.id author))) ;;
          instance <- UserSubscribeSerializer.save validated ;;
          data <- query (λ st,
            UserSubscribeSerializer.to_representation
              (Some request) st instance) ;;
          ret (mkResponse HTTP_201_CREATED (UserSubscribe data))
      | DELETE =>
          author <- query (λ st,
            get_object_or_404
              (filter (λ u, User.id u = id) (User_objects st))) ;;
          st <- get_db ;;
          if negb (exists_
                     (filter (λ s, Subscription.user s = User.id user
                                   ∧ Subscription.author s = User.id author)
                             (Subscription_objects st)))
          then ret (mkResponse HTTP_400_BAD_REQUEST
                      (Errors "Вы не подписаны на этого пользователя"))
          else
            Subscription_get_delete (User.id user) id ;;;
            ret (mkResponse HTTP_204_NO_CONTENT NoData)
      | _ => raise MethodNotAllowed
      end
  end.

End UserViewSet.

Module RecipeViewSet.

Section ModelInstance.
Context {T : Type} `{UserRecipeModel T}.

Definition create_model_instance (request : Request.t) (user : User.t)
    (instance : Recipe.t) : M Response :=
  validated <- query (λ st,
    UserRecipeSerializer.is_valid (T:=T) st
      (UserRecipeSerializer.mk_data (User.id user) (Recipe.id instance))) ;;
  saved <- UserRecipeSerializer.save (T:=T) validated ;;
  data <- query (λ st,
    UserRecipeSerializer.to_representation (Some request) st saved) ;;
  ret (mkResponse HTTP_201_CREATED (RecipeSmall data)).

Definition delete_model_instance (request : Request.t) (user : User.t)
    (instance : Recipe.t) (error_message : string) : M Response :=
  λ st,
    let matching (x : T) :=
      um_user x = User.id user ∧ um_recipe x = Recipe.id instance in
    if negb (exists_ (filter matching (um_objects st)))
    then (inr (mkResponse HTTP_400_BAD_REQUEST (Errors error_message)), st)
    else
      (inr (mkResponse HTTP_204_NO_CONTENT NoData),
       um_set_objects (filter (λ x, ¬ matching x) (um_objects st)) st).

(** The body shared by the [favorite] and [shopping_cart] actions
    ([permission_classes=[IsAuthenticated]], methods [post] and [delete]). *)
Definition user_recipe_action (request : Request.t) (pk : Z)
    (error_message : string) : M Response :=
  match Request.user request with
  | None => raise NotAuthenticated
  | Some user =>
      recipe <- query (λ st,
        get_object_or_404
          (filter (λ r, Recipe.id r = pk) (Recipe_objects st))) ;;
      match Request.method request with
      | POST => create_model_instance request user recipe
      | DELETE => delete_model_instance request user recipe error_message
      | _ => raise MethodNotAllowed
      end
  end.

End ModelInstance.

Definition favorite (request : Request.t) (pk : Z) : M Response :=
  user_recipe_action (T:=Favorite.t) request pk
    "У вас нет этого рецепта в избранном".

Definition shopping_cart (request : Request.t) (pk : Z) : M Response :=
  user_recipe_action (T:=ShoppingCart.t) request pk
    "У вас нет этого рецепта в списке покупок".

(** [RecipeIngredient.objects.filter(recipe__carts__user=user)] with the
    two columns of [values(...)]: [RecipeIngredient] joined with its
    [Recipe], with the [ShoppingCart] rows of that recipe kept where the
    cart's [user] is the given one, and with its [Ingredient]. *)
Definition filter_recipe__carts__user (st : State) (user : User.t)
    : list (string * string * Z) :=
  ri ← RecipeIngredient_objects st;
  r ← filter (λ r, Recipe.id r = RecipeIngredient.recipe ri)
             (Recipe_objects st);
  c ← filter (λ c, ShoppingCart.recipe c = Recipe.id r
                   ∧ ShoppingCart.user c = User.id user)
             (ShoppingCart_objects st);
  i ← filter (λ i, Ingredient.id i = RecipeIngredient.ingredient ri)
             (Ingredient_objects st);
  [(Ingredient.name i, Ingredient.measurement_unit i,
    RecipeIngredient.amount ri)].

(** [.values(name, unit).annotate(ingredient_amount=Sum('amount'))]: one
    row per distinct pair of the two columns, with the sum of the amounts of
    the rows that carry the pair, the groups in the order the database
    returns them. *)
Definition values_annotate_Sum (cfg : Settings) (st : State)
    (user : User.t) (rows : list (string * string * Z)) : list CartRow.t :=
  (λ key : string * string,
     CartRow.mk key.1 key.2
       (Zsum (snd <$> filter (λ row, row.1 = key) rows)))
  <$> group_order cfg st user (remove_dups (fst <$> rows)).

Definition shopping_line (ingredient : CartRow.t) : string :=
  let name := CartRow.ingredient__name ingredient in
  let unit := CartRow.ingredient__measurement_unit ingredient in
  let amount := CartRow.ingredient_amount ingredient in
  nl +:+ name +:+ " - " +:+ pretty amount +:+ ", " +:+ unit.

Definition download_shopping_cart (cfg : Settings) (request : Request.t)
    : M Response :=
  match Request.user request with
  | None => raise NotAuthenticated
  | Some user =>
      match Request.method request with
      | GET =>
          query (λ st,
            let ingredients :=
              values_annotate_Sum cfg st user
                (filter_recipe__carts__user st user) in
            let shopping_list :=
              ("Список покупок:" +:+ nl) :: (shopping_line <$> ingredients) in
            inr (mkResponse HTTP_200_OK (Text shopping_list)))
      | _ => raise MethodNotAllowed
      end
  end.

(** The inherited [create], [partial_update] and [destroy] of
    [ModelViewSet] with [RecipeCreateSerializer] ([put] is not among
    [http_method_names]). *)
Definition create (cfg : Settings) (request : Request.t)
    (data : RecipeData.t) : M Response :=
  if negb (has_permission cfg request)
  then raise (permission_denied request)
  else
    validated <- query (λ st,
      RecipeCreateSerializer.is_valid false st data) ;;
    recipe <- RecipeCreateSerializer.create request validated ;;
    repr <- query (λ st,
      RecipeCreateSerializer.to_representation (Some request) st recipe) ;;
    ret (mkResponse HTTP_201_CREATED (RecipeRead repr)).

Definition get_object (cfg : Settings) (request : Request.t) (pk : Z)
    : M Recipe.t :=
  instance <- query (λ st,
    get_object_or_404
      (filter (λ r, Recipe.id r = pk) (Recipe_objects st))) ;;
  if negb (has_object_permission cfg request instance)
  then raise (permission_denied request)
  else ret instance.

Definition partial_update (cfg : Settings) (request : Request.t) (pk : Z)
    (data : RecipeData.t) : M Response :=
  if negb (has_permission cfg request)
  then raise (permission_denied request)
  else
    instance <- get_object cfg request pk ;;
    validated <- query (λ st,
      RecipeCreateSerializer.is_valid true st data) ;;
    instance <- RecipeCreateSerializer.update instance validated ;;
    repr <- query (λ st,
      RecipeCreateSerializer.to_representation (Some request) st instance) ;;
    ret (mkResponse HTTP_200_OK (RecipeRead repr)).

(** [instance.delete()]: the rows of the many-to-many table go with the
    recipe; the rows of [RecipeIngredient], [Favorite] and [ShoppingCart]
    that point to it go too under [CASCADE] and block the deletion under
    [PROTECT]. *)
Definition Recipe_delete (cfg : Settings) (instance : Recipe.t) : M unit :=
  λ st,
    let pk := Recipe.id instance in
    let ris := filter (λ ri, RecipeIngredient.recipe ri ≠ pk)
                      (RecipeIngredient_objects st) in
    let favs := filter (λ f, Favorite.recipe f ≠ pk) (Favorite_objects st) in
    let carts := filter (λ c, ShoppingCart.recipe c ≠ pk)
                        (ShoppingCart_objects st) in
    match Recipe_on_delete cfg with
    | PROTECT =>
        if bool_decide (ris = RecipeIngredient_objects st
                        ∧ favs = Favorite_objects st
                        ∧ carts = ShoppingCart_objects st)
        then
          (inr tt,
           mkState (User_objects st) (Tag_objects st) (Ingredient_objects st)
             (filter (λ r, Recipe.id r ≠ pk) (Recipe_objects st))
             (filter (λ rt, RecipeTag.recipe rt ≠ pk) (Recipe_tags st))
             ris favs carts (Subscription_objects st) (Recipe_next_id st))
        else (inl ProtectedError, st)
    | CASCADE =>
        (inr tt,
         mkState (User_objects st) (Tag_objects st) (Ingredient_objects st)
           (filter (λ r, Recipe.id r ≠ pk) (Recipe_objects st))
           (filter (λ rt, RecipeTag.recipe rt ≠ pk) (Recipe_tags st))
           ris favs carts (Subscription_objects st) (Recipe_next_id st))
    end.

Definition destroy (cfg : Settings) (request : Request.t) (pk : Z)
    : M Response :=
  if negb (has_permission cfg request)
  then raise (permission_denied request)
  else
    instance <- get_object cfg request pk ;;
    Recipe_delete cfg instance ;;;
    ret (mkResponse HTTP_204_NO_CONTENT NoData).

End RecipeViewSet.

(** ** The operations of the API as one transition function *)

Inductive Action :=
| subscriptions
| subscribe (id : Z)
| favorite (pk : Z)
| shopping_cart (pk : Z)
| download_shopping_cart
| recipe_create (data : RecipeData.t)
| recipe_partial_update (pk : Z) (data : RecipeData.t)
| recipe_destroy (pk : Z).

Definition dispatch (cfg : Settings) (action : Action) (request : Request.t)
    : M Response :=
  match action with
  | subscriptions => UserViewSet.subscriptions cfg request
  | subscribe id => UserViewSet.subscribe request id
  | favorite pk => RecipeViewSet.favorite request pk
  | shopping_cart pk => RecipeViewSet.shopping_cart request pk
  | download_shopping_cart =>
      RecipeViewSet.download_shopping_cart cfg request
  | recipe_create data => RecipeViewSet.create cfg request data
  | recipe_partial_update pk data =>
      RecipeViewSet.partial_update cfg request pk data
  | recipe_destroy pk => RecipeViewSet.destroy cfg request pk
  end.

(** The stores the API can reach from the empty database once users, tags
    and ingredients are loaded. *)
Inductive reachable (cfg : Settings) : State → Prop :=
| reachable_init users tags ingredients :
    NoDup (User.id <$> users) →
    NoDup (Ingredient.id <$> ingredients) →
    reachable cfg (mkState users tags ingredients [] [] [] [] [] [] 1)
| reachable_step st action request :
    reachable cfg st →
    reachable cfg (dispatch cfg action request st).2.

#[global] Instance State_eq_dec : EqDecision State.
Proof. solve_decision. Defined.

(** ** Integrity of the store

    What the database schema and the validators keep true: primary keys
    are unique, recipe keys come from the sequence, the foreign keys of
    [RecipeIngredient] point to rows, and the three unique-together pairs
    hold. *)

Definition unique_together (st : State) : Prop :=
  NoDup (Subscription_objects st)
  ∧ NoDup (Favorite_objects st)
  ∧ NoDup (ShoppingCart_objects st).

Definition RecipeIngredient_fk_recipe (st : State) : Prop :=
  Forall (λ ri, RecipeIngredient.recipe ri
                ∈ Recipe.id <$> Recipe_objects st)
         (RecipeIngredient_objects st).

Definition RecipeIngredient_fk_ingredient (st : State) : Prop :=
  Forall (λ ri, RecipeIngredient.ingredient ri
                ∈ Ingredient.id <$> Ingredient_objects st)
         (RecipeIngredient_objects st).

Definition db_integrity (st : State) : Prop :=
  NoDup (User.id <$> User_objects st)
  ∧ NoDup (Ingredient.id <$> Ingredient_objects st)
  ∧ NoDup (Recipe.id <$> Recipe_objects st)
  ∧ Forall (λ r, (Recipe.id r < Recipe_next_id st)%Z) (Recipe_objects st)
  ∧ RecipeIngredient_fk_recipe st
  ∧ RecipeIngredient_fk_ingredient st.

Definition wf (st : State) : Prop := db_integrity st ∧ unique_together st.

#[global] Instance wf_dec st : Decision (wf st).
Proof.
  unfold wf, db_integrity, RecipeIngredient_fk_recipe,
    RecipeIngredient_fk_ingredient, unique_together. apply _.
Defined.

(** ** The vocabulary of the properties *)

(** A recipe is in the shopping cart of a user. *)
Definition in_cart (st : State) (user : User.t) (recipe : Z) : Prop :=
  Exists (λ c, ShoppingCart.user c = User.id user
               ∧ ShoppingCart.recipe c = recipe)
         (ShoppingCart_objects st).

(** The ingredient with primary key [pk] has this name and unit. *)
Definition ingredient_is (st : State) (pk : Z) (name unit : string) : Prop :=
  Exists (λ i, Ingredient.id i = pk ∧ Ingredient.name i = name
               ∧ Ingredient.measurement_unit i = unit)
         (Ingredient_objects st).

#[global] Instance in_cart_dec st user recipe :
  Decision (in_cart st user recipe).
Proof. unfold in_cart. apply _. Defined.

#[global] Instance ingredient_is_dec st pk name unit :
  Decision (ingredient_is st pk name unit).
Proof. unfold ingredient_is. apply _. Defined.

(** The [RecipeIngredient] rows whose recipe is in the cart of [user] and
    whose ingredient has the given name and unit. *)
Definition rows_in_cart (st : State) (user : User.t) (name unit : string)
    : list RecipeIngredient.t :=
  filter (λ ri, in_cart st user (RecipeIngredient.recipe ri)
                ∧ ingredient_is st (RecipeIngredient.ingredient ri) name unit)
         (RecipeIngredient_objects st).

Definition row_key (row : CartRow.t) : string * string :=
  (CartRow.ingredient__name row, CartRow.ingredient__measurement_unit row).

(** Every pair of a cart recipe is listed once, with the sum of its rows,
    and nothing else is listed. *)
Definition grouped_sums (st : State) (user : User.t) (rows : list CartRow.t)
    : Prop :=
  NoDup (row_key <$> rows)
  ∧ (∀ name unit,
       (name, unit) ∈ row_key <$> rows
       ↔ ∃ ri, ri ∈ RecipeIngredient_objects st
               ∧ in_cart st user (RecipeIngredient.recipe ri)
               ∧ ingredient_is st (RecipeIngredient.ingredient ri) name unit)
  ∧ (∀ row, row ∈ rows →
       CartRow.ingredient_amount row
       = Zsum (RecipeIngredient.amount
                 <$> rows_in_cart st user (CartRow.ingredient__name row)
                       (CartRow.ingredient__measurement_unit row))).

(** Two entries of the ingredient list carry the same ingredient id. *)
Definition duplicate_ingredient (items : list Item.t) : Prop :=
  ∃ i j a b, i ≠ j ∧ items !! i = Some a ∧ items !! j = Some b
             ∧ Item.id a = Item.id b.

(** The inputs the recipe validation refuses. *)
Definition invalid (obj : RecipeData.t) : Prop :=
  (RecipeData.name obj = None ∨ RecipeData.name obj = Some "")
  ∨ (RecipeData.text obj = None ∨ RecipeData.text obj = Some "")
  ∨ (RecipeData.cooking_time obj = None
     ∨ RecipeData.cooking_time obj = Some 0%Z)
  ∨ (RecipeData.tags obj = None ∨ RecipeData.tags obj = Some [])
  ∨ (RecipeData.ingredients obj = None
     ∨ RecipeData.ingredients obj = Some [])
  ∨ (∃ items, RecipeData.ingredients obj = Some items
              ∧ duplicate_ingredient items).

(** The short form of a recipe in an answer: its key, name and cooking
    time, and its image as a serialized image field. *)
Definition short_form (context : option Request.t) (recipe : Recipe.t)
    : RecipeSmallData.t :=
  RecipeSmallData.mk (Recipe.id recipe) (Recipe.name recipe)
    (if decide (Recipe.image recipe = "") then None
     else Some (Url.mk context (Recipe.image recipe)))
    (Recipe.cooking_time recipe).

(** A line of the shopping list, as the file shows it. *)
Definition listed (row : CartRow.t) : string :=
  nl +:+ CartRow.ingredient__name row +:+ " - "
     +:+ pretty (CartRow.ingredient_amount row) +:+ ", "
     +:+ CartRow.ingredient__measurement_unit row.

(** The representation of [obj] under a limit [n]: the first [n] recipes
    of the author, at most [n] of them, and the count of all. *)
Definition limited_recipes (st : State) (request : Request.t) (obj : User.t)
    (n : Z) : Prop :=
  ∃ d, UserSubscribeRepresentSerializer.to_representation
         (Some request) st obj = inr d
       ∧ UserSubscribeRepresentData.recipes d
         = short_form (Some request)
             <$> take (Z.to_nat n) (User_recipes st obj)
       ∧ (Z.of_nat (length (UserSubscribeRepresentData.recipes d)) ≤ n)%Z
       ∧ UserSubscribeRepresentData.recipes_count d
         = length (User_recipes st obj).

(** [user] follows [author]. *)
Definition follows (st : State) (user author : User.t) : Prop :=
  ∃ s, s ∈ Subscription_objects st
       ∧ Subscription.user s = User.id user
       ∧ Subscription.author s = User.id author.

(** The response of [subscriptions] holds exactly the followed users. *)
Definition returns_exactly_followed (cfg : Settings) (st : State)
    (request : Request.t) (user : User.t) : Prop :=
  ∃ count results,
    dispatch cfg subscriptions request st
    = (inr (mkResponse HTTP_200_OK (Page count results)), st)
    ∧ ∀ a, a ∈ User_objects st →
           (User.id a ∈ UserSubscribeRepresentData.id <$> results
            ↔ follows st user a).

(** ** Two pieces of the code, named for the proofs *)

(** The rows [tags_and_ingredients_set] hands to [bulk_create]. *)
Definition new_rows (st : State) (recipe : Recipe.t) (items : list Item.t)
    : Result (list RecipeIngredient.t) :=
  rmapM (λ ingredient,
           rbind (Ingredient_get st (Item.id ingredient)) (λ i,
           inr (RecipeIngredient.mk (Recipe.id recipe) (Ingredient.id i)
                  (Item.amount ingredient))))
        items.

(** The rows one [RecipeIngredient] row contributes to
    [filter_recipe__carts__user]. *)
Definition join_row (st : State) (user : User.t) (ri : RecipeIngredient.t)
    : list (string * string * Z) :=
  r ← filter (λ r, Recipe.id r = RecipeIngredient.recipe ri)
             (Recipe_objects st);
  c ← filter (λ c, ShoppingCart.recipe c = Recipe.id r
                   ∧ ShoppingCart.user c = User.id user)
             (ShoppingCart_objects st);
  i ← filter (λ i, Ingredient.id i = RecipeIngredient.ingredient ri)
             (Ingredient_objects st);
  [(Ingredient.name i, Ingredient.measurement_unit i,
    RecipeIngredient.amount ri)].

(** ** A small database *)

Definition alice : User.t := User.mk 1 "alice@example.org" "alice" "A" "L".
Definition bob : User.t := User.mk 2 "bob@example.org" "bob" "B" "L".
Definition carol : User.t := User.mk 3 "carol@example.org" "carol" "C" "L".
Definition dave : User.t := User.mk 4 "dave@example.org" "dave" "D" "L".

Definition salt : Ingredient.t := Ingredient.mk 1 "salt" "g".
Definition sugar : Ingredient.t := Ingredient.mk 2 "sugar" "g".

Definition soup : Recipe.t := Recipe.mk 1 1 "soup" "soup.png" "boil" 10.
Definition cake : Recipe.t := Recipe.mk 2 1 "cake" "cake.png" "bake" 60.

(** Alice wrote both recipes and follows the three others; Bob has both
    recipes in his cart and the soup among his favorites. *)
Definition kitchen : State :=
  mkState [alice; bob; carol; dave]
    [Tag.mk 1 "breakfast"; Tag.mk 2 "dinner"]
    [salt; sugar]
    [soup; cake]
    [RecipeTag.mk 1 1]
    [RecipeIngredient.mk 1 1 5; RecipeIngredient.mk 1 2 7;
     RecipeIngredient.mk 2 1 3]
    [Favorite.mk 2 1]
    [ShoppingCart.mk 2 1; ShoppingCart.mk 2 2]
    [Subscription.mk 1 2; Subscription.mk 1 3; Subscription.mk 1 4]
    3.

(** Pages of two, and a database that returns the rows of the two
    unordered querysets as the tables list them. *)
Definition page_of_two : Settings :=
  mkSettings 2 is_authenticated (λ _ _, true) CASCADE
    (λ _ _ rows, rows) (λ _ _ keys, keys)
    (λ _ _ rows, Permutation_refl rows)
    (λ _ _ keys, Permutation_refl keys).

(** The same with a database that returns the rows of the two unordered
    querysets last row first. *)
Definition page_of_two_reversed : Settings :=
  mkSettings 2 is_authenticated (λ _ _, true) CASCADE
    (λ _ _ rows, reverse rows) (λ _ _ keys, reverse keys)
    (λ _ _ rows, reverse_Permutation rows)
    (λ _ _ keys, reverse_Permutation keys).

(** Soup with an ingredient nobody has loaded. *)
Definition soup_with_saffron : RecipeData.t :=
  RecipeData.mk (Some [Item.mk 1 5; Item.mk 9 1]) (Some [1%Z])
    (Some "soup.png") (Some "soup") (Some "boil") (Some 10%Z).

(** A sweeter soup for dinner: one ingredient, one tag, a new text. *)
Definition sweet_soup : RecipeData.t :=
  RecipeData.mk (Some [Item.mk 2 9]) (Some [2%Z]) None (Some "soup")
    (Some "boil longer") (Some 20%Z).

(** ** The stores and rows the operations produce *)

(** The store with one more subscription. *)
Definition with_subscription (st : State) (s : Subscription.t) : State :=
  mkState (User_objects st) (Tag_objects st) (Ingredient_objects st)
    (Recipe_objects st) (Recipe_tags st) (RecipeIngredient_objects st)
    (Favorite_objects st) (ShoppingCart_objects st)
    (Subscription_objects st ++ [s]) (Recipe_next_id st).

(** The users [user] follows, in table order. *)
Definition followed_users (st : State) (user : User.t) : list User.t :=
  filter (λ a, Exists (λ s, Subscription.author s = User.id a
                            ∧ Subscription.user s = User.id user)
                      (Subscription_objects st))
         (User_objects st).

(** The store with one more favorite. *)
Definition with_favorite (st : State) (f : Favorite.t) : State :=
  mkState (User_objects st) (Tag_objects st) (Ingredient_objects st)
    (Recipe_objects st) (Recipe_tags st) (RecipeIngredient_objects st)
    (Favorite_objects st ++ [f]) (ShoppingCart_objects st)
    (Subscription_objects st) (Recipe_next_id st).

(** The store with one more row in the shopping cart. *)
Definition with_cart (st : State) (c : ShoppingCart.t) : State :=
  mkState (User_objects st) (Tag_objects st) (Ingredient_objects st)
    (Recipe_objects st) (Recipe_tags st) (RecipeIngredient_objects st)
    (Favorite_objects st) (ShoppingCart_objects st ++ [c])
    (Subscription_objects st) (Recipe_next_id st).

(** The recipe [create] builds from validated data. *)
Definition created_recipe (st : State) (author : User.t) (d : RecipeData.t)
    (cooking_time : Z) : Recipe.t :=
  Recipe.mk (Recipe_next_id st) (User.id author)
    (default "" (RecipeData.name d)) (default "" (RecipeData.image d))
    (default "" (RecipeData.text d)) cooking_time.

(** The row an entry of the ingredient list becomes. *)
Definition item_row (recipe : Recipe.t) (it : Item.t) : RecipeIngredient.t :=
  RecipeIngredient.mk (Recipe.id recipe) (Item.id it) (Item.amount it).

(** The recipe [update] writes. *)
Definition updated_recipe (instance : Recipe.t) (d : RecipeData.t)
    : Recipe.t :=
  Recipe.mk (Recipe.id instance) (Recipe.author instance)
    (default (Recipe.name instance) (RecipeData.name d))
    (default (Recipe.image instance) (RecipeData.image d))
    (default (Recipe.text instance) (RecipeData.text d))
    (default (Recipe.cooking_time instance) (RecipeData.cooking_time d)).

(** The [RecipeIngredient] rows of the recipes in the cart of [user]. *)
Definition cart_rows (st : State) (user : User.t)
    : list RecipeIngredient.t :=
  filter (λ ri, in_cart st user (RecipeIngredient.recipe ri))
         (RecipeIngredient_objects st).

(** * Proofs *)

(** ** Lists and querysets *)

Section filter_facts.
Context {A : Type} (P Q : A → Prop)
  `{∀ x, Decision (P x)} `{∀ x, Decision (Q x)}.

Lemma filter_none (l : list A) :
  (∀ x, x ∈ l → ¬ P x) → filter P l = [].
Proof.
  induction l as [|y l IH]; intros HP; [done|].
  rewrite filter_cons, decide_False by (apply HP; left).
  apply IH. intros x Hx. apply HP. by right.
Qed.

Lemma filter_all (l : list A) :
  (∀ x, x ∈ l → P x) → filter P l = l.
Proof.
  induction l as [|y l IH]; intros HP; [done|].
  rewrite filter_cons, decide_True by (apply HP; left).
  f_equal. apply IH. intros x Hx. apply HP. by right.
Qed.

Lemma filter_iff_in (l : list A) :
  (∀ x, x ∈ l → P x ↔ Q x) → filter P l = filter Q l.
Proof.
  induction l as [|y l IH]; intros HPQ; [done|].
  rewrite !filter_cons, IH by (intros x Hx; apply HPQ; by right).
  assert (P y ↔ Q y) as Hy by (apply HPQ; left).
  destruct (decide (P y)), (decide (Q y)); tauto.
Qed.

Lemma exists_filter_true (l : list A) :
  exists_ (filter P l) = true ↔ ∃ x, x ∈ l ∧ P x.
Proof.
  split.
  - destruct (filter P l) as [|x l'] eqn:E; [done|]. intros _.
    exists x. apply and_comm, (list_elem_of_filter P). rewrite E. left.
  - intros (x & Hx & HP).
    assert (x ∈ filter P l) as Hin by by apply list_elem_of_filter.
    destruct (filter P l); [by inversion Hin|done].
Qed.

Lemma exists_filter_false (l : list A) :
  exists_ (filter P l) = false ↔ ∀ x, x ∈ l → ¬ P x.
Proof.
  rewrite <- not_true_iff_false, exists_filter_true. split.
  - intros Hno x Hx HP. apply Hno. eauto.
  - intros Hno (x & Hx & HP). by apply (Hno x).
Qed.

(** Rows that agree on the filtered columns are one row when the table
    has no duplicate. *)
Lemma filter_NoDup_eq (l : list A) :
  NoDup l → (∀ x y, P x → P y → x = y) →
  filter P l = [] ∨ ∃ x, x ∈ l ∧ P x ∧ filter P l = [x].
Proof.
  intros Hnd Heq. destruct (filter P l) as [|x [|y l']] eqn:E; [by left|..].
  - right. exists x.
    assert (x ∈ filter P l) as [? ?]%list_elem_of_filter by (rewrite E; left).
    done.
  - exfalso. apply (NoDup_filter P) in Hnd. rewrite E in Hnd.
    assert (x ∈ filter P l) as [? ?]%list_elem_of_filter by (rewrite E; left).
    assert (y ∈ filter P l) as [? ?]%list_elem_of_filter
      by (rewrite E; right; left).
    apply NoDup_cons in Hnd as [Hx _]. apply Hx.
    rewrite (Heq x y) by done. left.
Qed.

End filter_facts.

(** A primary key selects its row. *)
Lemma filter_pk_unique {A} (pk : A → Z) (l : list A) (x : A) :
  NoDup (pk <$> l) → x ∈ l → filter (λ y, pk y = pk x) l = [x].
Proof.
  induction l as [|y l IH]; simpl; intros Hnd Hin; [by inversion Hin|].
  apply NoDup_cons in Hnd as [Hy Hnd].
  rewrite filter_cons. destruct (decide (pk y = pk x)) as [Heq|Hne].
  - assert (x = y) as ->.
    { apply elem_of_cons in Hin as [|Hin]; [done|].
      destruct Hy. rewrite Heq. by apply list_elem_of_fmap_2. }
    f_equal. apply filter_none.
    intros z Hz Hpk. apply Hy. rewrite <- Hpk. by apply list_elem_of_fmap_2.
  - apply IH; [done|]. apply elem_of_cons in Hin as [->|]; done.
Qed.

Lemma filter_pk_elem {A} (pk : A → Z) (l : list A) (k : Z) :
  NoDup (pk <$> l) → k ∈ pk <$> l →
  ∃ x, x ∈ l ∧ pk x = k ∧ filter (λ y, pk y = k) l = [x].
Proof.
  intros Hnd (x & -> & Hx)%list_elem_of_fmap. exists x.
  by rewrite (filter_pk_unique pk l x).
Qed.

Lemma NoDup_snoc {A} (l : list A) (x : A) :
  NoDup l → x ∉ l → NoDup (l ++ [x]).
Proof.
  intros Hnd Hx. apply NoDup_app. split; [done|]. split.
  - intros y Hy ->%list_elem_of_singleton. done.
  - apply NoDup_singleton.
Qed.

Lemma NoDup_fmap_filter {A B} (f : A → B) (P : A → Prop)
    `{∀ x, Decision (P x)} (l : list A) :
  NoDup (f <$> l) → NoDup (f <$> filter P l).
Proof.
  intros Hnd. eapply sublist_NoDup; [exact Hnd|].
  apply fmap_sublist, sublist_filter.
Qed.

(** Python's [len(set(l))] against [len(l)]. *)
Lemma size_list_to_set_le (l : list Z) :
  size (list_to_set l : gset Z) ≤ length l.
Proof.
  induction l as [|x l IH]; [by rewrite list_to_set_nil, size_empty|].
  rewrite list_to_set_cons. simpl.
  destruct (decide (x ∈ (list_to_set l : gset Z))) as [Hin|Hin].
  - rewrite (subseteq_union_1_L {[x]} (list_to_set l)) by set_solver. lia.
  - rewrite size_union by set_solver. rewrite size_singleton. lia.
Qed.

Lemma size_list_to_set_NoDup (l : list Z) :
  length l = size (list_to_set l : gset Z) ↔ NoDup l.
Proof.
  split; [|intros; symmetry; by apply size_list_to_set].
  induction l as [|x l IH]; [constructor|].
  rewrite list_to_set_cons. simpl.
  intros Hlen. pose proof (size_list_to_set_le l) as Hle.
  destruct (decide (x ∈ (list_to_set l : gset Z))) as [Hin|Hin].
  - rewrite (subseteq_union_1_L {[x]} (list_to_set l)) in Hlen
      by set_solver. lia.
  - rewrite size_union, size_singleton in Hlen by set_solver.
    constructor; [set_solver|]. apply IH. lia.
Qed.

Lemma rmapM_inr {A B} (f : A → Result B) (l : list A) (ys : list B) :
  rmapM f l = inr ys → Forall2 (λ x y, f x = inr y) l ys.
Proof.
  revert ys. induction l as [|x l IH]; simpl; intros ys.
  - intros [= <-]. constructor.
  - destruct (f x) as [|y] eqn:Hx; simpl; [done|].
    destruct (rmapM f l) as [|ys']; simpl; [done|].
    intros [= <-]. constructor; auto.
Qed.

Lemma rmapM_total {A B} (f : A → Result B) (l : list A) :
  (∀ x, x ∈ l → ∃ y, f x = inr y) → ∃ ys, rmapM f l = inr ys.
Proof.
  induction l as [|x l IH]; simpl; intros Hf; [by eexists|].
  destruct (Hf x) as [y ->]; [left|]. simpl.
  destruct IH as [ys ->]; [intros; apply Hf; by right|]. by eexists.
Qed.

Lemma get_object_or_404_inr {A} (P : A → Prop) `{∀ x, Decision (P x)}
    (l : list A) (x : A) :
  get_object_or_404 (filter P l) = inr x → x ∈ l ∧ P x.
Proof.
  unfold get_object_or_404.
  destruct (filter P l) as [|y [|z l']] eqn:E; try done.
  intros [= ->].
  assert (x ∈ filter P l) as Hin by (rewrite E; left).
  apply list_elem_of_filter in Hin. tauto.
Qed.

Lemma Ingredient_get_inr st pk i :
  Ingredient_get st pk = inr i →
  i ∈ Ingredient_objects st ∧ Ingredient.id i = pk.
Proof.
  unfold Ingredient_get, get_.
  destruct (filter _ _) as [|x [|y l]] eqn:E; try done.
  intros [= ->].
  assert (i ∈ filter (λ i, Ingredient.id i = pk) (Ingredient_objects st))
    as Hin by (rewrite E; left).
  apply list_elem_of_filter in Hin. tauto.
Qed.

(** ** The read serializers *)

(** C10: for an unauthenticated request the computed fields
    [is_subscribed] (on users), [is_favorited] and [is_in_shopping_cart]
    (on recipes) are [False] in every serialized object, whatever the
    Subscription, Favorite and ShoppingCart tables hold. *)
Theorem computed_fields_false_for_anonymous (st : State) (method : Method)
    (query_params : gmap string string) (user : User.t) (recipe : Recipe.t) :
  let request := Request.mk method None query_params in
  UserGetSerializer.get_is_subscribed (Some request) st user = inr false
  ∧ RecipeReadSerializer.get_is_favorited (Some request) st recipe = inr false
  ∧ RecipeReadSerializer.get_is_in_shopping_cart (Some request) st recipe
    = inr false
  ∧ UserGetSerializer.to_representation (Some request) st user
    = inr (UserGetData.mk (User.email user) (User.id user)
             (User.username user) (User.first_name user)
             (User.last_name user) false)
  ∧ (∀ d, UserSubscribeRepresentSerializer.to_representation
            (Some request) st user = inr d →
          UserSubscribeRepresentData.is_subscribed d = false)
  ∧ (∀ d, RecipeReadSerializer.to_representation (Some request) st recipe
          = inr d →
          RecipeReadData.is_favorited d = false
          ∧ RecipeReadData.is_in_shopping_cart d = false
          ∧ UserGetData.is_subscribed (RecipeReadData.author d) = false).
Proof.
  intros request.
  assert (Hrecipe : ∀ d,
            RecipeReadSerializer.to_representation (Some request) st recipe
            = inr d →
            RecipeReadData.is_favorited d = false
            ∧ RecipeReadData.is_in_shopping_cart d = false
            ∧ UserGetData.is_subscribed (RecipeReadData.author d) = false).
  { intros d. unfold RecipeReadSerializer.to_representation.
    destruct (User_get _ _); simpl; [done|].
    destruct (rmapM _ _); simpl; [done|]. by intros [= <-]. }
  do 4 (split; [reflexivity|]). split; [|exact Hrecipe].
  intros d. unfold UserSubscribeRepresentSerializer.to_representation.
  simpl. destruct (UserSubscribeRepresentSerializer.get_recipes _ _ _);
    simpl; [done|]. by intros [= <-].
Qed.

Lemma subscribe_representation_id context st obj d :
  UserSubscribeRepresentSerializer.to_representation context st obj = inr d →
  UserSubscribeRepresentData.id d = User.id obj.
Proof.
  unfold UserSubscribeRepresentSerializer.to_representation.
  destruct (UserGetSerializer.get_is_subscribed _ _ _); simpl; [done|].
  destruct (UserSubscribeRepresentSerializer.get_recipes _ _ _); simpl;
    [done|].
  by intros [= <-].
Qed.

Lemma subscribe_representation_default request st obj :
  Request.query_params request = ∅ →
  ∃ d, UserSubscribeRepresentSerializer.to_representation
         (Some request) st obj = inr d.
Proof.
  intros Hq. unfold UserSubscribeRepresentSerializer.to_representation,
    UserSubscribeRepresentSerializer.get_recipes.
  simpl. rewrite Hq, lookup_empty. simpl. by eexists.
Qed.

(** What [int] reads and what it refuses. *)
Example int_literals :
  int "10" = inr 10%Z ∧ int " 1" = inr 1%Z ∧ int "+1" = inr 1%Z
  ∧ int "1_0" = inr 10%Z ∧ int "-0_7 " = inr (-7)%Z
  ∧ int "" = inl ValueError ∧ int "many" = inl ValueError
  ∧ int "+ 1" = inl ValueError ∧ int "1__0" = inl ValueError
  ∧ int "_1" = inl ValueError ∧ int "1_" = inl ValueError
  ∧ int "1.0" = inl ValueError.
Proof. by vm_compute. Qed.



(** The same limit written with a blank, a sign and an underscore. *)
Example recipes_limit_as_python_reads_it :
  limited_recipes kitchen
    (Request.mk GET None {[ "recipes_limit" := " +0_1" ]}) alice 1.
Proof.
  unfold limited_recipes. eexists. split; [by vm_compute|]. by vm_compute.
Qed.


(** It fails as well beyond the 64 bits of the database's [LIMIT]: the
    number is read, and the rows cannot be fetched. *)
Example recipes_limit_too_large_raises :
  int "9223372036854775808" = inr (2 ^ 63)%Z
  ∧ (∃ e, UserSubscribeRepresentSerializer.get_recipes
            (Some (Request.mk GET None
                     {[ "recipes_limit" := "9223372036854775808" ]}))
            kitchen alice = inl e)
  ∧ ¬ limited_recipes kitchen
        (Request.mk GET None {[ "recipes_limit" := "9223372036854775808" ]})
        alice (2 ^ 63).
Proof.
  split; [by vm_compute|]. split.
  - eexists. by vm_compute.
  - intros (d & Hd & _). vm_compute in Hd. done.
Qed.

(** ** Validation of a recipe *)

Lemma duplicate_ingredient_NoDup (items : list Item.t) :
  duplicate_ingredient items ↔ ¬ NoDup (Item.id <$> items).
Proof.
  split.
  - intros (i & j & a & b & Hij & Ha & Hb & Hab) Hnd.
    apply Hij. eapply NoDup_lookup; [exact Hnd| |].
    + rewrite list_lookup_fmap, Ha. reflexivity.
    + rewrite list_lookup_fmap, Hb. simpl. by rewrite Hab.
  - induction items as [|a items IH]; simpl; intros Hnd.
    + destruct Hnd. constructor.
    + destruct (decide (Item.id a ∈ Item.id <$> items)) as [Hin|Hin].
      * apply list_elem_of_fmap in Hin as (b & Hab & Hb).
        apply list_elem_of_lookup in Hb as [j Hj].
        exists 0, (S j), a, b. by repeat split.
      * destruct IH as (i & j & x & y & Hij & Hx & Hy & Hxy).
        { intros H. apply Hnd. by constructor. }
        exists (S i), (S j), x, y. repeat split; auto.
Qed.

Lemma validate_unique_step (items : list Item.t) :
  (if decide (length (Item.id <$> items)
              ≠ size (list_to_set (Item.id <$> items) : gset Z))
   then true else false) = true ↔ duplicate_ingredient items.
Proof.
  rewrite duplicate_ingredient_NoDup, <- size_list_to_set_NoDup.
  destruct (decide _); split; intros; try done.
Qed.


Lemma validate_invalid (obj : RecipeData.t) :
  invalid obj →
  ∃ message,
    RecipeCreateSerializer.validate obj = inl (ValidationError message).
Proof.
  unfold invalid, RecipeCreateSerializer.validate.
  destruct obj as [ing tg img nm tx ct]; simpl.
  intros Hinv.
  destruct nm as [nm|]; simpl; [|by eexists].
  destruct (decide (nm = "")) as [->|Hnm]; [by eexists|].
  rewrite bool_decide_eq_false_2 by done. simpl.
  destruct tx as [tx|]; simpl; [|by eexists].
  destruct (decide (tx = "")) as [->|Htx]; [by eexists|].
  rewrite bool_decide_eq_false_2 by done. simpl.
  destruct ct as [ct|]; simpl; [|by eexists].
  destruct (decide (ct = 0%Z)) as [->|Hct]; [by eexists|].
  rewrite bool_decide_eq_false_2 by done. simpl.
  destruct tg as [[|t tg]|]; simpl; [by eexists| |by eexists].
  destruct ing as [[|it items]|]; simpl; [by eexists| |by eexists].
  destruct Hinv as [[?|?]|[[?|?]|[[?|?]|[[?|?]|[[?|?]|(l & ? & Hd)]]]]];
    simplify_eq.
  apply validate_unique_step in Hd. simpl in Hd.
  destruct (decide _); [by eexists|done].
Qed.



(** ** Subscriptions *)

(** C5: a subscribe request of an authenticated user that names the same
    user as the author fails with a validation error, and the store (so
    the Subscription table) is left as it was. *)
Theorem subscribe_to_self_rejected (cfg : Settings) (st : State)
    (request : Request.t) (user : User.t) :
  NoDup (User.id <$> User_objects st) →
  user ∈ User_objects st →
  Request.user request = Some user →
  Request.method request = POST →
  ∃ message,
    dispatch cfg (subscribe (User.id user)) request st
    = (inl (ValidationError message), st).
Proof.
  intros Hnd Hin Hu Hm. simpl. unfold UserViewSet.subscribe.
  rewrite Hu, Hm. unfold bind, query.
  rewrite (filter_pk_unique User.id _ user) by done. simpl.
  unfold UserSubscribeSerializer.is_valid,
    UserSubscribeSerializer.to_internal_value, User_get. simpl.
  rewrite (filter_pk_unique User.id _ user) by done. simpl.
  unfold UserSubscribeSerializer.UniqueTogetherValidator. simpl.
  destruct (exists_ _); simpl; [by eexists|].
  rewrite Hu. simpl. rewrite bool_decide_eq_true_2 by done. by eexists.
Qed.

Lemma subscribe_to_self_rejected_witness :
  ∃ message,
    dispatch page_of_two (subscribe 1) (Request.mk POST (Some alice) ∅)
      kitchen
    = (inl (ValidationError message), kitchen).
Proof.
  apply (subscribe_to_self_rejected page_of_two kitchen
           (Request.mk POST (Some alice) ∅) alice).
  - apply (bool_decide_unpack _). by vm_compute.
  - apply (bool_decide_unpack _). by vm_compute.
  - reflexivity.
  - reflexivity.
Defined.

Lemma followed_users_elem st user a :
  a ∈ followed_users st user ↔ a ∈ User_objects st ∧ follows st user a.
Proof.
  unfold followed_users, follows.
  rewrite list_elem_of_filter, Exists_exists. split.
  - intros [(s & Hs & Ha & Hu) Hin]. eauto.
  - intros (Hin & s & Hs & Hu & Ha). eauto.
Qed.

(** With at most one row per pair, the join lists a followed user once. *)
Lemma filter_following__user_Permutation cfg st user :
  NoDup (Subscription_objects st) →
  UserViewSet.filter_following__user cfg st user ≡ₚ followed_users st user.
Proof.
  intros Hsub. unfold UserViewSet.filter_following__user.
  rewrite following_order_Permutation.
  match goal with |- ?join ≡ₚ _ =>
    enough (join = followed_users st user) as -> by done end.
  unfold followed_users.
  induction (User_objects st) as [|u l IH]; [done|].
  rewrite bind_cons, IH, filter_cons. clear IH.
  assert (Hone : ∀ subs : list Subscription.t,
            (subs ≫= λ s, if decide (Subscription.author s = User.id u
                                      ∧ Subscription.user s = User.id user)
                           then [u] else [])
            = (λ _, u) <$> filter (λ s, Subscription.author s = User.id u
                                        ∧ Subscription.user s = User.id user)
                                  subs).
  { induction subs as [|s subs IHs]; [done|].
    rewrite bind_cons, filter_cons, IHs. by destruct (decide _). }
  rewrite Hone.
  destruct (filter_NoDup_eq
              (λ s, Subscription.author s = User.id u
                    ∧ Subscription.user s = User.id user)
              (Subscription_objects st) Hsub) as [E|(s & Hs & Hm & E)].
  { intros [u1 a1] [u2 a2]; simpl. intros [-> ->] [-> ->]. done. }
  - rewrite E. simpl. rewrite decide_False; [done|].
    intros (s & Hs & Hm)%Exists_exists.
    by eapply (filter_nil_not_elem_of _ _ s E).
  - rewrite E. simpl. rewrite decide_True; [done|].
    apply Exists_exists. eauto.
Qed.

Lemma filter_following__user_elem cfg st user a :
  a ∈ UserViewSet.filter_following__user cfg st user
  ↔ a ∈ User_objects st ∧ follows st user a.
Proof.
  unfold UserViewSet.filter_following__user, follows.
  rewrite following_order_Permutation.
  rewrite list_elem_of_bind. split.
  - intros (u & (s & Hs & Hin)%list_elem_of_bind & Hu).
    destruct (decide _) as [[Ha Hus]|]; [|by inversion Hs].
    apply list_elem_of_singleton in Hs as ->. eauto.
  - intros (Ha & s & Hs & Hu & Hau). exists a. split; [|done].
    apply list_elem_of_bind. exists s. split; [|done].
    rewrite decide_True by done. left.
Qed.

(** The page a page-number paginator cuts: it has a number, which is 1
    without a [page] parameter, it starts within the queryset unless it is
    the first, and it holds the rows from its start up to the page size. *)
Lemma paginate_queryset_Some {A} cfg request (queryset page : list A) :
  UserViewSet.paginate_queryset cfg request queryset = inr (Some page) →
  ∃ number,
    1 ≤ number
    ∧ (Request.query_params request !! "page" = None → number = 1)
    ∧ (number = 1 ∨ (number - 1) * PAGE_SIZE cfg < length queryset)
    ∧ 0 < PAGE_SIZE cfg
    ∧ page = take (PAGE_SIZE cfg)
               (drop ((number - 1) * PAGE_SIZE cfg) queryset)
    ∧ (length queryset ≤ PAGE_SIZE cfg → number = 1).
Proof.
  unfold UserViewSet.paginate_queryset.
  destruct (decide (PAGE_SIZE cfg = 0)) as [|Hps]; [done|].
  set (num_pages := Nat.max 1 _).
  destruct (match Request.query_params request !! "page" with
            | Some _ => _ | None => _ end) as [|number] eqn:Hnumber;
    simpl; [done|].
  destruct (decide _) as [|Hnum]; [done|]. intros [= <-].
  exists (Z.to_nat number).
  assert (Hdiv : PAGE_SIZE cfg
                 * ((length queryset + PAGE_SIZE cfg - 1) `div` PAGE_SIZE cfg)
                 ≤ length queryset + PAGE_SIZE cfg - 1)
    by (apply Nat.Div0.mul_div_le).
  split; [lia|]. split.
  { intros Hq. rewrite Hq in Hnumber. by injection Hnumber as <-. }
  split.
  { destruct (decide (Z.to_nat number = 1)) as [|Hne]; [by left|right].
    assert (Z.to_nat number
            ≤ (length queryset + PAGE_SIZE cfg - 1) `div` PAGE_SIZE cfg)
      by (unfold num_pages in Hnum; lia).
    nia. }
  split; [lia|]. split; [done|].
  intros Hlen.
  assert (num_pages = 1) as Hone.
  { unfold num_pages.
    assert ((length queryset + PAGE_SIZE cfg - 1) `div` PAGE_SIZE cfg < 2);
      [|lia].
    apply Nat.Div0.div_lt_upper_bound. lia. }
  lia.
Qed.

Lemma paginate_queryset_default {A} cfg request (queryset : list A) :
  Request.query_params request = ∅ → 0 < PAGE_SIZE cfg →
  UserViewSet.paginate_queryset cfg request queryset
  = inr (Some (take (PAGE_SIZE cfg) queryset)).
Proof.
  intros Hq Hps. unfold UserViewSet.paginate_queryset.
  rewrite decide_False by lia. rewrite Hq, lookup_empty. simpl.
  rewrite decide_False by lia. done.
Qed.

(** The keys of the serialized users are the keys of the users. *)
Lemma representation_ids context st (page : list User.t)
    (results : list UserSubscribeRepresentData.t) :
  Forall2 (λ a d, UserSubscribeRepresentSerializer.to_representation
                    context st a = inr d) page results →
  UserSubscribeRepresentData.id <$> results = User.id <$> page.
Proof.
  induction 1 as [|a d page results Had _ IH]; [done|].
  simpl. f_equal; [|done]. by eapply subscribe_representation_id.
Qed.

(** The answer of [subscriptions], when it answers: the count, and the
    page as the queryset and the paginator give it. *)
Lemma subscriptions_inr cfg st st' request user response :
  NoDup (Subscription_objects st) →
  Request.user request = Some user →
  dispatch cfg subscriptions request st = (inr response, st') →
  st' = st
  ∧ ∃ results queryset number,
      response = mkResponse HTTP_200_OK
                   (Page (length (followed_users st user)) results)
      ∧ queryset ≡ₚ followed_users st user
      ∧ 1 ≤ number
      ∧ (Request.query_params request !! "page" = None → number = 1)
      ∧ (number = 1
         ∨ (number - 1) * PAGE_SIZE cfg < length (followed_users st user))
      ∧ 0 < PAGE_SIZE cfg
      ∧ (length (followed_users st user) ≤ PAGE_SIZE cfg → number = 1)
      ∧ UserSubscribeRepresentData.id <$> results
        = take (PAGE_SIZE cfg)
            (drop ((number - 1) * PAGE_SIZE cfg) (User.id <$> queryset)).
Proof.
  intros Hsub Hru. simpl. unfold UserViewSet.subscriptions, query, raise.
  destruct (Request.method request); try done. rewrite Hru.
  pose proof (filter_following__user_Permutation cfg st user Hsub) as Hperm.
  destruct (UserViewSet.paginate_queryset _ _ _) as [|[page|]] eqn:Hp;
    simpl; [done| |done].
  destruct (rmapM _ page) as [|results] eqn:Hr; simpl; [done|].
  intros [= <- <-]. split; [done|].
  apply paginate_queryset_Some
    in Hp as (number & H1 & Hdef & Hin & Hps & -> & Hfit).
  apply rmapM_inr, representation_ids in Hr.
  exists results, (UserViewSet.filter_following__user cfg st user), number.
  rewrite <- (Permutation_length Hperm).
  rewrite Hr, fmap_take, fmap_drop. done.
Qed.

(** C7, as amended: for an authenticated user the subscriptions operation
    returns one page of the users the requester follows.  Its count is the
    number of followed users; the response holds the users of one page of
    them, in the order of the queryset: a page-size of users, fewer only
    when fewer are left from where the page starts, and the first page when
    the request names none; every user in the response is followed by the
    requester; and all followed users are in the response exactly when
    they fit in one page.  Without query parameters and with a paginator
    the operation answers. *)
Theorem subscriptions_returns_a_page (cfg : Settings) (st : State)
    (request : Request.t) (user : User.t) :
  NoDup (User.id <$> User_objects st) →
  NoDup (Subscription_objects st) →
  Request.method request = GET →
  Request.user request = Some user →
  (∀ response st',
     dispatch cfg subscriptions request st = (inr response, st') →
     st' = st
     ∧ ∃ results queryset number,
         response
         = mkResponse HTTP_200_OK
             (Page (length (followed_users st user)) results)
         ∧ queryset ≡ₚ followed_users st user
         ∧ 1 ≤ number
         ∧ (Request.query_params request !! "page" = None → number = 1)
         ∧ UserSubscribeRepresentData.id <$> results
           = take (PAGE_SIZE cfg)
               (drop ((number - 1) * PAGE_SIZE cfg) (User.id <$> queryset))
         ∧ length results
           = Nat.min (PAGE_SIZE cfg)
               (length (followed_users st user)
                - (number - 1) * PAGE_SIZE cfg)
         ∧ (0 < length (followed_users st user) → 0 < length results)
         ∧ (∀ d, d ∈ results →
                 ∃ a, a ∈ User_objects st ∧ follows st user a
                      ∧ UserSubscribeRepresentData.id d = User.id a)
         ∧ ((∀ a, a ∈ User_objects st → follows st user a →
                  User.id a ∈ UserSubscribeRepresentData.id <$> results)
            ↔ length (followed_users st user) ≤ PAGE_SIZE cfg))
  ∧ (Request.query_params request = ∅ → 0 < PAGE_SIZE cfg →
     ∃ response,
       dispatch cfg subscriptions request st = (inr response, st)).
Proof.
  intros Hnd Hsub Hm Hu. split.
  - intros response st' Hres.
    destruct (subscriptions_inr _ _ _ _ _ _ Hsub Hu Hres)
      as (-> & results & queryset & number & -> & Hperm & H1 & Hdef & Hin
          & Hps & Hfit & Hids).
    split; [done|]. exists results, queryset, number.
    assert (Hlen : length results
                   = Nat.min (PAGE_SIZE cfg)
                       (length (followed_users st user)
                        - (number - 1) * PAGE_SIZE cfg)).
    { rewrite <- (length_fmap UserSubscribeRepresentData.id), Hids.
      rewrite length_take, length_drop, length_fmap.
      by rewrite (Permutation_length Hperm). }
    do 5 (split; [done|]). split; [done|]. split; [lia|]. split.
    + intros d Hd.
      assert (UserSubscribeRepresentData.id d
              ∈ User.id <$> queryset) as (a & Hid & Ha)%list_elem_of_fmap.
      { eapply elem_of_sublist;
          [|etrans; [apply sublist_take|apply sublist_drop]].
        rewrite <- Hids. by apply list_elem_of_fmap_2. }
      rewrite Hperm in Ha. apply followed_users_elem in Ha as [Ha Hf].
      by exists a.
    + split.
      * intros Hall.
        assert (NoDup (User.id <$> followed_users st user)) as Hndf
          by (by apply (NoDup_fmap_filter User.id)).
        assert (length (User.id <$> followed_users st user)
                ≤ length (UserSubscribeRepresentData.id <$> results)) as Hle.
        { apply submseteq_length, NoDup_submseteq; [done|].
          intros i (a & -> & [Ha Hf]%followed_users_elem)%list_elem_of_fmap.
          by apply Hall. }
        rewrite !length_fmap in Hle. lia.
      * intros Hle a Ha Hf. rewrite (Hfit Hle) in Hids.
        simpl in Hids. rewrite drop_0, take_ge in Hids
          by (rewrite length_fmap, (Permutation_length Hperm); lia).
        rewrite Hids. apply list_elem_of_fmap_2. rewrite Hperm.
        by apply followed_users_elem.
  - intros Hq Hps. simpl. unfold UserViewSet.subscriptions, query.
    rewrite Hm, Hu. rewrite paginate_queryset_default by done. simpl.
    destruct (rmapM_total
                (UserSubscribeRepresentSerializer.to_representation
                   (Some request) st)
                (take (PAGE_SIZE cfg)
                   (UserViewSet.filter_following__user cfg st user)))
      as [results ->]; [|by eexists].
    intros x _. by apply subscribe_representation_default.
Qed.

Lemma subscriptions_returns_a_page_witness :
  ∃ response,
    dispatch page_of_two subscriptions (Request.mk GET (Some alice) ∅)
      kitchen
    = (inr response, kitchen).
Proof.
  apply (subscriptions_returns_a_page page_of_two kitchen
           (Request.mk GET (Some alice) ∅) alice).
  - apply (bool_decide_unpack _). by vm_compute.
  - apply (bool_decide_unpack _). by vm_compute.
  - reflexivity.
  - reflexivity.
  - reflexivity.
  - simpl. lia.
Defined.

(** C7 as stated fails once the followed users exceed a page: Alice
    follows Bob, Carol and Dave, and a page of two leaves Dave out. *)
Lemma subscriptions_omits_a_followed_user :
  ¬ returns_exactly_followed page_of_two kitchen
      (Request.mk GET (Some alice) ∅) alice.
Proof.
  intros (count & results & Hres & Hex).
  vm_compute in Hres. injection Hres as <- <-.
  assert (Hd : follows kitchen alice dave).
  { exists (Subscription.mk 1 4). split; [|done].
    do 2 right. left. }
  apply (Hex dave) in Hd; [|do 3 right; left].
  apply list_elem_of_fmap in Hd as (d & Hid & Hd).
  repeat (apply elem_of_cons in Hd as [->|Hd]; [done|]).
  by inversion Hd.
Qed.

(** A database that returns the rows last first leaves Bob out instead. *)
Example subscriptions_omits_another_user :
  ¬ returns_exactly_followed page_of_two_reversed kitchen
      (Request.mk GET (Some alice) ∅) alice.
Proof.
  intros (count & results & Hres & Hex).
  vm_compute in Hres. injection Hres as <- <-.
  assert (Hd : follows kitchen alice bob).
  { exists (Subscription.mk 1 2). split; [|done]. left. }
  apply (Hex bob) in Hd; [|right; left].
  apply list_elem_of_fmap in Hd as (d & Hid & Hd).
  repeat (apply elem_of_cons in Hd as [->|Hd]; [done|]).
  by inversion Hd.
Qed.

(** ** Favorites and the shopping cart *)

(** C6: for an authenticated user and an existing recipe, a DELETE on
    [favorite] (and likewise on [shopping_cart]) answers 400 and changes
    nothing when the user has no row for the recipe, and otherwise answers
    204 and removes exactly the rows of that (user, recipe) pair, every
    other row and table staying as it was. *)
Theorem delete_favorite_and_cart (cfg : Settings) (st : State)
    (request : Request.t) (user : User.t) (recipe : Recipe.t) :
  NoDup (Recipe.id <$> Recipe_objects st) →
  recipe ∈ Recipe_objects st →
  Request.user request = Some user →
  Request.method request = DELETE →
  ((∀ f, f ∈ Favorite_objects st →
         ¬ (Favorite.user f = User.id user
            ∧ Favorite.recipe f = Recipe.id recipe)) →
   ∃ errors,
     dispatch cfg (favorite (Recipe.id recipe)) request st
     = (inr (mkResponse HTTP_400_BAD_REQUEST (Errors errors)), st))
  ∧ ((∃ f, f ∈ Favorite_objects st
           ∧ Favorite.user f = User.id user
           ∧ Favorite.recipe f = Recipe.id recipe) →
     dispatch cfg (favorite (Recipe.id recipe)) request st
     = (inr (mkResponse HTTP_204_NO_CONTENT NoData),
        mkState (User_objects st) (Tag_objects st) (Ingredient_objects st)
          (Recipe_objects st) (Recipe_tags st) (RecipeIngredient_objects st)
          (filter (λ f, ¬ (Favorite.user f = User.id user
                           ∧ Favorite.recipe f = Recipe.id recipe))
                  (Favorite_objects st))
          (ShoppingCart_objects st) (Subscription_objects st)
          (Recipe_next_id st)))
  ∧ ((∀ c, c ∈ ShoppingCart_objects st →
           ¬ (ShoppingCart.user c = User.id user
              ∧ ShoppingCart.recipe c = Recipe.id recipe)) →
     ∃ errors,
       dispatch cfg (shopping_cart (Recipe.id recipe)) request st
       = (inr (mkResponse HTTP_400_BAD_REQUEST (Errors errors)), st))
  ∧ ((∃ c, c ∈ ShoppingCart_objects st
           ∧ ShoppingCart.user c = User.id user
           ∧ ShoppingCart.recipe c = Recipe.id recipe) →
     dispatch cfg (shopping_cart (Recipe.id recipe)) request st
     = (inr (mkResponse HTTP_204_NO_CONTENT NoData),
        mkState (User_objects st) (Tag_objects st) (Ingredient_objects st)
          (Recipe_objects st) (Recipe_tags st) (RecipeIngredient_objects st)
          (Favorite_objects st)
          (filter (λ c, ¬ (ShoppingCart.user c = User.id user
                           ∧ ShoppingCart.recipe c = Recipe.id recipe))
                  (ShoppingCart_objects st))
          (Subscription_objects st) (Recipe_next_id st))).
Proof.
  intros Hnd Hin Hu Hm. simpl.
  unfold RecipeViewSet.favorite, RecipeViewSet.shopping_cart,
    RecipeViewSet.user_recipe_action.
  rewrite Hu, Hm. unfold bind, query.
  rewrite (filter_pk_unique Recipe.id _ recipe) by done. simpl.
  unfold RecipeViewSet.delete_model_instance. simpl.
  repeat split.
  - intros Hno.
    assert (exists_ (filter (λ f, Favorite.user f = User.id user
              ∧ Favorite.recipe f = Recipe.id recipe) (Favorite_objects st))
            = false) as -> by (by apply exists_filter_false).
    by eexists.
  - intros (f & Hf & Hfu).
    assert (exists_ (filter (λ f, Favorite.user f = User.id user
              ∧ Favorite.recipe f = Recipe.id recipe) (Favorite_objects st))
            = true) as -> by (apply exists_filter_true; eauto).
    done.
  - intros Hno.
    assert (exists_ (filter (λ c, ShoppingCart.user c = User.id user
              ∧ ShoppingCart.recipe c = Recipe.id recipe)
              (ShoppingCart_objects st))
            = false) as -> by (by apply exists_filter_false).
    by eexists.
  - intros (f & Hf & Hfu).
    assert (exists_ (filter (λ c, ShoppingCart.user c = User.id user
              ∧ ShoppingCart.recipe c = Recipe.id recipe)
              (ShoppingCart_objects st))
            = true) as -> by (apply exists_filter_true; eauto).
    done.
Qed.

Lemma delete_favorite_and_cart_witness :
  dispatch page_of_two (favorite 1) (Request.mk DELETE (Some bob) ∅) kitchen
  = (inr (mkResponse HTTP_204_NO_CONTENT NoData),
     mkState (User_objects kitchen) (Tag_objects kitchen)
       (Ingredient_objects kitchen) (Recipe_objects kitchen)
       (Recipe_tags kitchen) (RecipeIngredient_objects kitchen)
       [] (ShoppingCart_objects kitchen) (Subscription_objects kitchen)
       (Recipe_next_id kitchen))
  ∧ ∃ errors,
      dispatch page_of_two (shopping_cart 1)
        (Request.mk DELETE (Some alice) ∅) kitchen
      = (inr (mkResponse HTTP_400_BAD_REQUEST (Errors errors)), kitchen).
Proof.
  split.
  - apply (delete_favorite_and_cart page_of_two kitchen
             (Request.mk DELETE (Some bob) ∅) bob soup).
    + apply (bool_decide_unpack _). by vm_compute.
    + apply (bool_decide_unpack _). by vm_compute.
    + reflexivity.
    + reflexivity.
    + exists (Favorite.mk 2 1). split; [left|done].
  - apply (delete_favorite_and_cart page_of_two kitchen
             (Request.mk DELETE (Some alice) ∅) alice soup).
    + apply (bool_decide_unpack _). by vm_compute.
    + apply (bool_decide_unpack _). by vm_compute.
    + reflexivity.
    + reflexivity.
    + intros c Hc [Hu _].
      repeat (apply elem_of_cons in Hc as [->|Hc]; [done|]).
      by inversion Hc.
Defined.

(** ** Creating and updating a recipe *)

Lemma new_rows_inr st recipe items rows :
  new_rows st recipe items = inr rows →
  rows = (λ it, RecipeIngredient.mk (Recipe.id recipe) (Item.id it)
                  (Item.amount it)) <$> items
  ∧ Forall (λ it, Item.id it ∈ Ingredient.id <$> Ingredient_objects st) items.
Proof.
  unfold new_rows.
  revert rows. induction items as [|it items IH]; simpl; intros rows.
  - by intros [= <-].
  - destruct (Ingredient_get st (Item.id it)) as [|i] eqn:Hi; simpl; [done|].
    destruct (rmapM _ items) as [|rows']; simpl; [done|].
    intros [= <-]. apply Ingredient_get_inr in Hi as [Hin Hid].
    destruct (IH rows' eq_refl) as [-> Hall]. split; [by rewrite Hid|].
    constructor; [|done]. rewrite <- Hid. by apply list_elem_of_fmap_2.
Qed.

Lemma new_rows_inl st recipe items item :
  item ∈ items →
  (∀ i, i ∈ Ingredient_objects st → Ingredient.id i ≠ Item.id item) →
  ∃ e, new_rows st recipe items = inl e.
Proof.
  intros Hin Hno.
  destruct (new_rows st recipe items) as [e|rows] eqn:E; [by eexists|].
  apply new_rows_inr in E as [_ Hall].
  rewrite Forall_forall in Hall. apply Hall in Hin.
  apply list_elem_of_fmap in Hin as (i & Hid & Hi). by destruct (Hno i).
Qed.

Lemma new_rows_total st recipe items :
  NoDup (Ingredient.id <$> Ingredient_objects st) →
  Forall (λ it, Item.id it ∈ Ingredient.id <$> Ingredient_objects st) items →
  ∃ rows, new_rows st recipe items = inr rows.
Proof.
  intros Hnd Hall. apply rmapM_total. intros it Hit.
  rewrite Forall_forall in Hall.
  destruct (filter_pk_elem Ingredient.id _ _ Hnd (Hall _ Hit))
    as (i & _ & _ & E).
  unfold Ingredient_get. rewrite E. simpl. by eexists.
Qed.

Lemma tags_and_ingredients_set_run recipe tags items st :
  RecipeCreateSerializer.tags_and_ingredients_set recipe tags items st
  = match new_rows st recipe items with
    | inl e => (inl e, st)
    | inr rows =>
        (inr tt,
         (RecipeCreateSerializer.RecipeIngredient_bulk_create rows
            (RecipeCreateSerializer.Recipe_tags_set recipe tags st).2).2)
    end.
Proof.
  unfold RecipeCreateSerializer.tags_and_ingredients_set, atomic, bind,
    query, new_rows.
  simpl. unfold Ingredient_get. simpl.
  destruct (rmapM _ _); reflexivity.
Qed.

(** [create], step by step: the exceptions it can raise, each with the
    store it entered with, and the store a success leaves. *)
Lemma create_run request d st :
  RecipeCreateSerializer.create request d st
  = match RecipeData.tags d, RecipeData.ingredients d,
          Request.user request, RecipeData.cooking_time d with
    | None, _, _, _ => (inl (KeyError "tags"), st)
    | Some _, None, _, _ => (inl (KeyError "ingredients"), st)
    | Some _, Some _, None, _ => (inl ValueError, st)
    | Some _, Some _, Some _, None => (inl IntegrityError, st)
    | Some tags, Some items, Some author, Some cooking_time =>
        let recipe :=
          Recipe.mk (Recipe_next_id st) (User.id author)
            (default "" (RecipeData.name d)) (default "" (RecipeData.image d))
            (default "" (RecipeData.text d)) cooking_time in
        match new_rows st recipe items with
        | inl e => (inl e, st)
        | inr rows =>
            (inr recipe,
             mkState (User_objects st) (Tag_objects st)
               (Ingredient_objects st) (Recipe_objects st ++ [recipe])
               (Recipe_tags
                  (RecipeCreateSerializer.Recipe_tags_set recipe tags st).2)
               (RecipeIngredient_objects st ++ rows)
               (Favorite_objects st) (ShoppingCart_objects st)
               (Subscription_objects st) (Recipe_next_id st + 1))
        end
    end.
Proof.
  unfold RecipeCreateSerializer.create, atomic, bind at 1.
  destruct (RecipeData.tags d) as [tags|] eqn:Ht; [|done].
  unfold bind at 1.
  destruct (RecipeData.ingredients d) as [items|] eqn:Hi; [|done].
  destruct (Request.user request) as [author|] eqn:Hu; [|done].
  unfold bind, RecipeCreateSerializer.pop, ret,
    RecipeCreateSerializer.Recipe_objects_create.
  destruct (RecipeData.cooking_time d) as [ct|] eqn:Hc; [|done].
  simpl. rewrite tags_and_ingredients_set_run.
  unfold new_rows, Ingredient_get. simpl.
  destruct (rmapM _ _); done.
Qed.

Lemma update_run instance d st :
  RecipeCreateSerializer.update instance d st
  = match RecipeData.tags d, RecipeData.ingredients d with
    | None, _ => (inl (KeyError "tags"), st)
    | Some _, None => (inl (KeyError "ingredients"), st)
    | Some tags, Some items =>
        let instance' :=
          Recipe.mk (Recipe.id instance) (Recipe.author instance)
            (default (Recipe.name instance) (RecipeData.name d))
            (default (Recipe.image instance) (RecipeData.image d))
            (default (Recipe.text instance) (RecipeData.text d))
            (default (Recipe.cooking_time instance)
                     (RecipeData.cooking_time d)) in
        match new_rows st instance items with
        | inl e => (inl e, st)
        | inr rows =>
            (inr instance',
             (RecipeCreateSerializer.Recipe_save instance'
               (RecipeCreateSerializer.RecipeIngredient_bulk_create rows
                 (RecipeCreateSerializer.Recipe_tags_set instance tags
                    (RecipeCreateSerializer.RecipeIngredient_delete_of
                       instance st).2).2).2).2)
        end
    end.
Proof.
  unfold RecipeCreateSerializer.update, atomic, bind at 1.
  destruct (RecipeData.tags d) as [tags|] eqn:Ht; [|done].
  unfold bind at 1.
  destruct (RecipeData.ingredients d) as [items|] eqn:Hi; [|done].
  unfold bind, RecipeCreateSerializer.pop, ret. simpl.
  rewrite tags_and_ingredients_set_run.
  unfold new_rows, Ingredient_get. simpl.
  destruct (rmapM _ _); done.
Qed.

Lemma is_valid_inr partial st d d' :
  RecipeCreateSerializer.is_valid partial st d = inr d' → d' = d.
Proof.
  unfold RecipeCreateSerializer.is_valid,
    RecipeCreateSerializer.to_internal_value.
  repeat (case_match; simpl; try done);
    unfold RecipeCreateSerializer.validate;
    repeat (case_match; simpl; try done); congruence.
Qed.

Lemma new_rows_DoesNotExist st recipe items e :
  NoDup (Ingredient.id <$> Ingredient_objects st) →
  new_rows st recipe items = inl e → e = DoesNotExist.
Proof.
  intros Hnd. unfold new_rows.
  induction items as [|it items IH]; simpl; [done|].
  destruct (Ingredient_get st (Item.id it)) as [e'|i] eqn:Hi; simpl.
  - intros [= <-]. revert Hi. unfold Ingredient_get.
    destruct (decide (Item.id it ∈ Ingredient.id <$> Ingredient_objects st))
      as [Hin|Hin].
    + destruct (filter_pk_elem Ingredient.id _ _ Hnd Hin) as (i & _ & _ & ->).
      done.
    + rewrite filter_none; [by intros [= <-]|].
      intros i Hi Hid. apply Hin. rewrite <- Hid.
      by apply list_elem_of_fmap_2.
  - destruct (rmapM _ items); simpl; [|done]. intros [= <-]. by apply IH.
Qed.

(** C8: when the ingredient list holds an id of no [Ingredient] row, the
    create operation raises and the store is the one it started with:
    neither the new [Recipe] row nor any [RecipeIngredient] row stays.
    For validated data of an authenticated user the exception is
    [Ingredient.DoesNotExist]. *)
Theorem create_is_atomic (cfg : Settings) (request : Request.t)
    (d : RecipeData.t) (st : State) (items : list Item.t) (item : Item.t) :
  RecipeData.ingredients d = Some items →
  item ∈ items →
  (∀ i, i ∈ Ingredient_objects st → Ingredient.id i ≠ Item.id item) →
  (∃ e, RecipeCreateSerializer.create request d st = (inl e, st))
  ∧ (∃ e, dispatch cfg (recipe_create d) request st = (inl e, st))
  ∧ (RecipeCreateSerializer.validate d = inr d →
     is_authenticated request = true →
     NoDup (Ingredient.id <$> Ingredient_objects st) →
     RecipeCreateSerializer.create request d st = (inl DoesNotExist, st)).
Proof.
  intros Hd Hin Hno.
  assert (Hc : ∃ e, RecipeCreateSerializer.create request d st
                    = (inl e, st)).
  { rewrite create_run, Hd.
    destruct (RecipeData.tags d); [|by eexists].
    destruct (Request.user request); [|by eexists].
    destruct (RecipeData.cooking_time d); [|by eexists].
    simpl.
    edestruct new_rows_inl as [e ->]; [done..|]. by eexists. }
  split; [done|]. split.
  - simpl. unfold RecipeViewSet.create.
    destruct (has_permission cfg request); simpl; [|by eexists].
    unfold bind, query.
    destruct (RecipeCreateSerializer.is_valid false st d) as [e|d'] eqn:Hv;
      [by eexists|].
    apply is_valid_inr in Hv as ->.
    destruct Hc as [e ->]. by eexists.
  - intros Hv Hu Hnd.
    assert (¬ invalid d) as Hvalid.
    { intros [message Hm]%validate_invalid. congruence. }
    rewrite create_run, Hd. unfold is_authenticated in Hu.
    destruct (RecipeData.tags d) as [tags|] eqn:Ht;
      [|destruct Hvalid; unfold invalid; rewrite Ht; tauto].
    destruct (Request.user request) as [author|]; [|done].
    destruct (RecipeData.cooking_time d) as [ct|] eqn:Hct;
      [|destruct Hvalid; unfold invalid; rewrite Hct; tauto].
    simpl.
    edestruct new_rows_inl as [e He]; [done..|]. rewrite He.
    by rewrite (new_rows_DoesNotExist _ _ _ _ Hnd He).
Qed.

Lemma create_is_atomic_witness :
  (∃ e, RecipeCreateSerializer.create (Request.mk POST (Some alice) ∅)
          soup_with_saffron kitchen = (inl e, kitchen))
  ∧ (∃ e, dispatch page_of_two (recipe_create soup_with_saffron)
            (Request.mk POST (Some alice) ∅) kitchen = (inl e, kitchen))
  ∧ (RecipeCreateSerializer.validate soup_with_saffron
     = inr soup_with_saffron →
     is_authenticated (Request.mk POST (Some alice) ∅) = true →
     NoDup (Ingredient.id <$> Ingredient_objects kitchen) →
     RecipeCreateSerializer.create (Request.mk POST (Some alice) ∅)
       soup_with_saffron kitchen = (inl DoesNotExist, kitchen)).
Proof.
  apply (create_is_atomic page_of_two (Request.mk POST (Some alice) ∅)
           soup_with_saffron kitchen [Item.mk 1 5; Item.mk 9 1]
           (Item.mk 9 1)).
  - reflexivity.
  - right. left.
  - intros i Hi.
    repeat (apply elem_of_cons in Hi as [->|Hi]; [done|]).
    by inversion Hi.
Defined.

Lemma Recipe_ingredients_all_elem st instance ri :
  ri ∈ RecipeIngredient_objects st →
  RecipeIngredient.recipe ri = Recipe.id instance →
  RecipeIngredient.ingredient ri ∈ Ingredient.id <$> Ingredient_objects st →
  RecipeIngredient.ingredient ri
  ∈ Ingredient.id <$> Recipe_ingredients_all st instance.
Proof.
  intros Hri Hrec Hfk.
  apply list_elem_of_fmap in Hfk as (i & Hid & Hi).
  apply list_elem_of_fmap. exists i. split; [done|].
  unfold Recipe_ingredients_all.
  apply list_elem_of_bind. exists ri. split; [|done].
  apply list_elem_of_bind. exists i. split; [|done].
  rewrite decide_True by done. left.
Qed.

Lemma Recipe_tags_set_elem recipe tags st t :
  RecipeTag.mk (Recipe.id recipe) t
  ∈ Recipe_tags (RecipeCreateSerializer.Recipe_tags_set recipe tags st).2
  ↔ t ∈ tags.
Proof.
  simpl. rewrite elem_of_app, list_elem_of_filter, list_elem_of_fmap. simpl.
  split.
  - intros [[Hk _]|(t' & [= <-] & Hn)].
    + destruct (decide (t ∈ tags)); [done|]. destruct Hk. done.
    + apply elem_of_remove_dups, list_elem_of_filter in Hn. tauto.
  - intros Ht.
    destruct (decide (RecipeTag.mk (Recipe.id recipe) t ∈ Recipe_tags st))
      as [Hin|Hin].
    + left. split; [|done]. intros [_ Hn]. done.
    + right. exists t. split; [done|].
      apply elem_of_remove_dups, list_elem_of_filter. split; [|done].
      intros Hold. apply list_elem_of_fmap in Hold as ([r t'] & Heq & Hrt).
      apply list_elem_of_filter in Hrt as [Hr Hrt]. simpl in *. subst.
      done.
Qed.

Lemma Recipe_tags_set_other recipe tags st rt :
  RecipeTag.recipe rt ≠ Recipe.id recipe →
  rt ∈ Recipe_tags (RecipeCreateSerializer.Recipe_tags_set recipe tags st).2
  ↔ rt ∈ Recipe_tags st.
Proof.
  intros Hne. simpl.
  rewrite elem_of_app, list_elem_of_filter, list_elem_of_fmap.
  split.
  - intros [[_ ?]|(t & -> & _)]; [done|]. by destruct Hne.
  - intros Hin. left. split; [|done]. intros [? _]. done.
Qed.

(** An update of validated data whose ingredients all exist succeeds. *)
Lemma update_succeeds instance d st tags items :
  NoDup (Ingredient.id <$> Ingredient_objects st) →
  RecipeData.tags d = Some tags →
  RecipeData.ingredients d = Some items →
  Forall (λ it, Item.id it ∈ Ingredient.id <$> Ingredient_objects st) items →
  ∃ instance' st',
    RecipeCreateSerializer.update instance d st = (inr instance', st').
Proof.
  intros Hnd Ht Hi Hall. rewrite update_run, Ht, Hi. simpl.
  destruct (new_rows_total st instance items Hnd Hall) as [rows ->].
  by eexists _, _.
Qed.

(** C3: after a successful update of a recipe, the [RecipeIngredient]
    rows attached to it are exactly the submitted ingredient list, entry by
    entry (no row attached before survives beside them), its tags are
    exactly the submitted tags, and the rows and tags of other recipes are
    untouched. *)
Theorem update_replaces_ingredients_and_tags (instance instance' : Recipe.t)
    (d : RecipeData.t) (st st' : State)
    (tags : list Z) (items : list Item.t) :
  RecipeIngredient_fk_ingredient st →
  RecipeData.tags d = Some tags →
  RecipeData.ingredients d = Some items →
  RecipeCreateSerializer.update instance d st = (inr instance', st') →
  Recipe_recipes st' instance
  = (λ it, RecipeIngredient.mk (Recipe.id instance) (Item.id it)
             (Item.amount it)) <$> items
  ∧ (∀ t, RecipeTag.mk (Recipe.id instance) t ∈ Recipe_tags st' ↔ t ∈ tags)
  ∧ filter (λ ri, RecipeIngredient.recipe ri ≠ Recipe.id instance)
           (RecipeIngredient_objects st')
    = filter (λ ri, RecipeIngredient.recipe ri ≠ Recipe.id instance)
             (RecipeIngredient_objects st)
  ∧ (∀ rt, RecipeTag.recipe rt ≠ Recipe.id instance →
           rt ∈ Recipe_tags st' ↔ rt ∈ Recipe_tags st).
Proof.
  intros Hfk Ht Hi. rewrite update_run, Ht, Hi. simpl.
  destruct (new_rows st instance items) as [|rows] eqn:Hrows; [done|].
  intros [= <- <-]. apply new_rows_inr in Hrows as [-> _].
  unfold Recipe_recipes. simpl.
  rewrite !filter_app.
  set (new := (λ it, RecipeIngredient.mk (Recipe.id instance) (Item.id it)
                 (Item.amount it)) <$> items).
  assert (Hnew : ∀ ri, ri ∈ new →
                       RecipeIngredient.recipe ri = Recipe.id instance).
  { intros ri (it & -> & _)%list_elem_of_fmap. done. }
  split; [|split; [|split]].
  - rewrite (filter_all _ new) by done.
    rewrite filter_none; [done|].
    intros ri (Hkeep & Hri)%list_elem_of_filter Hrec.
    apply Hkeep. split; [done|].
    apply Recipe_ingredients_all_elem; [done..|].
    unfold RecipeIngredient_fk_ingredient in Hfk.
    rewrite Forall_forall in Hfk. by apply Hfk.
  - intros t.
    apply (Recipe_tags_set_elem instance tags
             (RecipeCreateSerializer.RecipeIngredient_delete_of
                instance st).2).
  - rewrite (filter_none _ new) by (intros ri Hri Hne; by apply Hne, Hnew).
    rewrite app_nil_r. rewrite list_filter_filter.
    apply filter_iff_in. intros ri _. tauto.
  - intros rt Hne.
    apply (Recipe_tags_set_other instance tags
             (RecipeCreateSerializer.RecipeIngredient_delete_of
                instance st).2 rt Hne).
Qed.

Lemma update_replaces_ingredients_and_tags_witness :
  Recipe_recipes (RecipeCreateSerializer.update soup sweet_soup kitchen).2
    soup
  = [RecipeIngredient.mk 1 2 9]
  ∧ (∀ t, RecipeTag.mk 1 t
          ∈ Recipe_tags
              (RecipeCreateSerializer.update soup sweet_soup kitchen).2
          ↔ t ∈ [2%Z]).
Proof.
  destruct (update_replaces_ingredients_and_tags soup
              (Recipe.mk 1 1 "soup" "soup.png" "boil longer" 20)
              sweet_soup kitchen
              (RecipeCreateSerializer.update soup sweet_soup kitchen).2
              [2%Z] [Item.mk 2 9])
    as (Hrows & Htags & _).
  - apply (bool_decide_unpack _). by vm_compute.
  - reflexivity.
  - reflexivity.
  - by vm_compute.
  - split; [exact Hrows|exact Htags].
Defined.

(** ** The shopping list *)

Section join.
Context (st : State) (user : User.t) (Hwf : wf st).

(** In a well-formed store a row joins with its recipe, with the one cart
    row of the user for that recipe if there is one, and with its
    ingredient. *)
Lemma join_row_spec ri (name unit : string) :
  ri ∈ RecipeIngredient_objects st →
  snd <$> filter (λ row, row.1 = (name, unit)) (join_row st user ri)
  = RecipeIngredient.amount
      <$> filter (λ ri, in_cart st user (RecipeIngredient.recipe ri)
                        ∧ ingredient_is st (RecipeIngredient.ingredient ri)
                            name unit) [ri].
Proof.
  intros Hri.
  destruct Hwf as ((_ & Hipk & Hrpk & _ & Hfkr & Hfki) & _ & _ & Hcart).
  unfold RecipeIngredient_fk_recipe, RecipeIngredient_fk_ingredient in *.
  rewrite Forall_forall in Hfkr, Hfki.
  destruct (filter_pk_elem Recipe.id _ _ Hrpk (Hfkr _ Hri))
    as (r & Hr & Hrid & Er).
  destruct (filter_pk_elem Ingredient.id _ _ Hipk (Hfki _ Hri))
    as (i & Hi & Hiid & Ei).
  unfold join_row. rewrite Er, Ei. simpl. rewrite app_nil_r.
  assert (Hii : ingredient_is st (RecipeIngredient.ingredient ri) name unit
                ↔ Ingredient.name i = name
                  ∧ Ingredient.measurement_unit i = unit).
  { unfold ingredient_is. rewrite Exists_exists. split.
    - intros (i' & Hi' & Hid' & Hn & Hu).
      assert (i' ∈ filter (λ i, Ingredient.id i
                                = RecipeIngredient.ingredient ri)
                     (Ingredient_objects st)) as Hin
        by by apply list_elem_of_filter.
      rewrite Ei in Hin. apply list_elem_of_singleton in Hin as ->. done.
    - intros [? ?]. exists i. done. }
  destruct (filter_NoDup_eq
              (λ c, ShoppingCart.recipe c = Recipe.id r
                    ∧ ShoppingCart.user c = User.id user)
              (ShoppingCart_objects st) Hcart)
    as [Ec|(c & Hc & [Hcr Hcu] & Ec)].
  { intros [u1 r1] [u2 r2]; simpl. intros [-> ->] [-> ->]. done. }
  - rewrite Ec. simpl. rewrite filter_cons, decide_False; [done|].
    intros [Hin _]. unfold in_cart in Hin. apply Exists_exists in Hin
      as (c & Hc & Hcu & Hcr).
    eapply (filter_nil_not_elem_of _ _ c Ec); [|done]. split; congruence.
  - rewrite Ec. simpl.
    assert (Hic : in_cart st user (RecipeIngredient.recipe ri)).
    { apply Exists_exists. exists c. split; [done|]. split; congruence. }
    rewrite !filter_cons. simpl.
    destruct (decide ((Ingredient.name i, Ingredient.measurement_unit i)
                      = (name, unit))) as [[= Hn Hu]|Hne].
    + rewrite decide_True by (split; [done|]; by apply Hii). done.
    + rewrite decide_False; [done|]. intros [_ [? ?]%Hii]. congruence.
Qed.

(** The amounts the join yields for a pair are those of the rows the
    property sums. *)
Lemma join_spec (name unit : string) :
  snd <$> filter (λ row, row.1 = (name, unit))
                 (RecipeViewSet.filter_recipe__carts__user st user)
  = RecipeIngredient.amount <$> rows_in_cart st user name unit.
Proof.
  unfold RecipeViewSet.filter_recipe__carts__user, rows_in_cart.
  change (RecipeIngredient_objects st ≫= _)
    with (RecipeIngredient_objects st ≫= join_row st user).
  assert (Hsub : ∀ ri, ri ∈ RecipeIngredient_objects st
                       → ri ∈ RecipeIngredient_objects st) by done.
  revert Hsub. generalize (RecipeIngredient_objects st) at 1 3 4.
  induction l as [|ri l IH]; intros Hsub; [done|].
  rewrite bind_cons, filter_app, fmap_app.
  rewrite join_row_spec by (apply Hsub; left).
  rewrite IH by (intros; apply Hsub; by right).
  rewrite <- fmap_app. f_equal.
  change (ri :: l) with ([ri] ++ l). by rewrite filter_app.
Qed.

End join.

(** The groups of the list carry the distinct pairs of the joined rows. *)
Lemma values_annotate_Sum_keys cfg st user
    (J : list (string * string * Z)) :
  row_key <$> RecipeViewSet.values_annotate_Sum cfg st user J
  ≡ₚ remove_dups (fst <$> J).
Proof.
  unfold RecipeViewSet.values_annotate_Sum. rewrite <- list_fmap_compose.
  etrans; [|apply (group_order_Permutation cfg st user)].
  match goal with |- ?f <$> ?l ≡ₚ _ => enough (f <$> l = l) as -> by done end.
  rewrite <- (list_fmap_id (group_order cfg st user _)) at 2.
  apply list_fmap_ext. intros i [n u] _. done.
Qed.

(** C1: for every user, [download_shopping_cart] produces a shopping list
    in which each (ingredient name, measurement unit) pair of a recipe of
    the user's cart appears exactly once, on a line of its own that shows
    the name, the sum of the amounts of all [RecipeIngredient] rows whose
    recipe is in the cart and whose ingredient has that name and unit, and
    the unit; no other pair appears. *)
Theorem shopping_list_groups_and_sums (cfg : Settings) (st : State)
    (request : Request.t) (user : User.t) :
  wf st →
  Request.method request = GET →
  Request.user request = Some user →
  ∃ rows,
    dispatch cfg download_shopping_cart request st
    = (inr (mkResponse HTTP_200_OK
              (Text (("Список покупок:" +:+ nl) :: (listed <$> rows)))), st)
    ∧ grouped_sums st user rows.
Proof.
  intros Hwf Hm Hu. simpl. unfold RecipeViewSet.download_shopping_cart.
  rewrite Hu, Hm. unfold query.
  set (J := RecipeViewSet.filter_recipe__carts__user st user).
  exists (RecipeViewSet.values_annotate_Sum cfg st user J). split; [done|].
  pose proof (values_annotate_Sum_keys cfg st user J) as Hkeys.
  split; [|split].
  - rewrite Hkeys. apply NoDup_remove_dups.
  - intros name unit. rewrite Hkeys, elem_of_remove_dups.
    pose proof (join_spec st user Hwf name unit) as Hj. fold J in Hj.
    split.
    + intros (row & Hk & Hrow)%list_elem_of_fmap.
      assert (row ∈ filter (λ row, row.1 = (name, unit)) J) as Hin
        by by apply list_elem_of_filter.
      destruct (rows_in_cart st user name unit) as [|ri l] eqn:E.
      * destruct (filter _ J); [by inversion Hin|done].
      * exists ri.
        assert (ri ∈ rows_in_cart st user name unit) as Hri
          by (rewrite E; left).
        apply list_elem_of_filter in Hri. tauto.
    + intros (ri & Hri & Hc & Hi).
      assert (ri ∈ rows_in_cart st user name unit) as Hin
        by by apply list_elem_of_filter.
      destruct (filter (λ row, row.1 = (name, unit)) J) as [|row l] eqn:E.
      * destruct (rows_in_cart st user name unit); [by inversion Hin|done].
      * assert (row ∈ filter (λ row, row.1 = (name, unit)) J) as Hrow
          by (rewrite E; left).
        apply list_elem_of_filter in Hrow as [Hk Hrow].
        apply list_elem_of_fmap. exists row. done.
  - intros row (key & -> & _)%list_elem_of_fmap. simpl.
    rewrite <- (join_spec st user Hwf). by destruct key.
Qed.

Lemma shopping_list_groups_and_sums_witness :
  ∃ rows,
    dispatch page_of_two download_shopping_cart
      (Request.mk GET (Some bob) ∅) kitchen
    = (inr (mkResponse HTTP_200_OK
              (Text (("Список покупок:" +:+ nl) :: (listed <$> rows)))),
       kitchen)
    ∧ grouped_sums kitchen bob rows.
Proof.
  apply (shopping_list_groups_and_sums page_of_two kitchen
           (Request.mk GET (Some bob) ∅) bob).
  - apply (bool_decide_unpack _). by vm_compute.
  - reflexivity.
  - reflexivity.
Defined.

(** The list of Bob from a database that returns the groups as the
    tables list them: sugar from the soup, salt from both recipes. *)
Example shopping_list_of_bob :
  (dispatch page_of_two download_shopping_cart
     (Request.mk GET (Some bob) ∅) kitchen).1
  = inr (mkResponse HTTP_200_OK
           (Text ["Список покупок:" +:+ nl;
                  nl +:+ "sugar - 7, g";
                  nl +:+ "salt - 8, g"])).
Proof. by vm_compute. Qed.

(** ** What each operation does to the store *)

Lemma subscribe_state request id st :
  let st' := (UserViewSet.subscribe request id st).2 in
  (User_objects st', Tag_objects st', Ingredient_objects st',
   Recipe_objects st', Recipe_tags st', RecipeIngredient_objects st',
   Recipe_next_id st', Favorite_objects st', ShoppingCart_objects st')
  = (User_objects st, Tag_objects st, Ingredient_objects st,
     Recipe_objects st, Recipe_tags st, RecipeIngredient_objects st,
     Recipe_next_id st, Favorite_objects st, ShoppingCart_objects st)
  ∧ (Subscription_objects st' = Subscription_objects st
     ∨ (∃ s, (s ∉ Subscription_objects st)
             ∧ Subscription_objects st' = Subscription_objects st ++ [s])
     ∨ (∃ (P : Subscription.t → Prop) (dec : ∀ s, Decision (P s)),
          Subscription_objects st' = filter P (Subscription_objects st))).
Proof.
  unfold UserViewSet.subscribe.
  destruct (Request.user request) as [user|]; [|by auto].
  destruct (Request.method request); try by auto.
  - unfold bind, query.
    destruct (get_object_or_404 _) as [|author]; [by auto|]. simpl.
    destruct (UserSubscribeSerializer.is_valid _ _ _) as [|v] eqn:Hv;
      [by auto|]. simpl.
    assert (Subscription.mk (User.id (UserSubscribeSerializer.v_user v))
              (User.id (UserSubscribeSerializer.v_author v))
            ∉ Subscription_objects st) as Hnew.
    { revert Hv. unfold UserSubscribeSerializer.is_valid.
      destruct (UserSubscribeSerializer.to_internal_value _ _) as [|v'];
        simpl; [done|].
      unfold UserSubscribeSerializer.UniqueTogetherValidator.
      destruct (exists_ _) eqn:Hex; simpl; [done|].
      unfold UserSubscribeSerializer.validate.
      destruct (bool_decide _); [done|]. intros [= ->].
      intros Hin.
      eapply (proj1 (exists_filter_false _ _) Hex _ Hin). done. }
    destruct (UserSubscribeSerializer.to_representation _ _ _); simpl;
      (split; [done|right; left; eauto]).
  - unfold bind, query, get_db.
    destruct (get_object_or_404 _) as [|author]; [by auto|]. simpl.
    destruct (exists_ _); simpl; [|by auto].
    unfold UserViewSet.Subscription_get_delete.
    destruct (get_ _); simpl; [by auto|].
    split; [done|]. right; right. eauto.
Qed.

Section model.
Context {T : Type} `{UserRecipeModel T}.

Lemma user_recipe_action_state request pk message st :
  let st' :=
    (RecipeViewSet.user_recipe_action (T:=T) request pk message st).2 in
  st' = st
  ∨ (∃ u r, (∀ x, x ∈ um_objects st → ¬ (um_user x = u ∧ um_recipe x = r))
            ∧ st' = um_set_objects (um_objects st ++ [um_new u r]) st)
  ∨ (∃ (P : T → Prop) (dec : ∀ x, Decision (P x)),
       st' = um_set_objects (filter P (um_objects st)) st).
Proof.
  unfold RecipeViewSet.user_recipe_action.
  destruct (Request.user request) as [user|]; [|by auto].
  unfold bind, query.
  destruct (get_object_or_404 _) as [|recipe]; [by auto|]. simpl.
  destruct (Request.method request); try by auto.
  - unfold RecipeViewSet.create_model_instance, bind, query.
    destruct (UserRecipeSerializer.is_valid _ _) as [|v] eqn:Hv; [by auto|].
    simpl.
    assert (∀ x, x ∈ um_objects st →
              ¬ (um_user x = User.id (UserRecipeSerializer.v_user v)
                 ∧ um_recipe x = Recipe.id (UserRecipeSerializer.v_recipe v)))
      as Hnew.
    { revert Hv. unfold UserRecipeSerializer.is_valid.
      destruct (UserRecipeSerializer.to_internal_value _ _) as [|v'];
        simpl; [done|].
      unfold UserRecipeSerializer.UniqueTogetherValidator.
      destruct (exists_ _) eqn:Hex; simpl; [done|]. intros [= ->].
      exact (proj1 (exists_filter_false _ _) Hex). }
    destruct (UserRecipeSerializer.to_representation _ _); simpl;
      right; left; eauto.
  - unfold RecipeViewSet.delete_model_instance.
    destruct (exists_ _); simpl; [|by auto]. right; right. eauto.
Qed.

(** A POST for a pair that has its row is refused by the validator. *)
Lemma user_recipe_duplicate_rejected (st : State) (request : Request.t)
    (user : User.t) (recipe : Recipe.t) (x : T) (message : string) :
  NoDup (User.id <$> User_objects st) →
  NoDup (Recipe.id <$> Recipe_objects st) →
  user ∈ User_objects st → recipe ∈ Recipe_objects st →
  Request.user request = Some user →
  Request.method request = POST →
  x ∈ um_objects st → um_user x = User.id user →
  um_recipe x = Recipe.id recipe →
  RecipeViewSet.user_recipe_action (T:=T) request (Recipe.id recipe)
    message st
  = (inl (ValidationError um_unique_message), st).
Proof.
  intros Hndu Hndr Hu Hr Hru Hm Hin Hxu Hxr.
  unfold RecipeViewSet.user_recipe_action.
  rewrite Hru, Hm. unfold bind, query.
  rewrite (filter_pk_unique Recipe.id _ recipe) by done. simpl.
  unfold RecipeViewSet.create_model_instance, bind, query,
    UserRecipeSerializer.is_valid,
    UserRecipeSerializer.to_internal_value, User_get, Recipe_get. simpl.
  rewrite (filter_pk_unique User.id _ user),
    (filter_pk_unique Recipe.id _ recipe) by done. simpl.
  unfold UserRecipeSerializer.UniqueTogetherValidator. simpl.
  assert (exists_ (filter (λ x : T, um_user x = User.id user
                                    ∧ um_recipe x = Recipe.id recipe)
                          (um_objects st)) = true) as ->; [|done].
  apply exists_filter_true. eauto.
Qed.

End model.

Lemma subscribe_duplicate_rejected (st : State) (request : Request.t)
    (user author : User.t) :
  NoDup (User.id <$> User_objects st) →
  user ∈ User_objects st → author ∈ User_objects st →
  Request.user request = Some user →
  Request.method request = POST →
  Subscription.mk (User.id user) (User.id author) ∈ Subscription_objects st →
  UserViewSet.subscribe request (User.id author) st
  = (inl (ValidationError UserSubscribeSerializer.unique_message), st).
Proof.
  intros Hnd Hu Ha Hru Hm Hin. unfold UserViewSet.subscribe.
  rewrite Hru, Hm. unfold bind, query.
  rewrite (filter_pk_unique User.id _ author) by done. simpl.
  unfold UserSubscribeSerializer.is_valid,
    UserSubscribeSerializer.to_internal_value, User_get. simpl.
  rewrite (filter_pk_unique User.id _ user),
    (filter_pk_unique User.id _ author) by done. simpl.
  unfold UserSubscribeSerializer.UniqueTogetherValidator. simpl.
  assert (exists_ (filter (λ s, Subscription.user s = User.id user
                                ∧ Subscription.author s = User.id author)
                          (Subscription_objects st)) = true) as ->; [|done].
  apply exists_filter_true. eexists. split; [exact Hin|done].
Qed.

Lemma create_state cfg request d st :
  let st' := (RecipeViewSet.create cfg request d st).2 in
  st' = st
  ∨ ∃ d' recipe,
      RecipeCreateSerializer.create request d' st = (inr recipe, st').
Proof.
  cbv zeta. unfold RecipeViewSet.create.
  destruct (has_permission cfg request); simpl; [|by left].
  unfold bind, query.
  destruct (RecipeCreateSerializer.is_valid false st d) as [|d'];
    [by left|].
  destruct (RecipeCreateSerializer.create request d' st)
    as [[e|recipe] st1] eqn:Hc.
  - left. simpl. rewrite create_run in Hc. cbv zeta in Hc.
    repeat case_match; by simplify_eq.
  - right. exists d', recipe.
    by destruct (RecipeCreateSerializer.to_representation
                   (Some request) st1 recipe).
Qed.

Lemma get_object_inr cfg request pk st instance st' :
  RecipeViewSet.get_object cfg request pk st = (inr instance, st') →
  st' = st ∧ instance ∈ Recipe_objects st ∧ Recipe.id instance = pk.
Proof.
  unfold RecipeViewSet.get_object, bind, query.
  destruct (get_object_or_404 _) as [|r] eqn:Hg; [done|].
  apply get_object_or_404_inr in Hg as [? ?].
  destruct (has_object_permission cfg request r); simpl; [|done].
  by intros [= <- <-].
Qed.

Lemma get_object_inl cfg request pk st e st' :
  RecipeViewSet.get_object cfg request pk st = (inl e, st') → st' = st.
Proof.
  unfold RecipeViewSet.get_object, bind, query.
  destruct (get_object_or_404 _) as [|r] eqn:Hg; [by intros [= _ <-]|].
  destruct (has_object_permission cfg request r); simpl; [done|].
  by intros [= _ <-].
Qed.

Lemma partial_update_state cfg request pk d st :
  let st' := (RecipeViewSet.partial_update cfg request pk d st).2 in
  st' = st
  ∨ ∃ instance d' instance',
      instance ∈ Recipe_objects st
      ∧ RecipeCreateSerializer.update instance d' st = (inr instance', st').
Proof.
  cbv zeta. unfold RecipeViewSet.partial_update.
  destruct (has_permission cfg request); simpl; [|by left].
  unfold bind, query.
  destruct (RecipeViewSet.get_object cfg request pk st)
    as [[e|instance] st0] eqn:Hg.
  { left. by apply get_object_inl in Hg. }
  apply get_object_inr in Hg as (-> & Hin & _).
  destruct (RecipeCreateSerializer.is_valid true st d) as [|d']; [by left|].
  destruct (RecipeCreateSerializer.update instance d' st)
    as [[e|instance'] st1] eqn:Hc.
  - left. simpl. rewrite update_run in Hc. cbv zeta in Hc.
    repeat case_match; by simplify_eq.
  - right. exists instance, d', instance'. split; [done|].
    by destruct (RecipeCreateSerializer.to_representation
                   (Some request) st1 instance').
Qed.

Lemma destroy_state cfg request pk st :
  let st' := (RecipeViewSet.destroy cfg request pk st).2 in
  st' = st
  ∨ st' = mkState (User_objects st) (Tag_objects st) (Ingredient_objects st)
            (filter (λ r, Recipe.id r ≠ pk) (Recipe_objects st))
            (filter (λ rt, RecipeTag.recipe rt ≠ pk) (Recipe_tags st))
            (filter (λ ri, RecipeIngredient.recipe ri ≠ pk)
                    (RecipeIngredient_objects st))
            (filter (λ f, Favorite.recipe f ≠ pk) (Favorite_objects st))
            (filter (λ c, ShoppingCart.recipe c ≠ pk)
                    (ShoppingCart_objects st))
            (Subscription_objects st) (Recipe_next_id st).
Proof.
  cbv zeta. unfold RecipeViewSet.destroy.
  destruct (has_permission cfg request); simpl; [|by left].
  unfold bind.
  destruct (RecipeViewSet.get_object cfg request pk st)
    as [[e|instance] st0] eqn:Hg.
  { left. by apply get_object_inl in Hg. }
  apply get_object_inr in Hg as (-> & Hin & <-).
  unfold RecipeViewSet.Recipe_delete, ret.
  destruct (Recipe_on_delete cfg); [by right|].
  destruct (bool_decide _); [by right|by left].
Qed.

Lemma create_inr request d st recipe st' :
  RecipeCreateSerializer.create request d st = (inr recipe, st') →
  ∃ tags items,
    RecipeData.ingredients d = Some items
    ∧ Recipe.id recipe = Recipe_next_id st
    ∧ Forall (λ it, Item.id it ∈ Ingredient.id <$> Ingredient_objects st)
             items
    ∧ st' = mkState (User_objects st) (Tag_objects st)
              (Ingredient_objects st) (Recipe_objects st ++ [recipe])
              (Recipe_tags
                 (RecipeCreateSerializer.Recipe_tags_set recipe tags st).2)
              (RecipeIngredient_objects st
               ++ ((λ it, RecipeIngredient.mk (Recipe.id recipe) (Item.id it)
                            (Item.amount it)) <$> items))
              (Favorite_objects st) (ShoppingCart_objects st)
              (Subscription_objects st) (Recipe_next_id st + 1).
Proof.
  rewrite create_run. cbv zeta.
  destruct (RecipeData.tags d) as [tags|]; [|done].
  destruct (RecipeData.ingredients d) as [items|]; [|done].
  destruct (Request.user request) as [author|]; [|done].
  destruct (RecipeData.cooking_time d) as [ct|]; [|done].
  destruct (new_rows _ _ _) as [|rows] eqn:Hrows; [done|].
  apply new_rows_inr in Hrows as [-> Hall].
  intros [= <- <-]. exists tags, items. done.
Qed.

Lemma update_inr instance d st instance' st' :
  instance ∈ Recipe_objects st →
  RecipeCreateSerializer.update instance d st = (inr instance', st') →
  ∃ tags items,
    RecipeData.ingredients d = Some items
    ∧ Recipe.id instance' = Recipe.id instance
    ∧ Forall (λ it, Item.id it ∈ Ingredient.id <$> Ingredient_objects st)
             items
    ∧ st' = mkState (User_objects st) (Tag_objects st)
              (Ingredient_objects st)
              ((λ r, if decide (Recipe.id r = Recipe.id instance)
                     then instance' else r) <$> Recipe_objects st)
              (Recipe_tags
                 (RecipeCreateSerializer.Recipe_tags_set instance tags st).2)
              (filter (λ ri, ¬ (RecipeIngredient.recipe ri = Recipe.id instance
                                ∧ RecipeIngredient.ingredient ri
                                  ∈ Ingredient.id
                                    <$> Recipe_ingredients_all st instance))
                      (RecipeIngredient_objects st)
               ++ ((λ it, RecipeIngredient.mk (Recipe.id instance)
                            (Item.id it) (Item.amount it)) <$> items))
              (Favorite_objects st) (ShoppingCart_objects st)
              (Subscription_objects st) (Recipe_next_id st).
Proof.
  intros Hin. rewrite update_run. cbv zeta.
  destruct (RecipeData.tags d) as [tags|]; [|done].
  destruct (RecipeData.ingredients d) as [items|]; [|done].
  destruct (new_rows _ _ _) as [|rows] eqn:Hrows; [done|].
  apply new_rows_inr in Hrows as [-> Hall].
  intros [= <- <-]. exists tags, items. repeat split; [done|]. simpl.
  assert (exists_ (filter (λ r, Recipe.id r = Recipe.id instance)
                          (Recipe_objects st)) = true) as ->
    by (apply exists_filter_true; eauto).
  done.
Qed.

(** ** Invariants *)

Lemma unique_together_dispatch cfg action request st :
  unique_together st → unique_together (dispatch cfg action request st).2.
Proof.
  intros (Hs & Hf & Hc). unfold unique_together.
  destruct action as [|id|pk|pk| |d|pk d|pk]; unfold dispatch;
    unfold RecipeViewSet.favorite, RecipeViewSet.shopping_cart.
  - unfold UserViewSet.subscriptions, query, raise.
    by destruct (Request.method request).
  - destruct (subscribe_state request id st) as [Heq Hsub].
    injection Heq as _ _ _ _ _ _ _ -> ->. split; [|done].
    destruct Hsub as [->|[(s & Hnew & ->)|(P & dec & ->)]]; [done|..].
    + by apply NoDup_snoc.
    + by apply NoDup_filter.
  - destruct (user_recipe_action_state (T:=Favorite.t) request pk
                "У вас нет этого рецепта в избранном" st)
      as [->|[(u & r & Hnew & ->)|(P & dec & ->)]]; [done|..]; simpl.
    + repeat split; [done| |done]. apply NoDup_snoc; [done|].
      intros Hin. by apply (Hnew _ Hin).
    + repeat split; [done| |done]. by apply NoDup_filter.
  - destruct (user_recipe_action_state (T:=ShoppingCart.t) request pk
                "У вас нет этого рецепта в списке покупок" st)
      as [->|[(u & r & Hnew & ->)|(P & dec & ->)]]; [done|..]; simpl.
    + repeat split; [done..|]. apply NoDup_snoc; [done|].
      intros Hin. by apply (Hnew _ Hin).
    + repeat split; [done..|]. by apply NoDup_filter.
  - unfold RecipeViewSet.download_shopping_cart, query, raise.
    destruct (Request.user request); [|done].
    by destruct (Request.method request).
  - destruct (create_state cfg request d st) as [->|(d' & r & Hcr)]; [done|].
    apply create_inr in Hcr as (tags & items & _ & _ & _ & ->). done.
  - destruct (partial_update_state cfg request pk d st)
      as [->|(i & d' & i' & Hin & Hup)]; [done|].
    apply update_inr in Hup as (tags & items & _ & _ & _ & ->); done.
  - destruct (destroy_state cfg request pk st) as [->| ->]; [done|]. simpl.
    repeat split; [done|by apply NoDup_filter..].
Qed.

Lemma fmap_replace_pk (instance instance' : Recipe.t) (l : list Recipe.t) :
  Recipe.id instance' = Recipe.id instance →
  Recipe.id <$> ((λ r, if decide (Recipe.id r = Recipe.id instance)
                       then instance' else r) <$> l)
  = Recipe.id <$> l.
Proof.
  intros Hid. rewrite <- list_fmap_compose. apply list_fmap_ext.
  intros _ r _. simpl. destruct (decide _); congruence.
Qed.

Lemma db_integrity_dispatch cfg action request st :
  db_integrity st → db_integrity (dispatch cfg action request st).2.
Proof.
  intros Hdb. pose proof Hdb as (Hu & Hi & Hr & Hn & Hfr & Hfi).
  unfold db_integrity, RecipeIngredient_fk_recipe,
    RecipeIngredient_fk_ingredient in *.
  destruct action as [|id|pk|pk| |d|pk d|pk]; unfold dispatch;
    unfold RecipeViewSet.favorite, RecipeViewSet.shopping_cart.
  - unfold UserViewSet.subscriptions, query, raise.
    by destruct (Request.method request).
  - destruct (subscribe_state request id st) as [Heq _].
    injection Heq as -> _ -> -> _ -> -> _ _. done.
  - destruct (user_recipe_action_state (T:=Favorite.t) request pk
                "У вас нет этого рецепта в избранном" st)
      as [->|[(u & r & Hnew & ->)|(P & dec & ->)]]; done.
  - destruct (user_recipe_action_state (T:=ShoppingCart.t) request pk
                "У вас нет этого рецепта в списке покупок" st)
      as [->|[(u & r & Hnew & ->)|(P & dec & ->)]]; done.
  - unfold RecipeViewSet.download_shopping_cart, query, raise.
    destruct (Request.user request); [|done].
    by destruct (Request.method request).
  - destruct (create_state cfg request d st) as [->|(d' & r & Hcr)]; [done|].
    apply create_inr in Hcr as (tags & items & _ & Hid & Hall & ->).
    cbn [User_objects Ingredient_objects Recipe_objects Recipe_next_id
         RecipeIngredient_objects].
    repeat split; [done..| | | |].
    + rewrite fmap_app. apply NoDup_snoc; [done|]. simpl.
      intros (r' & Heq & Hr')%list_elem_of_fmap.
      rewrite Forall_forall in Hn. apply Hn in Hr'. lia.
    + apply Forall_app. split.
      * eapply Forall_impl; [exact Hn|]. simpl. lia.
      * repeat constructor. lia.
    + apply Forall_app. split.
      * eapply Forall_impl; [exact Hfr|]. simpl. intros ri Hri.
        rewrite fmap_app. apply elem_of_app. by left.
      * apply Forall_fmap, Forall_forall. intros it _. simpl.
        rewrite fmap_app. apply elem_of_app. right. left.
    + apply Forall_app. split; [done|].
      apply Forall_fmap. eapply Forall_impl; [exact Hall|]. done.
  - destruct (partial_update_state cfg request pk d st)
      as [->|(i & d' & i' & Hin & Hup)]; [done|].
    apply update_inr in Hup as (tags & items & _ & Hid & Hall & ->);
      [|done].
    cbn [User_objects Ingredient_objects Recipe_objects Recipe_next_id
         RecipeIngredient_objects].
    rewrite fmap_replace_pk by done.
    repeat split; [done..| | |].
    + apply Forall_fmap. eapply Forall_impl; [exact Hn|]. simpl.
      intros r Hr'. destruct (decide _) as [Heq|]; [|done].
      rewrite Hid, <- Heq. done.
    + apply Forall_app. split.
      * apply Forall_forall. intros ri [_ Hri]%list_elem_of_filter.
        rewrite Forall_forall in Hfr. by apply Hfr.
      * apply Forall_fmap, Forall_forall. intros it _. simpl.
        by apply list_elem_of_fmap_2.
    + apply Forall_app. split.
      * apply Forall_forall. intros ri [_ Hri]%list_elem_of_filter.
        rewrite Forall_forall in Hfi. by apply Hfi.
      * apply Forall_fmap. eapply Forall_impl; [exact Hall|]. done.
  - destruct (destroy_state cfg request pk st) as [->| ->]; [done|].
    cbn [User_objects Ingredient_objects Recipe_objects Recipe_next_id
         RecipeIngredient_objects].
    repeat split; [done..| | | |].
    + by apply NoDup_fmap_filter.
    + apply Forall_forall. intros r [_ Hr']%list_elem_of_filter.
      rewrite Forall_forall in Hn. by apply Hn.
    + apply Forall_forall. intros ri [Hne Hri]%list_elem_of_filter.
      rewrite Forall_forall in Hfr.
      apply Hfr in Hri as (r & Heq & Hr')%list_elem_of_fmap.
      apply list_elem_of_fmap. exists r. split; [done|].
      apply list_elem_of_filter. split; [congruence|done].
    + apply Forall_forall. intros ri [_ Hri]%list_elem_of_filter.
      rewrite Forall_forall in Hfi. by apply Hfi.
Qed.

(** Every store the API reaches is well formed: the hypotheses of the
    properties above hold wherever the code runs. *)
Theorem reachable_wf cfg st : reachable cfg st → wf st.
Proof.
  induction 1 as [users tags ingredients Hu Hi|st action request _ [Hdb Hut]].
  - repeat split; simpl; try done; constructor.
  - split; [by apply db_integrity_dispatch|by apply unique_together_dispatch].
Qed.

(** C2: every operation keeps at most one Subscription row per
    (user, author) pair, at most one Favorite row and at most one
    ShoppingCart row per (user, recipe) pair; a POST that would create a
    second row for a pair is rejected with a validation error and leaves
    the store unchanged. *)
Theorem unique_together_is_invariant (cfg : Settings) (st : State) :
  unique_together st →
  (∀ action request, unique_together (dispatch cfg action request st).2)
  ∧ (∀ request user author,
       NoDup (User.id <$> User_objects st) →
       user ∈ User_objects st → author ∈ User_objects st →
       Request.user request = Some user →
       Request.method request = POST →
       Subscription.mk (User.id user) (User.id author)
         ∈ Subscription_objects st →
       ∃ message,
         dispatch cfg (subscribe (User.id author)) request st
         = (inl (ValidationError message), st))
  ∧ (∀ request user recipe,
       NoDup (User.id <$> User_objects st) →
       NoDup (Recipe.id <$> Recipe_objects st) →
       user ∈ User_objects st → recipe ∈ Recipe_objects st →
       Request.user request = Some user →
       Request.method request = POST →
       (Favorite.mk (User.id user) (Recipe.id recipe) ∈ Favorite_objects st →
        ∃ message,
          dispatch cfg (favorite (Recipe.id recipe)) request st
          = (inl (ValidationError message), st))
       ∧ (ShoppingCart.mk (User.id user) (Recipe.id recipe)
            ∈ ShoppingCart_objects st →
          ∃ message,
            dispatch cfg (shopping_cart (Recipe.id recipe)) request st
            = (inl (ValidationError message), st))).
Proof.
  intros Hut. split; [|split].
  - intros action request. by apply unique_together_dispatch.
  - intros request user author Hnd Hu Ha Hru Hm Hin. eexists.
    by apply (subscribe_duplicate_rejected st request user author).
  - intros request user recipe Hndu Hndr Hu Hr Hru Hm. split; intros Hin.
    + eexists.
      by apply (user_recipe_duplicate_rejected (T:=Favorite.t) st request
                  user recipe (Favorite.mk (User.id user) (Recipe.id recipe))).
    + eexists.
      by apply (user_recipe_duplicate_rejected (T:=ShoppingCart.t) st
                  request user recipe
                  (ShoppingCart.mk (User.id user) (Recipe.id recipe))).
Qed.

Lemma unique_together_is_invariant_witness :
  unique_together
    (dispatch page_of_two (favorite 2) (Request.mk POST (Some bob) ∅)
       kitchen).2
  ∧ (∃ message,
       dispatch page_of_two (subscribe 2) (Request.mk POST (Some alice) ∅)
         kitchen
       = (inl (ValidationError message), kitchen))
  ∧ (∃ message,
       dispatch page_of_two (favorite 1) (Request.mk POST (Some bob) ∅)
         kitchen
       = (inl (ValidationError message), kitchen))
  ∧ (∃ message,
       dispatch page_of_two (shopping_cart 1)
         (Request.mk POST (Some bob) ∅) kitchen
       = (inl (ValidationError message), kitchen)).
Proof.
  destruct (unique_together_is_invariant page_of_two kitchen)
    as (Hstep & Hsub & Hrec).
  { apply (bool_decide_unpack _). by vm_compute. }
  assert (NoDup (User.id <$> User_objects kitchen)) as Hu
    by (apply (bool_decide_unpack _); by vm_compute).
  assert (NoDup (Recipe.id <$> Recipe_objects kitchen)) as Hr
    by (apply (bool_decide_unpack _); by vm_compute).
  assert (alice ∈ User_objects kitchen) as Ha by left.
  assert (bob ∈ User_objects kitchen) as Hb by (right; left).
  assert (soup ∈ Recipe_objects kitchen) as Hs by left.
  split; [apply Hstep|]. split.
  - apply (Hsub (Request.mk POST (Some alice) ∅) alice bob Hu Ha Hb
             eq_refl eq_refl). left.
  - destruct (Hrec (Request.mk POST (Some bob) ∅) bob soup Hu Hr Hb Hs
                eq_refl eq_refl) as [Hfav Hcart].
    split; [apply Hfav|apply Hcart]; left.
Defined.

(** * Further properties of the operations *)

(** Evaluating a closed, decidable fact. *)
Ltac by_computation := apply (bool_decide_unpack _); by vm_compute.
Ltac for_all_rows := apply Forall_forall; by_computation.

(** ** Subscribing and unsubscribing *)

Lemma State_eta st :
  mkState (User_objects st) (Tag_objects st) (Ingredient_objects st)
    (Recipe_objects st) (Recipe_tags st) (RecipeIngredient_objects st)
    (Favorite_objects st) (ShoppingCart_objects st)
    (Subscription_objects st) (Recipe_next_id st) = st.
Proof. by destruct st. Qed.

Lemma subscribe_post_run (st : State) (request : Request.t)
    (user author : User.t) :
  NoDup (User.id <$> User_objects st) →
  user ∈ User_objects st → author ∈ User_objects st →
  Request.user request = Some user →
  Request.method request = POST →
  User.id user ≠ User.id author →
  (∀ s, s ∈ Subscription_objects st →
        ¬ (Subscription.user s = User.id user
           ∧ Subscription.author s = User.id author)) →
  let st1 := with_subscription st
               (Subscription.mk (User.id user) (User.id author)) in
  UserViewSet.subscribe request (User.id author) st
  = match UserSubscribeRepresentSerializer.to_representation
            (Some request) st1 author with
    | inl e => (inl e, st1)
    | inr d => (inr (mkResponse HTTP_201_CREATED (UserSubscribe d)), st1)
    end.
Proof.
  intros Hnd Hu Ha Hru Hm Hne Hno. cbv zeta. unfold UserViewSet.subscribe.
  rewrite Hru, Hm. unfold bind, query.
  rewrite (filter_pk_unique User.id _ author) by done. simpl.
  unfold UserSubscribeSerializer.is_valid,
    UserSubscribeSerializer.to_internal_value, User_get. simpl.
  rewrite (filter_pk_unique User.id _ user),
    (filter_pk_unique User.id _ author) by done. simpl.
  unfold UserSubscribeSerializer.UniqueTogetherValidator. simpl.
  assert (exists_ (filter (λ s, Subscription.user s = User.id user
                                ∧ Subscription.author s = User.id author)
                          (Subscription_objects st)) = false) as ->
    by (by apply exists_filter_false).
  simpl. rewrite Hru. simpl.
  rewrite bool_decide_eq_false_2 by congruence. simpl.
  unfold UserSubscribeSerializer.to_representation, User_get. simpl.
  rewrite (filter_pk_unique User.id _ author) by done. simpl.
  unfold with_subscription.
  by destruct (UserSubscribeRepresentSerializer.to_representation _ _ _).
Qed.

Lemma subscribe_delete_run (st : State) (request : Request.t)
    (user author : User.t) :
  NoDup (User.id <$> User_objects st) →
  author ∈ User_objects st →
  Request.user request = Some user →
  Request.method request = DELETE →
  UserViewSet.subscribe request (User.id author) st
  = match filter (λ s, Subscription.user s = User.id user
                       ∧ Subscription.author s = User.id author)
                 (Subscription_objects st) with
    | [] => (inr (mkResponse HTTP_400_BAD_REQUEST
                    (Errors "Вы не подписаны на этого пользователя")), st)
    | [_] =>
        (inr (mkResponse HTTP_204_NO_CONTENT NoData),
         mkState (User_objects st) (Tag_objects st) (Ingredient_objects st)
           (Recipe_objects st) (Recipe_tags st) (RecipeIngredient_objects st)
           (Favorite_objects st) (ShoppingCart_objects st)
           (filter (λ s, ¬ (Subscription.user s = User.id user
                            ∧ Subscription.author s = User.id author))
                   (Subscription_objects st))
           (Recipe_next_id st))
    | _ :: _ :: _ => (inl MultipleObjectsReturned, st)
    end.
Proof.
  intros Hnd Ha Hru Hm. unfold UserViewSet.subscribe.
  rewrite Hru, Hm. unfold bind, query, get_db.
  rewrite (filter_pk_unique User.id _ author) by done. simpl.
  unfold UserViewSet.Subscription_get_delete.
  destruct (filter _ (Subscription_objects st)) as [|s [|s' l]] eqn:E.
  all: simpl; rewrite ?E; done.
Qed.

Lemma get_is_subscribed_after (st : State) (request : Request.t)
    (user author : User.t) :
  Request.user request = Some user →
  UserGetSerializer.get_is_subscribed (Some request)
    (with_subscription st (Subscription.mk (User.id user) (User.id author)))
    author
  = inr true.
Proof.
  intros Hru. unfold UserGetSerializer.get_is_subscribed. rewrite Hru.
  simpl. f_equal. apply exists_filter_true.
  exists (Subscription.mk (User.id user) (User.id author)).
  split; [|done]. apply elem_of_app. right. left.
Qed.

(** X1: a user who follows an author for the first time gets a 201 whose
    body is the author with [is_subscribed] true, all the author's recipes
    in their short form (no [recipes_limit] given) and their count, and the
    store gains exactly the row (user, author). *)
Theorem subscribe_creates_the_row (cfg : Settings) (st : State)
    (request : Request.t) (user author : User.t) :
  NoDup (User.id <$> User_objects st) →
  user ∈ User_objects st → author ∈ User_objects st →
  Request.user request = Some user →
  Request.method request = POST →
  User.id user ≠ User.id author →
  (∀ s, s ∈ Subscription_objects st →
        ¬ (Subscription.user s = User.id user
           ∧ Subscription.author s = User.id author)) →
  Request.query_params request !! "recipes_limit" = None →
  dispatch cfg (subscribe (User.id author)) request st
  = (inr (mkResponse HTTP_201_CREATED
            (UserSubscribe
               (UserSubscribeRepresentData.mk (User.email author)
                  (User.id author) (User.username author)
                  (User.first_name author) (User.last_name author) true
                  (short_form (Some request) <$> User_recipes st author)
                  (length (User_recipes st author))))),
     with_subscription st (Subscription.mk (User.id user) (User.id author))).
Proof.
  intros Hnd Hu Ha Hru Hm Hne Hno Hq. simpl.
  rewrite (subscribe_post_run st request user author) by done. cbv zeta.
  unfold UserSubscribeRepresentSerializer.to_representation.
  rewrite get_is_subscribed_after by done. simpl.
  unfold UserSubscribeRepresentSerializer.get_recipes. rewrite Hq. done.
Qed.

Lemma subscribe_creates_the_row_witness :
  dispatch page_of_two (subscribe 1) (Request.mk POST (Some bob) ∅) kitchen
  = (inr (mkResponse HTTP_201_CREATED
            (UserSubscribe
               (UserSubscribeRepresentData.mk "alice@example.org" 1 "alice"
                  "A" "L" true
                  [RecipeSmallData.mk 1 "soup"
                     (Some (Url.mk (Some (Request.mk POST (Some bob) ∅))
                              "soup.png")) 10;
                   RecipeSmallData.mk 2 "cake"
                     (Some (Url.mk (Some (Request.mk POST (Some bob) ∅))
                              "cake.png")) 60] 2))),
     with_subscription kitchen (Subscription.mk 2 1)).
Proof.
  apply (subscribe_creates_the_row page_of_two kitchen
           (Request.mk POST (Some bob) ∅) bob alice).
  - by_computation.
  - by_computation.
  - by_computation.
  - reflexivity.
  - reflexivity.
  - done.
  - for_all_rows.
  - reflexivity.
Defined.

(** X2: [subscribe] saves before it builds the answer.  When the POST of a
    user who does not follow the author yet ends in an exception, as it
    does with a [recipes_limit] that is no number, the subscription row is
    in the store all the same: the view opens no transaction that would
    take it back. *)
Theorem subscribe_saves_before_it_serializes (cfg : Settings)
    (st st' : State) (request : Request.t) (user author : User.t) (e : Exc) :
  NoDup (User.id <$> User_objects st) →
  user ∈ User_objects st → author ∈ User_objects st →
  Request.user request = Some user →
  Request.method request = POST →
  User.id user ≠ User.id author →
  (∀ s, s ∈ Subscription_objects st →
        ¬ (Subscription.user s = User.id user
           ∧ Subscription.author s = User.id author)) →
  dispatch cfg (subscribe (User.id author)) request st = (inl e, st') →
  st' = with_subscription st
          (Subscription.mk (User.id user) (User.id author)).
Proof.
  intros Hnd Hu Ha Hru Hm Hne Hno. simpl.
  rewrite (subscribe_post_run st request user author) by done. cbv zeta.
  destruct (UserSubscribeRepresentSerializer.to_representation _ _ _);
    [|done].
  by intros [= _ <-].
Qed.

Lemma subscribe_saves_before_it_serializes_witness :
  (dispatch page_of_two (subscribe 1)
     (Request.mk POST (Some bob) {[ "recipes_limit" := "many" ]}) kitchen).1
  = inl ValueError
  ∧ (dispatch page_of_two (subscribe 1)
       (Request.mk POST (Some bob) {[ "recipes_limit" := "many" ]})
       kitchen).2
    = with_subscription kitchen (Subscription.mk 2 1).
Proof.
  split; [by vm_compute|].
  apply (subscribe_saves_before_it_serializes page_of_two kitchen _
           (Request.mk POST (Some bob) {[ "recipes_limit" := "many" ]})
           bob alice ValueError).
  - by_computation.
  - by_computation.
  - by_computation.
  - reflexivity.
  - reflexivity.
  - done.
  - for_all_rows.
  - by vm_compute.
Defined.

(** X3: DELETE on [subscribe].  Without a row for (user, author) the
    answer is a 400 with an error text and the store is unchanged; with the
    row the answer is a 204 and the rows of that pair, and only those, are
    gone from [Subscription]. *)
Theorem unsubscribe_removes_the_row (cfg : Settings) (st : State)
    (request : Request.t) (user author : User.t) :
  NoDup (User.id <$> User_objects st) →
  NoDup (Subscription_objects st) →
  author ∈ User_objects st →
  Request.user request = Some user →
  Request.method request = DELETE →
  ((∀ s, s ∈ Subscription_objects st →
         ¬ (Subscription.user s = User.id user
            ∧ Subscription.author s = User.id author)) →
   ∃ errors,
     dispatch cfg (subscribe (User.id author)) request st
     = (inr (mkResponse HTTP_400_BAD_REQUEST (Errors errors)), st))
  ∧ (Subscription.mk (User.id user) (User.id author)
       ∈ Subscription_objects st →
     dispatch cfg (subscribe (User.id author)) request st
     = (inr (mkResponse HTTP_204_NO_CONTENT NoData),
        mkState (User_objects st) (Tag_objects st) (Ingredient_objects st)
          (Recipe_objects st) (Recipe_tags st) (RecipeIngredient_objects st)
          (Favorite_objects st) (ShoppingCart_objects st)
          (filter (λ s, ¬ (Subscription.user s = User.id user
                           ∧ Subscription.author s = User.id author))
                  (Subscription_objects st))
          (Recipe_next_id st))).
Proof.
  intros Hnd Hsub Ha Hru Hm. simpl.
  rewrite (subscribe_delete_run st request user author) by done.
  split.
  - intros Hno. rewrite filter_none by done. by eexists.
  - intros Hin.
    destruct (filter_NoDup_eq
                (λ s, Subscription.user s = User.id user
                      ∧ Subscription.author s = User.id author)
                (Subscription_objects st) Hsub)
      as [E|(s & _ & _ & ->)]; [| |done].
    + intros [u1 a1] [u2 a2]; simpl. intros [-> ->] [-> ->]. done.
    + exfalso. eapply (filter_nil_not_elem_of _ _ _ E); [|exact Hin]. done.
Qed.

Lemma unsubscribe_removes_the_row_witness :
  dispatch page_of_two (subscribe 2) (Request.mk DELETE (Some alice) ∅)
    kitchen
  = (inr (mkResponse HTTP_204_NO_CONTENT NoData),
     mkState (User_objects kitchen) (Tag_objects kitchen)
       (Ingredient_objects kitchen) (Recipe_objects kitchen)
       (Recipe_tags kitchen) (RecipeIngredient_objects kitchen)
       (Favorite_objects kitchen) (ShoppingCart_objects kitchen)
       [Subscription.mk 1 3; Subscription.mk 1 4] (Recipe_next_id kitchen))
  ∧ ∃ errors,
      dispatch page_of_two (subscribe 1) (Request.mk DELETE (Some bob) ∅)
        kitchen
      = (inr (mkResponse HTTP_400_BAD_REQUEST (Errors errors)), kitchen).
Proof.
  split.
  - apply (unsubscribe_removes_the_row page_of_two kitchen
             (Request.mk DELETE (Some alice) ∅) alice bob).
    + by_computation.
    + by_computation.
    + by_computation.
    + reflexivity.
    + reflexivity.
    + by_computation.
  - apply (unsubscribe_removes_the_row page_of_two kitchen
             (Request.mk DELETE (Some bob) ∅) bob alice).
    + by_computation.
    + by_computation.
    + by_computation.
    + reflexivity.
    + reflexivity.
    + for_all_rows.
Defined.

(** X4: subscribing and then unsubscribing gives back the store the two
    requests started from, whatever the first request answered. *)
Theorem subscribe_then_unsubscribe (cfg : Settings) (st : State)
    (request request' : Request.t) (user author : User.t) :
  NoDup (User.id <$> User_objects st) →
  user ∈ User_objects st → author ∈ User_objects st →
  Request.user request = Some user →
  Request.method request = POST →
  Request.user request' = Some user →
  Request.method request' = DELETE →
  User.id user ≠ User.id author →
  (∀ s, s ∈ Subscription_objects st →
        ¬ (Subscription.user s = User.id user
           ∧ Subscription.author s = User.id author)) →
  dispatch cfg (subscribe (User.id author)) request'
    (dispatch cfg (subscribe (User.id author)) request st).2
  = (inr (mkResponse HTTP_204_NO_CONTENT NoData), st).
Proof.
  intros Hnd Hu Ha Hru Hm Hru' Hm' Hne Hno. unfold dispatch.
  rewrite (subscribe_post_run st request user author) by done. cbv zeta.
  set (st1 := with_subscription st _).
  assert (UserViewSet.subscribe request' (User.id author) st1
          = (inr (mkResponse HTTP_204_NO_CONTENT NoData), st)) as Hdel.
  { rewrite (subscribe_delete_run st1 request' user author) by done.
    subst st1. simpl. rewrite !filter_app.
    rewrite (filter_none _ (Subscription_objects st)) by done.
    rewrite (filter_all (λ s, ¬ _) (Subscription_objects st)) by done.
    rewrite !filter_cons, !filter_nil. simpl.
    rewrite decide_True by done. rewrite decide_False by tauto. simpl.
    rewrite app_nil_r. by rewrite State_eta. }
  by destruct (UserSubscribeRepresentSerializer.to_representation _ _ _).
Qed.

Lemma subscribe_then_unsubscribe_witness :
  dispatch page_of_two (subscribe 1) (Request.mk DELETE (Some bob) ∅)
    (dispatch page_of_two (subscribe 1) (Request.mk POST (Some bob) ∅)
       kitchen).2
  = (inr (mkResponse HTTP_204_NO_CONTENT NoData), kitchen).
Proof.
  apply (subscribe_then_unsubscribe page_of_two kitchen
           (Request.mk POST (Some bob) ∅) (Request.mk DELETE (Some bob) ∅)
           bob alice).
  - by_computation.
  - by_computation.
  - by_computation.
  - reflexivity.
  - reflexivity.
  - reflexivity.
  - reflexivity.
  - done.
  - for_all_rows.
Defined.

(** ** The list of subscriptions *)

(** X5: a successful [subscriptions] answers 200 with [count] the number
    of users the requester follows and with a page in which no user appears
    twice and every user is one the requester follows. *)
Theorem subscriptions_lists_each_user_once (cfg : Settings) (st st' : State)
    (request : Request.t) (user : User.t) (response : Response) :
  NoDup (User.id <$> User_objects st) →
  NoDup (Subscription_objects st) →
  Request.user request = Some user →
  dispatch cfg subscriptions request st = (inr response, st') →
  ∃ results,
    response
    = mkResponse HTTP_200_OK
        (Page (length (followed_users st user)) results)
    ∧ NoDup (UserSubscribeRepresentData.id <$> results)
    ∧ (∀ d, d ∈ results →
            ∃ a, a ∈ User_objects st ∧ follows st user a
                 ∧ UserSubscribeRepresentData.id d = User.id a).
Proof.
  intros Hnd Hsub Hru Hres.
  destruct (subscriptions_inr _ _ _ _ _ _ Hsub Hru Hres)
    as (-> & results & queryset & number & -> & Hperm & _ & _ & _ & _ & _
        & Hids).
  exists results. split; [done|].
  assert (UserSubscribeRepresentData.id <$> results
          `sublist_of` User.id <$> queryset) as Hsl.
  { rewrite Hids. etrans; [apply sublist_take|apply sublist_drop]. }
  split.
  - eapply sublist_NoDup; [|exact Hsl]. rewrite Hperm.
    by apply (NoDup_fmap_filter User.id).
  - intros d Hd.
    assert (UserSubscribeRepresentData.id d
            ∈ User.id <$> queryset) as (a & Hid & Ha)%list_elem_of_fmap.
    { eapply elem_of_sublist; [|exact Hsl]. by apply list_elem_of_fmap_2. }
    rewrite Hperm in Ha. apply followed_users_elem in Ha as [Ha Hf].
    by exists a.
Qed.

Lemma subscriptions_lists_each_user_once_witness :
  ∃ results,
    mkResponse HTTP_200_OK
      (Page 3
         [UserSubscribeRepresentData.mk "dave@example.org" 4 "dave" "D" "L"
            true [] 0;
          UserSubscribeRepresentData.mk "carol@example.org" 3 "carol" "C" "L"
            true [] 0])
    = mkResponse HTTP_200_OK
        (Page (length (followed_users kitchen alice)) results)
    ∧ NoDup (UserSubscribeRepresentData.id <$> results)
    ∧ (∀ d, d ∈ results →
            ∃ a, a ∈ User_objects kitchen ∧ follows kitchen alice a
                 ∧ UserSubscribeRepresentData.id d = User.id a).
Proof.
  apply (subscriptions_lists_each_user_once page_of_two_reversed kitchen
           kitchen (Request.mk GET (Some alice) ∅) alice).
  - apply (bool_decide_unpack _). by vm_compute.
  - apply (bool_decide_unpack _). by vm_compute.
  - reflexivity.
  - by vm_compute.
Defined.

(** ** Favorites and the shopping cart *)

Section model_runs.
Context {T : Type} `{UserRecipeModel T}.
Context (um_set_Recipe : ∀ l st,
           Recipe_objects (um_set_objects (T:=T) l st) = Recipe_objects st).
Context (um_new_recipe : ∀ u r, um_recipe (um_new (T:=T) u r) = r).

Lemma user_recipe_post_run (st : State) (request : Request.t)
    (user : User.t) (recipe : Recipe.t) (message : string) :
  NoDup (User.id <$> User_objects st) →
  NoDup (Recipe.id <$> Recipe_objects st) →
  user ∈ User_objects st → recipe ∈ Recipe_objects st →
  Request.user request = Some user →
  Request.method request = POST →
  (∀ x : T, x ∈ um_objects st →
            ¬ (um_user x = User.id user ∧ um_recipe x = Recipe.id recipe)) →
  RecipeViewSet.user_recipe_action (T:=T) request (Recipe.id recipe)
    message st
  = (inr (mkResponse HTTP_201_CREATED
            (RecipeSmall (short_form (Some request) recipe))),
     um_set_objects
       (um_objects st ++ [um_new (User.id user) (Recipe.id recipe)]) st).
Proof.
  intros Hndu Hndr Hu Hr Hru Hm Hno.
  unfold RecipeViewSet.user_recipe_action.
  rewrite Hru, Hm. unfold bind, query.
  rewrite (filter_pk_unique Recipe.id _ recipe) by done. simpl.
  unfold RecipeViewSet.create_model_instance, bind, query,
    UserRecipeSerializer.is_valid,
    UserRecipeSerializer.to_internal_value, User_get, Recipe_get. simpl.
  rewrite (filter_pk_unique User.id _ user),
    (filter_pk_unique Recipe.id _ recipe) by done. simpl.
  unfold UserRecipeSerializer.UniqueTogetherValidator. simpl.
  assert (exists_ (filter (λ x : T, um_user x = User.id user
                                    ∧ um_recipe x = Recipe.id recipe)
                          (um_objects st)) = false) as ->
    by (by apply exists_filter_false).
  simpl. unfold UserRecipeSerializer.to_representation, Recipe_get.
  rewrite um_set_Recipe, um_new_recipe.
  rewrite (filter_pk_unique Recipe.id _ recipe) by done. done.
Qed.

Lemma user_recipe_delete_run (st : State) (request : Request.t)
    (user : User.t) (recipe : Recipe.t) (message : string) :
  NoDup (Recipe.id <$> Recipe_objects st) →
  recipe ∈ Recipe_objects st →
  Request.user request = Some user →
  Request.method request = DELETE →
  RecipeViewSet.user_recipe_action (T:=T) request (Recipe.id recipe)
    message st
  = if exists_ (filter (λ x : T, um_user x = User.id user
                                 ∧ um_recipe x = Recipe.id recipe)
                       (um_objects st))
    then (inr (mkResponse HTTP_204_NO_CONTENT NoData),
          um_set_objects
            (filter (λ x : T, ¬ (um_user x = User.id user
                                 ∧ um_recipe x = Recipe.id recipe))
                    (um_objects st)) st)
    else (inr (mkResponse HTTP_400_BAD_REQUEST (Errors message)), st).
Proof.
  intros Hndr Hr Hru Hm.
  unfold RecipeViewSet.user_recipe_action.
  rewrite Hru, Hm. unfold bind, query.
  rewrite (filter_pk_unique Recipe.id _ recipe) by done. simpl.
  unfold RecipeViewSet.delete_model_instance.
  by destruct (exists_ _).
Qed.

(** The answer tells whether the table changed. *)
Lemma user_recipe_action_cases request pk message st :
  let res := RecipeViewSet.user_recipe_action (T:=T) request pk message st in
  res.2 = st
  ∨ (∃ d u r, res = (inr (mkResponse HTTP_201_CREATED (RecipeSmall d)),
                     um_set_objects (um_objects st ++ [um_new u r]) st))
  ∨ (∃ (P : T → Prop) (dec : ∀ x, Decision (P x)),
       res = (inr (mkResponse HTTP_204_NO_CONTENT NoData),
              um_set_objects (filter P (um_objects st)) st)).
Proof.
  cbv zeta. unfold RecipeViewSet.user_recipe_action.
  destruct (Request.user request) as [user|]; [|by auto].
  unfold bind, query.
  destruct (get_object_or_404 _) as [|recipe]; [by auto|]. simpl.
  destruct (Request.method request); try by auto.
  - unfold RecipeViewSet.create_model_instance, bind, query.
    destruct (UserRecipeSerializer.is_valid _ _) as [|v] eqn:Hv; [by auto|].
    simpl. right; left.
    assert (Recipe_get st (Recipe.id (UserRecipeSerializer.v_recipe v))
            = inr (UserRecipeSerializer.v_recipe v)) as Hget.
    { revert Hv. unfold UserRecipeSerializer.is_valid,
        UserRecipeSerializer.to_internal_value.
      destruct (User_get _ _); simpl; [done|].
      destruct (Recipe_get st _) as [|r] eqn:Hr; simpl; [done|].
      destruct (UserRecipeSerializer.UniqueTogetherValidator _ _); simpl;
        [done|].
      intros [= <-]. simpl. revert Hr. unfold Recipe_get, get_.
      destruct (filter _ _) as [|x [|y l]] eqn:E; try done. intros [= ->].
      assert (r ∈ filter (λ r0, Recipe.id r0 = Recipe.id recipe)
                    (Recipe_objects st)) as [Hid _]%list_elem_of_filter
        by (rewrite E; left).
      by rewrite Hid, E. }
    unfold UserRecipeSerializer.to_representation.
    unfold Recipe_get in *. rewrite um_set_Recipe, um_new_recipe, Hget.
    simpl. eauto.
  - unfold RecipeViewSet.delete_model_instance.
    destruct (exists_ _); simpl; [|by auto]. right; right. eauto.
Qed.

End model_runs.

Lemma Favorite_set_Recipe (l : list Favorite.t) st :
  Recipe_objects (um_set_objects l st) = Recipe_objects st.
Proof. done. Qed.

Lemma Favorite_new_recipe u r : um_recipe (um_new (T:=Favorite.t) u r) = r.
Proof. done. Qed.

Lemma ShoppingCart_set_Recipe (l : list ShoppingCart.t) st :
  Recipe_objects (um_set_objects l st) = Recipe_objects st.
Proof. done. Qed.

Lemma ShoppingCart_new_recipe u r :
  um_recipe (um_new (T:=ShoppingCart.t) u r) = r.
Proof. done. Qed.

(** X6: POST on [favorite] and on [shopping_cart] for a recipe the user
    has not added yet answers 201 with the short form of the recipe (key,
    name, cooking time, and the image as a serialized image field) and
    appends the row (user, recipe) to the table of the action, nothing
    else. *)
Theorem favorite_and_cart_create_the_row (cfg : Settings) (st : State)
    (request : Request.t) (user : User.t) (recipe : Recipe.t) :
  NoDup (User.id <$> User_objects st) →
  NoDup (Recipe.id <$> Recipe_objects st) →
  user ∈ User_objects st → recipe ∈ Recipe_objects st →
  Request.user request = Some user →
  Request.method request = POST →
  ((∀ f, f ∈ Favorite_objects st →
         ¬ (Favorite.user f = User.id user
            ∧ Favorite.recipe f = Recipe.id recipe)) →
   dispatch cfg (favorite (Recipe.id recipe)) request st
   = (inr (mkResponse HTTP_201_CREATED
             (RecipeSmall (short_form (Some request) recipe))),
      with_favorite st (Favorite.mk (User.id user) (Recipe.id recipe))))
  ∧ ((∀ c, c ∈ ShoppingCart_objects st →
           ¬ (ShoppingCart.user c = User.id user
              ∧ ShoppingCart.recipe c = Recipe.id recipe)) →
     dispatch cfg (shopping_cart (Recipe.id recipe)) request st
     = (inr (mkResponse HTTP_201_CREATED
               (RecipeSmall (short_form (Some request) recipe))),
        with_cart st (ShoppingCart.mk (User.id user) (Recipe.id recipe)))).
Proof.
  intros Hndu Hndr Hu Hr Hru Hm. split; intros Hno; simpl.
  - unfold RecipeViewSet.favorite.
    by rewrite (user_recipe_post_run (T:=Favorite.t)
                  Favorite_set_Recipe Favorite_new_recipe st request user recipe).
  - unfold RecipeViewSet.shopping_cart.
    by rewrite (user_recipe_post_run (T:=ShoppingCart.t)
                  ShoppingCart_set_Recipe ShoppingCart_new_recipe st request user recipe).
Qed.

Lemma favorite_and_cart_create_the_row_witness :
  dispatch page_of_two (favorite 1) (Request.mk POST (Some alice) ∅) kitchen
  = (inr (mkResponse HTTP_201_CREATED
            (RecipeSmall
               (RecipeSmallData.mk 1 "soup"
                  (Some (Url.mk (Some (Request.mk POST (Some alice) ∅))
                           "soup.png")) 10))),
     with_favorite kitchen (Favorite.mk 1 1))
  ∧ dispatch page_of_two (shopping_cart 1) (Request.mk POST (Some alice) ∅)
      kitchen
    = (inr (mkResponse HTTP_201_CREATED
              (RecipeSmall
                 (RecipeSmallData.mk 1 "soup"
                    (Some (Url.mk (Some (Request.mk POST (Some alice) ∅))
                             "soup.png")) 10))),
       with_cart kitchen (ShoppingCart.mk 1 1)).
Proof.
  destruct (favorite_and_cart_create_the_row page_of_two kitchen
              (Request.mk POST (Some alice) ∅) alice soup) as [Hf Hc].
  - by_computation.
  - by_computation.
  - by_computation.
  - by_computation.
  - reflexivity.
  - reflexivity.
  - split; [apply Hf|apply Hc]; for_all_rows.
Defined.

(** X7: adding a recipe to the favorites (to the cart) and removing it
    again gives back the store the two requests started from. *)
Theorem add_then_remove_restores (cfg : Settings) (st : State)
    (request request' : Request.t) (user : User.t) (recipe : Recipe.t) :
  NoDup (User.id <$> User_objects st) →
  NoDup (Recipe.id <$> Recipe_objects st) →
  user ∈ User_objects st → recipe ∈ Recipe_objects st →
  Request.user request = Some user →
  Request.method request = POST →
  Request.user request' = Some user →
  Request.method request' = DELETE →
  ((∀ f, f ∈ Favorite_objects st →
         ¬ (Favorite.user f = User.id user
            ∧ Favorite.recipe f = Recipe.id recipe)) →
   dispatch cfg (favorite (Recipe.id recipe)) request'
     (dispatch cfg (favorite (Recipe.id recipe)) request st).2
   = (inr (mkResponse HTTP_204_NO_CONTENT NoData), st))
  ∧ ((∀ c, c ∈ ShoppingCart_objects st →
           ¬ (ShoppingCart.user c = User.id user
              ∧ ShoppingCart.recipe c = Recipe.id recipe)) →
     dispatch cfg (shopping_cart (Recipe.id recipe)) request'
       (dispatch cfg (shopping_cart (Recipe.id recipe)) request st).2
     = (inr (mkResponse HTTP_204_NO_CONTENT NoData), st)).
Proof.
  intros Hndu Hndr Hu Hr Hru Hm Hru' Hm'. split; intros Hno; unfold dispatch.
  - unfold RecipeViewSet.favorite.
    rewrite (user_recipe_post_run (T:=Favorite.t)
               Favorite_set_Recipe Favorite_new_recipe st request user recipe)
      by done.
    rewrite (user_recipe_delete_run (T:=Favorite.t) _ request' user recipe)
      by done.
    simpl. rewrite !filter_app.
    rewrite (filter_none _ (Favorite_objects st)) by done.
    rewrite (filter_all (λ f, ¬ _) (Favorite_objects st)) by done.
    rewrite !filter_cons, !filter_nil. simpl.
    rewrite decide_True by done. rewrite decide_False by tauto. simpl.
    rewrite app_nil_r. by rewrite State_eta.
  - unfold RecipeViewSet.shopping_cart.
    rewrite (user_recipe_post_run (T:=ShoppingCart.t)
               ShoppingCart_set_Recipe ShoppingCart_new_recipe st request user recipe)
      by done.
    rewrite (user_recipe_delete_run (T:=ShoppingCart.t) _ request' user
               recipe) by done.
    simpl. rewrite !filter_app.
    rewrite (filter_none _ (ShoppingCart_objects st)) by done.
    rewrite (filter_all (λ c, ¬ _) (ShoppingCart_objects st)) by done.
    rewrite !filter_cons, !filter_nil. simpl.
    rewrite decide_True by done. rewrite decide_False by tauto. simpl.
    rewrite app_nil_r. by rewrite State_eta.
Qed.

Lemma add_then_remove_restores_witness :
  dispatch page_of_two (favorite 1) (Request.mk DELETE (Some alice) ∅)
    (dispatch page_of_two (favorite 1) (Request.mk POST (Some alice) ∅)
       kitchen).2
  = (inr (mkResponse HTTP_204_NO_CONTENT NoData), kitchen)
  ∧ dispatch page_of_two (shopping_cart 1)
      (Request.mk DELETE (Some alice) ∅)
      (dispatch page_of_two (shopping_cart 1)
         (Request.mk POST (Some alice) ∅) kitchen).2
    = (inr (mkResponse HTTP_204_NO_CONTENT NoData), kitchen).
Proof.
  destruct (add_then_remove_restores page_of_two kitchen
              (Request.mk POST (Some alice) ∅)
              (Request.mk DELETE (Some alice) ∅) alice soup) as [Hf Hc].
  - by_computation.
  - by_computation.
  - by_computation.
  - by_computation.
  - reflexivity.
  - reflexivity.
  - reflexivity.
  - reflexivity.
  - split; [apply Hf|apply Hc]; for_all_rows.
Defined.

(** X8: [is_favorited] and [is_in_shopping_cart] of the read serializer
    follow the two actions: false before the first POST and true after it,
    false after a DELETE however it ends. *)
Theorem flags_follow_the_operations (cfg : Settings) (st : State)
    (request reader : Request.t) (user : User.t) (recipe : Recipe.t) :
  NoDup (User.id <$> User_objects st) →
  NoDup (Recipe.id <$> Recipe_objects st) →
  user ∈ User_objects st → recipe ∈ Recipe_objects st →
  Request.user request = Some user →
  Request.user reader = Some user →
  (Request.method request = POST →
   (∀ f, f ∈ Favorite_objects st →
         ¬ (Favorite.user f = User.id user
            ∧ Favorite.recipe f = Recipe.id recipe)) →
   RecipeReadSerializer.get_is_favorited (Some reader) st recipe = inr false
   ∧ RecipeReadSerializer.get_is_favorited (Some reader)
       (dispatch cfg (favorite (Recipe.id recipe)) request st).2 recipe
     = inr true)
  ∧ (Request.method request = DELETE →
     RecipeReadSerializer.get_is_favorited (Some reader)
       (dispatch cfg (favorite (Recipe.id recipe)) request st).2 recipe
     = inr false)
  ∧ (Request.method request = POST →
     (∀ c, c ∈ ShoppingCart_objects st →
           ¬ (ShoppingCart.user c = User.id user
              ∧ ShoppingCart.recipe c = Recipe.id recipe)) →
     RecipeReadSerializer.get_is_in_shopping_cart (Some reader) st recipe
     = inr false
     ∧ RecipeReadSerializer.get_is_in_shopping_cart (Some reader)
         (dispatch cfg (shopping_cart (Recipe.id recipe)) request st).2 recipe
       = inr true)
  ∧ (Request.method request = DELETE →
     RecipeReadSerializer.get_is_in_shopping_cart (Some reader)
       (dispatch cfg (shopping_cart (Recipe.id recipe)) request st).2 recipe
     = inr false).
Proof.
  intros Hndu Hndr Hu Hr Hru Hrd.
  unfold RecipeReadSerializer.get_is_favorited,
    RecipeReadSerializer.get_is_in_shopping_cart, dispatch,
    RecipeViewSet.favorite, RecipeViewSet.shopping_cart.
  rewrite Hrd.
  split; [intros Hm Hno; split|split; [intros Hm|split;
    [intros Hm Hno; split|intros Hm]]].
  - f_equal. by apply exists_filter_false.
  - rewrite (user_recipe_post_run (T:=Favorite.t)
               Favorite_set_Recipe Favorite_new_recipe st request user recipe)
      by done.
    f_equal. apply exists_filter_true. simpl.
    exists (Favorite.mk (User.id user) (Recipe.id recipe)).
    split; [|done]. apply elem_of_app. right. left.
  - rewrite (user_recipe_delete_run (T:=Favorite.t) st request user recipe)
      by done.
    f_equal. simpl.
    destruct (exists_ (filter _ (Favorite_objects st))) eqn:E; simpl.
    + apply exists_filter_false.
      intros f [Hf _]%list_elem_of_filter. exact Hf.
    + done.
  - f_equal. by apply exists_filter_false.
  - rewrite (user_recipe_post_run (T:=ShoppingCart.t)
               ShoppingCart_set_Recipe ShoppingCart_new_recipe st request
               user recipe) by done.
    f_equal. apply exists_filter_true. simpl.
    exists (ShoppingCart.mk (User.id user) (Recipe.id recipe)).
    split; [|done]. apply elem_of_app. right. left.
  - rewrite (user_recipe_delete_run (T:=ShoppingCart.t) st request user
               recipe) by done.
    f_equal. simpl.
    destruct (exists_ (filter _ (ShoppingCart_objects st))) eqn:E; simpl.
    + apply exists_filter_false.
      intros f [Hf _]%list_elem_of_filter. exact Hf.
    + done.
Qed.

Lemma flags_follow_the_operations_witness :
  (RecipeReadSerializer.get_is_favorited
     (Some (Request.mk GET (Some alice) ∅)) kitchen soup = inr false
   ∧ RecipeReadSerializer.get_is_favorited
       (Some (Request.mk GET (Some alice) ∅))
       (dispatch page_of_two (favorite 1) (Request.mk POST (Some alice) ∅)
          kitchen).2 soup
     = inr true)
  ∧ RecipeReadSerializer.get_is_in_shopping_cart
      (Some (Request.mk GET (Some bob) ∅))
      (dispatch page_of_two (shopping_cart 1)
         (Request.mk DELETE (Some bob) ∅) kitchen).2 soup
    = inr false.
Proof.
  split.
  - destruct (flags_follow_the_operations page_of_two kitchen
                (Request.mk POST (Some alice) ∅)
                (Request.mk GET (Some alice) ∅) alice soup)
      as (Hf & _).
    + by_computation.
    + by_computation.
    + by_computation.
    + by_computation.
    + reflexivity.
    + reflexivity.
    + apply Hf; [reflexivity|for_all_rows].
  - destruct (flags_follow_the_operations page_of_two kitchen
                (Request.mk DELETE (Some bob) ∅)
                (Request.mk GET (Some bob) ∅) bob soup)
      as (_ & _ & _ & Hc).
    + by_computation.
    + by_computation.
    + by_computation.
    + by_computation.
    + reflexivity.
    + reflexivity.
    + by apply Hc.
Defined.

(** X9: [favorite] and [shopping_cart] change the store only when they
    answer 201 (one row more in their table) or 204 (rows filtered out of
    their table); with every other answer and every exception the store is
    the one the request found. *)
Theorem favorite_and_cart_change_only_on_success (cfg : Settings)
    (st : State) (request : Request.t) (pk : Z) :
  let fav := dispatch cfg (favorite pk) request st in
  let cart := dispatch cfg (shopping_cart pk) request st in
  (fav.2 = st
   ∨ (∃ d f, fav = (inr (mkResponse HTTP_201_CREATED (RecipeSmall d)),
                    with_favorite st f))
   ∨ (∃ (P : Favorite.t → Prop) (dec : ∀ f, Decision (P f)),
        fav = (inr (mkResponse HTTP_204_NO_CONTENT NoData),
               mkState (User_objects st) (Tag_objects st)
                 (Ingredient_objects st) (Recipe_objects st)
                 (Recipe_tags st) (RecipeIngredient_objects st)
                 (filter P (Favorite_objects st))
                 (ShoppingCart_objects st) (Subscription_objects st)
                 (Recipe_next_id st))))
  ∧ (cart.2 = st
     ∨ (∃ d c, cart = (inr (mkResponse HTTP_201_CREATED (RecipeSmall d)),
                       with_cart st c))
     ∨ (∃ (P : ShoppingCart.t → Prop) (dec : ∀ c, Decision (P c)),
          cart = (inr (mkResponse HTTP_204_NO_CONTENT NoData),
                  mkState (User_objects st) (Tag_objects st)
                    (Ingredient_objects st) (Recipe_objects st)
                    (Recipe_tags st) (RecipeIngredient_objects st)
                    (Favorite_objects st)
                    (filter P (ShoppingCart_objects st))
                    (Subscription_objects st) (Recipe_next_id st)))).
Proof.
  cbv zeta. unfold dispatch, RecipeViewSet.favorite,
    RecipeViewSet.shopping_cart. split.
  - destruct (user_recipe_action_cases (T:=Favorite.t)
                Favorite_set_Recipe Favorite_new_recipe request pk
                "У вас нет этого рецепта в избранном" st)
      as [E|[(d & u & r & E)|(P & dec & E)]].
    + by left.
    + right; left. exists d, (Favorite.mk u r). exact E.
    + right; right. exists P, dec. exact E.
  - destruct (user_recipe_action_cases (T:=ShoppingCart.t)
                ShoppingCart_set_Recipe ShoppingCart_new_recipe request pk
                "У вас нет этого рецепта в списке покупок" st)
      as [E|[(d & u & r & E)|(P & dec & E)]].
    + by left.
    + right; left. exists d, (ShoppingCart.mk u r). exact E.
    + right; right. exists P, dec. exact E.
Qed.

(** ** Creating a recipe *)

Lemma no_rows_of_next_id st :
  db_integrity st →
  ∀ ri, ri ∈ RecipeIngredient_objects st →
        RecipeIngredient.recipe ri ≠ Recipe_next_id st.
Proof.
  intros (_ & _ & _ & Hn & Hfr & _) ri Hri Heq.
  unfold RecipeIngredient_fk_recipe in Hfr.
  rewrite Forall_forall in Hfr. rewrite Forall_forall in Hn.
  apply Hfr in Hri as (r & Hid & Hr)%list_elem_of_fmap.
  apply Hn in Hr. lia.
Qed.

Lemma create_success (st : State) (request : Request.t) (author : User.t)
    (d : RecipeData.t) (tags : list Z) (items : list Item.t) (ct : Z) :
  NoDup (Ingredient.id <$> Ingredient_objects st) →
  Request.user request = Some author →
  RecipeData.tags d = Some tags →
  RecipeData.ingredients d = Some items →
  RecipeData.cooking_time d = Some ct →
  Forall (λ it, Item.id it ∈ Ingredient.id <$> Ingredient_objects st) items →
  let recipe := created_recipe st author d ct in
  RecipeCreateSerializer.create request d st
  = (inr recipe,
     mkState (User_objects st) (Tag_objects st)
       (Ingredient_objects st) (Recipe_objects st ++ [recipe])
       (Recipe_tags
          (RecipeCreateSerializer.Recipe_tags_set recipe tags st).2)
       (RecipeIngredient_objects st ++ (item_row recipe <$> items))
       (Favorite_objects st) (ShoppingCart_objects st)
       (Subscription_objects st) (Recipe_next_id st + 1)).
Proof.
  intros Hnd Hu Ht Hi Hc Hall. cbv zeta.
  rewrite create_run, Ht, Hi, Hu, Hc. cbv zeta.
  destruct (new_rows_total st (created_recipe st author d ct) items Hnd Hall)
    as [rows Hrows].
  unfold created_recipe in *. rewrite Hrows.
  by apply new_rows_inr in Hrows as [-> _].
Qed.

(** X10: [create] on data with tags, ingredients that all exist and a
    cooking time returns the recipe with the next primary key, which no
    stored recipe has, appends it, attaches exactly the submitted ingredient
    rows and tags to it, and leaves the rows of the other recipes and the
    three link tables of users alone. *)
Theorem create_adds_the_recipe (st : State) (request : Request.t)
    (author : User.t) (d : RecipeData.t) (tags : list Z)
    (items : list Item.t) (ct : Z) :
  db_integrity st →
  Request.user request = Some author →
  RecipeData.tags d = Some tags →
  RecipeData.ingredients d = Some items →
  RecipeData.cooking_time d = Some ct →
  Forall (λ it, Item.id it ∈ Ingredient.id <$> Ingredient_objects st) items →
  let recipe := created_recipe st author d ct in
  ∃ st',
    RecipeCreateSerializer.create request d st = (inr recipe, st')
    ∧ Recipe_objects st' = Recipe_objects st ++ [recipe]
    ∧ (∀ r, r ∈ Recipe_objects st → Recipe.id r ≠ Recipe.id recipe)
    ∧ Recipe_recipes st' recipe = item_row recipe <$> items
    ∧ (∀ t, RecipeTag.mk (Recipe.id recipe) t ∈ Recipe_tags st' ↔ t ∈ tags)
    ∧ (∀ r, r ∈ Recipe_objects st → Recipe_recipes st' r = Recipe_recipes st r)
    ∧ (Favorite_objects st', ShoppingCart_objects st',
       Subscription_objects st')
      = (Favorite_objects st, ShoppingCart_objects st,
         Subscription_objects st).
Proof.
  intros Hdb Hu Ht Hi Hc Hall recipe.
  pose proof Hdb as (_ & Hnd & _ & Hn & _ & _).
  eexists. split; [by apply create_success|]. simpl.
  assert (Hfresh : ∀ r, r ∈ Recipe_objects st →
                        Recipe.id r ≠ Recipe_next_id st).
  { intros r Hr. rewrite Forall_forall in Hn. apply Hn in Hr. lia. }
  split; [done|]. split; [done|]. split; [|split; [|split; [|done]]].
  - unfold Recipe_recipes. simpl. rewrite filter_app.
    rewrite filter_none by (by apply no_rows_of_next_id).
    rewrite filter_all; [done|].
    intros ri (it & -> & _)%list_elem_of_fmap. done.
  - intros t. apply (Recipe_tags_set_elem recipe tags st).
  - intros r Hr. unfold Recipe_recipes. simpl. rewrite filter_app.
    rewrite (filter_none _ (item_row recipe <$> items)).
    + by rewrite app_nil_r.
    + intros ri (it & -> & _)%list_elem_of_fmap. simpl.
      intros Heq. by apply (Hfresh r).
Qed.

Lemma create_adds_the_recipe_witness :
  let recipe := created_recipe kitchen bob sweet_soup 20 in
  ∃ st',
    RecipeCreateSerializer.create (Request.mk POST (Some bob) ∅) sweet_soup
      kitchen = (inr recipe, st')
    ∧ Recipe_objects st' = Recipe_objects kitchen ++ [recipe]
    ∧ (∀ r, r ∈ Recipe_objects kitchen → Recipe.id r ≠ Recipe.id recipe)
    ∧ Recipe_recipes st' recipe = item_row recipe <$> [Item.mk 2 9]
    ∧ (∀ t, RecipeTag.mk (Recipe.id recipe) t ∈ Recipe_tags st'
            ↔ t ∈ [2%Z])
    ∧ (∀ r, r ∈ Recipe_objects kitchen →
            Recipe_recipes st' r = Recipe_recipes kitchen r)
    ∧ (Favorite_objects st', ShoppingCart_objects st',
       Subscription_objects st')
      = (Favorite_objects kitchen, ShoppingCart_objects kitchen,
         Subscription_objects kitchen).
Proof.
  apply (create_adds_the_recipe kitchen (Request.mk POST (Some bob) ∅) bob
           sweet_soup [2%Z] [Item.mk 2 9] 20).
  - assert (wf kitchen) as [Hdb _] by by_computation. exact Hdb.
  - reflexivity.
  - reflexivity.
  - reflexivity.
  - reflexivity.
  - by_computation.
Defined.

Lemma rmapM_Forall2 {A B} (f : A → Result B) (R : A → B → Prop)
    (l : list A) :
  Forall (λ x, ∃ y, f x = inr y ∧ R x y) l →
  ∃ ys, rmapM f l = inr ys ∧ Forall2 R l ys.
Proof.
  induction 1 as [|x l (y & Hy & HR) _ (ys & Hys & HF)]; simpl.
  - exists []. split; [done|constructor].
  - rewrite Hy, Hys. simpl. exists (y :: ys). split; [done|by constructor].
Qed.

Lemma Recipe_tags_all_elem st recipe t :
  t ∈ Recipe_tags_all st recipe
  ↔ t ∈ Tag_objects st
    ∧ RecipeTag.mk (Recipe.id recipe) (Tag.id t) ∈ Recipe_tags st.
Proof.
  unfold Recipe_tags_all. rewrite list_elem_of_bind. split.
  - intros (rt & (t' & Ht & Ht')%list_elem_of_bind & Hrt).
    destruct (decide _) as [[Hr Hid]|]; [|by inversion Ht].
    apply list_elem_of_singleton in Ht as ->. split; [done|].
    destruct rt as [r tg]. simpl in *. by subst.
  - intros [Ht Hrt]. exists (RecipeTag.mk (Recipe.id recipe) (Tag.id t)).
    split; [|done]. apply list_elem_of_bind. exists t. split; [|done].
    simpl. rewrite decide_True by done. left.
Qed.

(** What the read serializer answers for a recipe whose author and
    ingredients are rows of the store. *)
Lemma read_representation (st : State) (reader : Request.t)
    (recipe : Recipe.t) (author : User.t) :
  NoDup (User.id <$> User_objects st) →
  NoDup (Ingredient.id <$> Ingredient_objects st) →
  author ∈ User_objects st →
  Recipe.author recipe = User.id author →
  Forall (λ ri, RecipeIngredient.ingredient ri
                ∈ Ingredient.id <$> Ingredient_objects st)
         (Recipe_recipes st recipe) →
  ∃ rd,
    RecipeReadSerializer.to_representation (Some reader) st recipe = inr rd
    ∧ RecipeReadData.id rd = Recipe.id recipe
    ∧ UserGetData.id (RecipeReadData.author rd) = User.id author
    ∧ RecipeReadData.name rd = Recipe.name recipe
    ∧ RecipeReadData.image rd
      = ImageField_to_representation (Some reader) (Recipe.image recipe)
    ∧ RecipeReadData.text rd = Recipe.text recipe
    ∧ RecipeReadData.cooking_time rd = Recipe.cooking_time recipe
    ∧ RecipeReadData.tags rd = Recipe_tags_all st recipe
    ∧ Forall2 (λ ri ing,
                 RecipeIngredientData.id ing = RecipeIngredient.ingredient ri
                 ∧ RecipeIngredientData.amount ing
                   = RecipeIngredient.amount ri
                 ∧ ingredient_is st (RecipeIngredient.ingredient ri)
                     (RecipeIngredientData.name ing)
                     (RecipeIngredientData.measurement_unit ing))
              (Recipe_recipes st recipe) (RecipeReadData.ingredients rd).
Proof.
  intros Hndu Hndi Ha Hau Hfk.
  unfold RecipeReadSerializer.to_representation, User_get.
  rewrite Hau, (filter_pk_unique User.id _ author) by done. simpl.
  destruct (rmapM_Forall2 (RecipeIngredientSerializer.to_representation st)
              (λ ri ing,
                 RecipeIngredientData.id ing = RecipeIngredient.ingredient ri
                 ∧ RecipeIngredientData.amount ing
                   = RecipeIngredient.amount ri
                 ∧ ingredient_is st (RecipeIngredient.ingredient ri)
                     (RecipeIngredientData.name ing)
                     (RecipeIngredientData.measurement_unit ing))
              (Recipe_recipes st recipe)) as (ings & -> & HF).
  { eapply Forall_impl; [exact Hfk|]. intros ri Hri. simpl in Hri.
    destruct (filter_pk_elem Ingredient.id _ _ Hndi Hri)
      as (i & Hi & Hid & E).
    unfold RecipeIngredientSerializer.to_representation, Ingredient_get.
    rewrite E. simpl. eexists. split; [done|]. simpl.
    repeat split; [done|]. apply Exists_exists. by exists i. }
  simpl. eexists. split; [done|]. simpl. by repeat split.
Qed.

(** X11: what [create] stored is what [to_representation] shows: the new
    key, the author, the submitted [name], [text] and [cooking_time], an
    [image] that is [null] exactly when none was submitted, the submitted
    tags that exist, and the submitted ingredients in order, each with its
    amount and with the name and unit of its [Ingredient] row. *)
Theorem created_recipe_reads_back (st : State) (request reader : Request.t)
    (author : User.t) (d : RecipeData.t) (tags : list Z)
    (items : list Item.t) (ct : Z) :
  db_integrity st →
  author ∈ User_objects st →
  Request.user request = Some author →
  RecipeData.tags d = Some tags →
  RecipeData.ingredients d = Some items →
  RecipeData.cooking_time d = Some ct →
  Forall (λ it, Item.id it ∈ Ingredient.id <$> Ingredient_objects st) items →
  ∃ recipe st' rd,
    RecipeCreateSerializer.create request d st = (inr recipe, st')
    ∧ RecipeCreateSerializer.to_representation (Some reader) st' recipe
      = inr rd
    ∧ RecipeReadData.id rd = Recipe_next_id st
    ∧ UserGetData.id (RecipeReadData.author rd) = User.id author
    ∧ RecipeReadData.name rd = default "" (RecipeData.name d)
    ∧ (RecipeReadData.image rd = None
       ↔ default "" (RecipeData.image d) = "")
    ∧ RecipeReadData.text rd = default "" (RecipeData.text d)
    ∧ RecipeReadData.cooking_time rd = ct
    ∧ (∀ t, t ∈ RecipeReadData.tags rd
            ↔ t ∈ Tag_objects st ∧ Tag.id t ∈ tags)
    ∧ Forall2 (λ it ing,
                 RecipeIngredientData.id ing = Item.id it
                 ∧ RecipeIngredientData.amount ing = Item.amount it
                 ∧ ingredient_is st (Item.id it)
                     (RecipeIngredientData.name ing)
                     (RecipeIngredientData.measurement_unit ing))
              items (RecipeReadData.ingredients rd).
Proof.
  intros Hdb Ha Hu Ht Hi Hc Hall.
  pose proof Hdb as (Hndu & Hndi & _).
  set (recipe := created_recipe st author d ct).
  eexists recipe, _. 
  rewrite (create_success st request author d tags items ct) by done.
  cbv zeta. fold recipe. set (st' := mkState _ _ _ _ _ _ _ _ _ _).
  assert (Hrows : Recipe_recipes st' recipe = item_row recipe <$> items).
  { unfold Recipe_recipes, st'. simpl. rewrite filter_app.
    rewrite filter_none by (by apply no_rows_of_next_id).
    rewrite filter_all; [done|].
    intros ri (it & -> & _)%list_elem_of_fmap. done. }
  destruct (read_representation st' reader recipe author)
    as (rd & Hrd & Hid & Hau & Hn & Him & Htx & Hct & Htags & Hings);
    [done..| |].
  { rewrite Hrows. apply Forall_fmap. exact Hall. }
  exists rd. split; [done|]. split; [exact Hrd|].
  split; [by rewrite Hid|]. split; [done|]. split; [by rewrite Hn|].
  split.
  { rewrite Him. unfold ImageField_to_representation. simpl.
    by destruct (decide (default "" (RecipeData.image d) = "")). }
  split; [by rewrite Htx|].
  split; [by rewrite Hct|]. split.
  - intros t. rewrite Htags, Recipe_tags_all_elem.
    split; intros [Htag Hrt]; (split; [exact Htag|]).
    + by apply (Recipe_tags_set_elem recipe tags st) in Hrt.
    + by apply (Recipe_tags_set_elem recipe tags st).
  - rewrite Hrows in Hings. apply Forall2_fmap_l in Hings.
    eapply Forall2_impl; [exact Hings|]. done.
Qed.

Lemma created_recipe_reads_back_witness :
  ∃ recipe st' rd,
    RecipeCreateSerializer.create (Request.mk POST (Some bob) ∅) sweet_soup
      kitchen = (inr recipe, st')
    ∧ RecipeCreateSerializer.to_representation
        (Some (Request.mk GET None ∅)) st' recipe
      = inr rd
    ∧ RecipeReadData.id rd = Recipe_next_id kitchen
    ∧ UserGetData.id (RecipeReadData.author rd) = User.id bob
    ∧ RecipeReadData.name rd = default "" (RecipeData.name sweet_soup)
    ∧ (RecipeReadData.image rd = None
       ↔ default "" (RecipeData.image sweet_soup) = "")
    ∧ RecipeReadData.text rd = default "" (RecipeData.text sweet_soup)
    ∧ RecipeReadData.cooking_time rd = 20%Z
    ∧ (∀ t, t ∈ RecipeReadData.tags rd
            ↔ t ∈ Tag_objects kitchen ∧ Tag.id t ∈ [2%Z])
    ∧ Forall2 (λ it ing,
                 RecipeIngredientData.id ing = Item.id it
                 ∧ RecipeIngredientData.amount ing = Item.amount it
                 ∧ ingredient_is kitchen (Item.id it)
                     (RecipeIngredientData.name ing)
                     (RecipeIngredientData.measurement_unit ing))
              [Item.mk 2 9] (RecipeReadData.ingredients rd).
Proof.
  apply (created_recipe_reads_back kitchen (Request.mk POST (Some bob) ∅)
           (Request.mk GET None ∅) bob sweet_soup [2%Z] [Item.mk 2 9] 20).
  - assert (wf kitchen) as [Hdb _] by by_computation. exact Hdb.
  - by_computation.
  - reflexivity.
  - reflexivity.
  - reflexivity.
  - reflexivity.
  - by_computation.
Defined.

(** ** Updating a recipe *)

Lemma updated_recipe_idem instance d :
  updated_recipe (updated_recipe instance d) d = updated_recipe instance d.
Proof.
  unfold updated_recipe. simpl.
  by destruct (RecipeData.name d), (RecipeData.image d),
    (RecipeData.text d), (RecipeData.cooking_time d).
Qed.

Lemma update_run' instance d st :
  RecipeCreateSerializer.update instance d st
  = match RecipeData.tags d, RecipeData.ingredients d with
    | None, _ => (inl (KeyError "tags"), st)
    | Some _, None => (inl (KeyError "ingredients"), st)
    | Some tags, Some items =>
        match new_rows st instance items with
        | inl e => (inl e, st)
        | inr rows =>
            (inr (updated_recipe instance d),
             (RecipeCreateSerializer.Recipe_save (updated_recipe instance d)
               (RecipeCreateSerializer.RecipeIngredient_bulk_create rows
                 (RecipeCreateSerializer.Recipe_tags_set instance tags
                    (RecipeCreateSerializer.RecipeIngredient_delete_of
                       instance st).2).2).2).2)
        end
    end.
Proof. apply update_run. Qed.

Lemma update_success (st st' : State) (instance instance' : Recipe.t)
    (d : RecipeData.t) :
  RecipeCreateSerializer.update instance d st = (inr instance', st') →
  ∃ tags items,
    RecipeData.tags d = Some tags
    ∧ RecipeData.ingredients d = Some items
    ∧ new_rows st instance items = inr (item_row instance <$> items)
    ∧ instance' = updated_recipe instance d
    ∧ st' = (RecipeCreateSerializer.Recipe_save instance'
              (RecipeCreateSerializer.RecipeIngredient_bulk_create
                 (item_row instance <$> items)
                 (RecipeCreateSerializer.Recipe_tags_set instance tags
                    (RecipeCreateSerializer.RecipeIngredient_delete_of
                       instance st).2).2).2).2.
Proof.
  rewrite update_run'.
  destruct (RecipeData.tags d) as [tags|]; [|done].
  destruct (RecipeData.ingredients d) as [items|]; [|done].
  destruct (new_rows _ _ _) as [|rows] eqn:Hrows; [done|].
  pose proof (new_rows_inr _ _ _ _ Hrows) as [-> _].
  intros [= <- <-]. by exists tags, items.
Qed.

Lemma Recipe_save_rows (instance : Recipe.t) (st : State) :
  Recipe_objects (RecipeCreateSerializer.Recipe_save instance st).2
  = if exists_ (filter (λ r, Recipe.id r = Recipe.id instance)
                       (Recipe_objects st))
    then (λ r, if decide (Recipe.id r = Recipe.id instance)
               then instance else r) <$> Recipe_objects st
    else Recipe_objects st ++ [instance].
Proof. done. Qed.

Lemma replace_idem (instance : Recipe.t) (l : list Recipe.t) :
  (∀ r, r ∈ l → Recipe.id r = Recipe.id instance → r = instance) →
  (λ r, if decide (Recipe.id r = Recipe.id instance) then instance else r)
    <$> l = l.
Proof.
  intros Hl. rewrite <- (list_fmap_id l) at 2. apply list_fmap_ext.
  intros i r Hr. simpl. destruct (decide _) as [Heq|]; [|done].
  symmetry. apply Hl; [|done]. by eapply list_elem_of_lookup_2.
Qed.

(** Saving what was just saved writes nothing new. *)
Lemma Recipe_save_idem (instance : Recipe.t) (st : State) :
  let st1 := (RecipeCreateSerializer.Recipe_save instance st).2 in
  Recipe_objects (RecipeCreateSerializer.Recipe_save instance st1).2
  = Recipe_objects st1.
Proof.
  cbv zeta. rewrite !Recipe_save_rows.
  destruct (exists_ (filter _ (Recipe_objects st))) eqn:E.
  - assert (exists_ (filter (λ r, Recipe.id r = Recipe.id instance)
              ((λ r, if decide (Recipe.id r = Recipe.id instance)
                     then instance else r) <$> Recipe_objects st)) = true)
      as ->.
    { apply exists_filter_true in E as (r & Hr & Hid).
      apply exists_filter_true. exists instance. split; [|done].
      apply list_elem_of_fmap. exists r. by rewrite decide_True. }
    apply replace_idem.
    intros r (r0 & -> & _)%list_elem_of_fmap.
    by destruct (decide (Recipe.id r0 = Recipe.id instance)).
  - assert (exists_ (filter (λ r, Recipe.id r = Recipe.id instance)
              (Recipe_objects st ++ [instance])) = true) as ->.
    { apply exists_filter_true. exists instance. split; [|done].
      apply elem_of_app. right. left. }
    apply replace_idem. intros r [Hr| ->%list_elem_of_singleton]%elem_of_app;
      [|done].
    intros Hid. by destruct (proj1 (exists_filter_false _ _) E r Hr).
Qed.

Lemma State_ext (st st' : State) :
  User_objects st = User_objects st' →
  Tag_objects st = Tag_objects st' →
  Ingredient_objects st = Ingredient_objects st' →
  Recipe_objects st = Recipe_objects st' →
  Recipe_tags st = Recipe_tags st' →
  RecipeIngredient_objects st = RecipeIngredient_objects st' →
  Favorite_objects st = Favorite_objects st' →
  ShoppingCart_objects st = ShoppingCart_objects st' →
  Subscription_objects st = Subscription_objects st' →
  Recipe_next_id st = Recipe_next_id st' →
  st = st'.
Proof. destruct st, st'. simpl. by intros -> -> -> -> -> -> -> -> -> ->. Qed.

(** Setting the tags a recipe already has changes nothing. *)
Lemma Recipe_tags_set_fixed (recipe : Recipe.t) (tags : list Z) (st : State) :
  (∀ t, t ∈ tags → RecipeTag.mk (Recipe.id recipe) t ∈ Recipe_tags st) →
  (∀ rt, rt ∈ Recipe_tags st → RecipeTag.recipe rt = Recipe.id recipe →
         RecipeTag.tag rt ∈ tags) →
  Recipe_tags (RecipeCreateSerializer.Recipe_tags_set recipe tags st).2
  = Recipe_tags st.
Proof.
  intros Hin Hout. simpl.
  rewrite (filter_all _ (Recipe_tags st)).
  - rewrite (filter_none _ tags); [by rewrite app_nil_r|].
    intros t Ht Hnot. apply Hnot. apply list_elem_of_fmap.
    exists (RecipeTag.mk (Recipe.id recipe) t). split; [done|].
    apply list_elem_of_filter. split; [done|by apply Hin].
  - intros rt Hrt [Hr Hn]. apply Hn. by apply Hout.
Qed.

(** Deleting the ingredient rows of a recipe and writing [rows] again gives
    the same table when the recipe's rows are exactly [rows]. *)
Lemma RecipeIngredient_rewrite_fixed (recipe : Recipe.t)
    (rows others : list RecipeIngredient.t) (st : State) :
  RecipeIngredient_objects st = others ++ rows →
  Forall (λ ri, RecipeIngredient.recipe ri ≠ Recipe.id recipe) others →
  Forall (λ ri, RecipeIngredient.recipe ri = Recipe.id recipe
                ∧ RecipeIngredient.ingredient ri
                  ∈ Ingredient.id <$> Ingredient_objects st) rows →
  RecipeIngredient_objects
    (RecipeCreateSerializer.RecipeIngredient_bulk_create rows
       (RecipeCreateSerializer.RecipeIngredient_delete_of recipe st).2).2
  = RecipeIngredient_objects st.
Proof.
  intros Hst Ho Hr. rewrite Forall_forall in Ho. rewrite Forall_forall in Hr.
  simpl. etrans; [|symmetry; exact Hst]. f_equal.
  match goal with
  | |- filter ?P _ = _ => trans (filter P (others ++ rows))
  end; [by rewrite <- Hst|].
  rewrite filter_app.
  rewrite (filter_all _ others), (filter_none _ rows).
  - by rewrite app_nil_r.
  - intros ri Hri Hk. apply Hk. destruct (Hr ri Hri) as [Hrec Hing].
    split; [done|]. apply Recipe_ingredients_all_elem; [|done..].
    rewrite Hst. apply elem_of_app. by right.
  - intros ri Hri [Hrec _]. by apply (Ho ri Hri).
Qed.

(** X12: an [update] that brings no new image is idempotent: applying the
    same validated data to the returned instance returns that instance
    again and leaves every row of the store as the first update left it.
    (With an image in the data each [save] files the upload anew, under a
    name of the storage's choosing; the ingredient rows are written again
    with the same recipe, ingredient and amount.) *)
Theorem update_is_idempotent (instance instance' : Recipe.t)
    (d : RecipeData.t) (st st' : State) :
  RecipeData.image d = None →
  RecipeIngredient_fk_ingredient st →
  RecipeCreateSerializer.update instance d st = (inr instance', st') →
  RecipeCreateSerializer.update instance' d st' = (inr instance', st').
Proof.
  intros _ Hfk Hup.
  apply update_success in Hup as (tags & items & Ht & Hi & Hrows & -> & ->).
  set (i' := updated_recipe instance d).
  rewrite update_run', Ht, Hi.
  rewrite (updated_recipe_idem instance d : updated_recipe i' d = i').
  set (rows := item_row instance <$> items).
  set (st0 := (RecipeCreateSerializer.RecipeIngredient_delete_of
                 instance st).2).
  set (st1 := (RecipeCreateSerializer.Recipe_save i'
                (RecipeCreateSerializer.RecipeIngredient_bulk_create rows
                   (RecipeCreateSerializer.Recipe_tags_set instance tags
                      st0).2).2).2).
  assert (new_rows st1 i' items = inr rows) as ->.
  { unfold rows. rewrite <- Hrows. reflexivity. }
  f_equal.
  pose proof (new_rows_inr _ _ _ _ Hrows) as [_ Hall].
  apply State_ext; try reflexivity.
  - apply (Recipe_save_idem i').
  - apply (Recipe_tags_set_fixed i' tags st1).
    + intros t Ht'. by apply (Recipe_tags_set_elem instance tags st0).
    + intros [r t] Hin Hr. simpl in Hr. subst r.
      by apply (Recipe_tags_set_elem instance tags st0).
  - apply (RecipeIngredient_rewrite_fixed i' rows
             (filter (λ ri, RecipeIngredient.recipe ri ≠ Recipe.id instance)
                     (RecipeIngredient_objects st)) st1).
    + simpl. f_equal. apply filter_iff_in. intros ri Hri. split.
      * intros Hk Heq. apply Hk. split; [done|].
        apply Recipe_ingredients_all_elem; [done..|].
        unfold RecipeIngredient_fk_ingredient in Hfk.
        rewrite Forall_forall in Hfk. by apply Hfk.
      * intros Hne [Heq _]. done.
    + apply Forall_forall. by intros ri [Hne _]%list_elem_of_filter.
    + apply Forall_forall. intros ri (it & -> & Hit)%list_elem_of_fmap.
      split; [done|]. rewrite Forall_forall in Hall. by apply Hall.
Qed.

Lemma update_is_idempotent_witness :
  RecipeCreateSerializer.update
    (Recipe.mk 1 1 "soup" "soup.png" "boil longer" 20) sweet_soup
    (RecipeCreateSerializer.update soup sweet_soup kitchen).2
  = (inr (Recipe.mk 1 1 "soup" "soup.png" "boil longer" 20),
     (RecipeCreateSerializer.update soup sweet_soup kitchen).2).
Proof.
  apply (update_is_idempotent soup
           (Recipe.mk 1 1 "soup" "soup.png" "boil longer" 20) sweet_soup
           kitchen).
  - reflexivity.
  - by_computation.
  - by vm_compute.
Defined.

(** X13: a successful [update] keeps [id] and [author], takes [image],
    [name], [text] and [cooking_time] from the data where present and from
    the instance otherwise, and saves that row: the store returns it for
    the key, the keys and their order are unchanged, every other recipe is
    as before, and no favorite, cart row or subscription is touched. *)
Theorem update_writes_the_recipe_row (instance instance' : Recipe.t)
    (d : RecipeData.t) (st st' : State) :
  NoDup (Recipe.id <$> Recipe_objects st) →
  instance ∈ Recipe_objects st →
  RecipeCreateSerializer.update instance d st = (inr instance', st') →
  Recipe.id instance' = Recipe.id instance
  ∧ Recipe.author instance' = Recipe.author instance
  ∧ Recipe.image instance'
    = default (Recipe.image instance) (RecipeData.image d)
  ∧ Recipe.name instance' = default (Recipe.name instance) (RecipeData.name d)
  ∧ Recipe.text instance' = default (Recipe.text instance) (RecipeData.text d)
  ∧ Recipe.cooking_time instance'
    = default (Recipe.cooking_time instance) (RecipeData.cooking_time d)
  ∧ Recipe_get st' (Recipe.id instance) = inr instance'
  ∧ Recipe.id <$> Recipe_objects st' = Recipe.id <$> Recipe_objects st
  ∧ (∀ r, Recipe.id r ≠ Recipe.id instance →
          r ∈ Recipe_objects st' ↔ r ∈ Recipe_objects st)
  ∧ Favorite_objects st' = Favorite_objects st
  ∧ ShoppingCart_objects st' = ShoppingCart_objects st
  ∧ Subscription_objects st' = Subscription_objects st.
Proof.
  intros Hnd Hin Hup.
  pose proof (update_success _ _ _ _ _ Hup)
    as (_ & _ & _ & _ & _ & Hi' & _).
  destruct (update_inr _ _ _ _ _ Hin Hup) as (tags & items & _ & Hid & _ & ->).
  subst instance'. do 6 (split; [done|]). simpl.
  set (i' := updated_recipe instance d).
  set (f := λ r, if decide (Recipe.id r = Recipe.id instance) then i' else r).
  assert (Hids : Recipe.id <$> (f <$> Recipe_objects st)
                 = Recipe.id <$> Recipe_objects st).
  { rewrite <- list_fmap_compose. apply list_fmap_ext. intros i r _.
    unfold f. simpl. by destruct (decide _). }
  split; [|split; [done|split; [|done]]].
  - unfold Recipe_get. simpl.
    assert (Hi' : i' ∈ f <$> Recipe_objects st).
    { apply list_elem_of_fmap. exists instance. unfold f.
      by rewrite decide_True. }
    rewrite <- Hids in Hnd.
    change (get_ (filter (λ r, Recipe.id r = Recipe.id i')
                         (f <$> Recipe_objects st)) = inr i').
    by rewrite (filter_pk_unique Recipe.id _ i' Hnd Hi').
  - intros r Hne. rewrite list_elem_of_fmap. split.
    + intros (r0 & -> & Hr0). unfold f in *.
      by destruct (decide (Recipe.id r0 = Recipe.id instance)).
    + intros Hr. exists r. unfold f. by rewrite decide_False.
Qed.

Lemma update_writes_the_recipe_row_witness :
  Recipe_get (RecipeCreateSerializer.update soup sweet_soup kitchen).2 1
  = inr (Recipe.mk 1 1 "soup" "soup.png" "boil longer" 20)
  ∧ (cake ∈ Recipe_objects
              (RecipeCreateSerializer.update soup sweet_soup kitchen).2
     ↔ cake ∈ Recipe_objects kitchen).
Proof.
  destruct (update_writes_the_recipe_row soup
              (Recipe.mk 1 1 "soup" "soup.png" "boil longer" 20) sweet_soup
              kitchen
              (RecipeCreateSerializer.update soup sweet_soup kitchen).2)
    as (_ & _ & _ & _ & _ & _ & Hget & _ & Hothers & _).
  - by_computation.
  - by_computation.
  - by vm_compute.
  - split; [exact Hget|]. by apply Hothers.
Defined.





(** ** Totals of the shopping list *)

Lemma Zsum_app (l k : list Z) : Zsum (l ++ k) = (Zsum l + Zsum k)%Z.
Proof. induction l as [|x l IH]; simpl; [done|]. rewrite IH. lia. Qed.

Section grouping.
Context {K : Type} `{EqDecision K}.

Lemma Zsum_filter_split (P : K * Z → Prop) `{∀ x, Decision (P x)}
    (rows : list (K * Z)) :
  (Zsum (snd <$> filter P rows) + Zsum (snd <$> filter (λ x, ¬ P x) rows))%Z
  = Zsum (snd <$> rows).
Proof.
  induction rows as [|row rows IH]; [done|].
  rewrite !filter_cons. destruct (decide (P row)).
  - rewrite decide_False by tauto. rewrite !fmap_cons.
    unfold Zsum in *. simpl. lia.
  - rewrite decide_True by done. rewrite !fmap_cons.
    unfold Zsum in *. simpl. lia.
Qed.

(** Summing group by group over distinct keys that cover the rows gives
    the sum of all rows. *)
Lemma Zsum_groups (ks : list K) (rows : list (K * Z)) :
  NoDup ks →
  (∀ row, row ∈ rows → row.1 ∈ ks) →
  Zsum ((λ k, Zsum (snd <$> filter (λ row, row.1 = k) rows)) <$> ks)
  = Zsum (snd <$> rows).
Proof.
  intros Hnd. revert rows.
  induction Hnd as [|k ks Hk Hnd IH]; intros rows Hin.
  - destruct rows as [|row rows]; [done|].
    by destruct (not_elem_of_nil row.1 (Hin row ltac:(left))).
  - rewrite fmap_cons. simpl.
    rewrite <- (Zsum_filter_split (λ row, row.1 = k) rows). f_equal.
    rewrite <- (IH (filter (λ row, row.1 ≠ k) rows)).
    + f_equal. apply list_fmap_ext. intros i k2 Hk2%list_elem_of_lookup_2.
      simpl. f_equal. f_equal. rewrite list_filter_filter.
      apply filter_iff_in. intros row _. split; [|tauto].
      intros ->. split; [done|]. by intros <-.
    + intros row [Hne Hrow]%list_elem_of_filter.
      pose proof (Hin row Hrow) as [?|?]%elem_of_cons; done.
Qed.

End grouping.

(** The amounts of the grouped rows add up to the amounts of the rows
    they group. *)
Lemma Zsum_Permutation (l k : list Z) : l ≡ₚ k → Zsum l = Zsum k.
Proof.
  unfold Zsum. induction 1 as [|x l k _ IH|x y l|l k m _ IH1 _ IH2]; simpl.
  - done.
  - by rewrite IH.
  - lia.
  - by rewrite IH1.
Qed.

Lemma values_annotate_Sum_total cfg st user
    (rows : list (string * string * Z)) :
  Zsum (CartRow.ingredient_amount
          <$> RecipeViewSet.values_annotate_Sum cfg st user rows)
  = Zsum (snd <$> rows).
Proof.
  unfold RecipeViewSet.values_annotate_Sum. rewrite <- list_fmap_compose.
  rewrite <- (Zsum_groups (remove_dups (fst <$> rows)) rows).
  - apply Zsum_Permutation, fmap_Permutation, group_order_Permutation.
  - apply NoDup_remove_dups.
  - intros row Hrow. apply elem_of_remove_dups. by apply list_elem_of_fmap_2.
Qed.

Lemma values_annotate_Sum_nil cfg st user
    (rows : list (string * string * Z)) :
  RecipeViewSet.values_annotate_Sum cfg st user rows = [] ↔ rows = [].
Proof.
  split.
  - destruct rows as [|row rows]; [done|]. intros Hnil.
    assert (row.1
            ∈ group_order cfg st user (remove_dups (fst <$> row :: rows)))
      as Hin.
    { rewrite group_order_Permutation. apply elem_of_remove_dups. left. }
    apply (list_elem_of_fmap_2
             (λ key : string * string,
                CartRow.mk key.1 key.2
                  (Zsum (snd <$> filter (λ r, r.1 = key) (row :: rows)))))
      in Hin.
    unfold RecipeViewSet.values_annotate_Sum in Hnil. rewrite Hnil in Hin.
    by apply not_elem_of_nil in Hin.
  - intros ->. unfold RecipeViewSet.values_annotate_Sum.
    pose proof (group_order_Permutation cfg st user []) as Hp.
    change (remove_dups (fst <$> [])) with (@nil (string * string)).
    by apply Permutation_nil_r in Hp as ->.
Qed.

Section join_amounts.
Context (st : State) (user : User.t) (Hwf : wf st).

(** In a well-formed store a row is joined once when its recipe is in the
    cart of the user, and not at all otherwise. *)
Lemma join_row_amount ri :
  ri ∈ RecipeIngredient_objects st →
  snd <$> join_row st user ri
  = RecipeIngredient.amount
      <$> filter (λ ri, in_cart st user (RecipeIngredient.recipe ri)) [ri].
Proof.
  intros Hri.
  destruct Hwf as ((_ & Hipk & Hrpk & _ & Hfkr & Hfki) & _ & _ & Hcart).
  unfold RecipeIngredient_fk_recipe, RecipeIngredient_fk_ingredient in *.
  rewrite Forall_forall in Hfkr. rewrite Forall_forall in Hfki.
  destruct (filter_pk_elem Recipe.id _ _ Hrpk (Hfkr _ Hri))
    as (r & Hr & Hrid & Er).
  destruct (filter_pk_elem Ingredient.id _ _ Hipk (Hfki _ Hri))
    as (i & Hi & Hiid & Ei).
  unfold join_row. rewrite Er, Ei. simpl. rewrite app_nil_r.
  destruct (filter_NoDup_eq
              (λ c, ShoppingCart.recipe c = Recipe.id r
                    ∧ ShoppingCart.user c = User.id user)
              (ShoppingCart_objects st) Hcart)
    as [Ec|(c & Hc & [Hcr Hcu] & Ec)].
  { intros [u1 r1] [u2 r2]; simpl. intros [-> ->] [-> ->]. done. }
  - rewrite Ec. simpl. rewrite filter_cons, decide_False; [done|].
    intros Hin. unfold in_cart in Hin. apply Exists_exists in Hin
      as (c & Hc & Hcu & Hcr).
    eapply (filter_nil_not_elem_of _ _ c Ec); [|done]. split; congruence.
  - rewrite Ec. simpl.
    rewrite filter_cons, decide_True; [done|].
    apply Exists_exists. exists c. split; [done|]. split; congruence.
Qed.

Lemma join_amounts :
  snd <$> RecipeViewSet.filter_recipe__carts__user st user
  = RecipeIngredient.amount <$> cart_rows st user.
Proof.
  unfold RecipeViewSet.filter_recipe__carts__user, cart_rows.
  change (RecipeIngredient_objects st ≫= _)
    with (RecipeIngredient_objects st ≫= join_row st user).
  assert (Hsub : ∀ ri, ri ∈ RecipeIngredient_objects st
                       → ri ∈ RecipeIngredient_objects st) by done.
  revert Hsub. generalize (RecipeIngredient_objects st) at 1 3 4.
  induction l as [|ri l IH]; intros Hsub; [done|].
  rewrite bind_cons, fmap_app.
  rewrite join_row_amount by (apply Hsub; left).
  rewrite IH by (intros; apply Hsub; by right).
  rewrite <- fmap_app. f_equal.
  change (ri :: l) with ([ri] ++ l). by rewrite filter_app.
Qed.

End join_amounts.

(** X16: the lines of the shopping list, each showing a name, an amount
    and a unit, carry amounts that add up to the amounts of the
    [RecipeIngredient] rows of the recipes in the cart: grouping loses no
    amount and counts none twice. *)
Theorem shopping_list_keeps_the_total (cfg : Settings) (st : State)
    (request : Request.t) (user : User.t) :
  wf st →
  Request.method request = GET →
  Request.user request = Some user →
  ∃ rows,
    dispatch cfg download_shopping_cart request st
    = (inr (mkResponse HTTP_200_OK
              (Text (("Список покупок:" +:+ nl) :: (listed <$> rows)))), st)
    ∧ Zsum (CartRow.ingredient_amount <$> rows)
      = Zsum (RecipeIngredient.amount <$> cart_rows st user).
Proof.
  intros Hwf Hm Hu. simpl. unfold RecipeViewSet.download_shopping_cart.
  rewrite Hu, Hm. unfold query.
  eexists. split; [reflexivity|].
  by rewrite values_annotate_Sum_total, join_amounts.
Qed.

Lemma shopping_list_keeps_the_total_witness :
  ∃ rows,
    dispatch page_of_two download_shopping_cart
      (Request.mk GET (Some bob) ∅) kitchen
    = (inr (mkResponse HTTP_200_OK
              (Text (("Список покупок:" +:+ nl) :: (listed <$> rows)))),
       kitchen)
    ∧ Zsum (CartRow.ingredient_amount <$> rows)
      = Zsum (RecipeIngredient.amount <$> cart_rows kitchen bob).
Proof.
  apply (shopping_list_keeps_the_total page_of_two kitchen
           (Request.mk GET (Some bob) ∅) bob).
  - by_computation.
  - reflexivity.
  - reflexivity.
Defined.

(** X17: the shopping list is its header line alone exactly when no
    [RecipeIngredient] row belongs to a recipe of the user's cart. *)
Theorem shopping_list_is_empty_iff (cfg : Settings) (st : State)
    (request : Request.t) (user : User.t) :
  wf st →
  Request.method request = GET →
  Request.user request = Some user →
  dispatch cfg download_shopping_cart request st
  = (inr (mkResponse HTTP_200_OK (Text ["Список покупок:" +:+ nl])), st)
  ↔ ∀ ri, ri ∈ RecipeIngredient_objects st →
          ¬ in_cart st user (RecipeIngredient.recipe ri).
Proof.
  intros Hwf Hm Hu. simpl. unfold RecipeViewSet.download_shopping_cart.
  rewrite Hu, Hm. unfold query.
  set (J := RecipeViewSet.filter_recipe__carts__user st user).
  assert (HJ : J = [] ↔ cart_rows st user = []).
  { pose proof (join_amounts st user Hwf) as Hj. fold J in Hj.
    split; intros E; rewrite E in Hj.
    - symmetry in Hj. by apply fmap_nil_inv in Hj.
    - by apply fmap_nil_inv in Hj. }
  assert (Hc : cart_rows st user = []
               ↔ ∀ ri, ri ∈ RecipeIngredient_objects st →
                       ¬ in_cart st user (RecipeIngredient.recipe ri)).
  { unfold cart_rows. split.
    - intros E ri Hri Hin. by apply (filter_nil_not_elem_of _ _ ri E).
    - apply filter_none. }
  rewrite <- Hc, <- HJ, <- (values_annotate_Sum_nil cfg st user).
  split.
  - intros [= E]. by apply fmap_nil_inv in E.
  - by intros ->.
Qed.

Lemma shopping_list_is_empty_iff_witness :
  dispatch page_of_two download_shopping_cart
    (Request.mk GET (Some alice) ∅) kitchen
  = (inr (mkResponse HTTP_200_OK (Text ["Список покупок:" +:+ nl])), kitchen).
Proof.
  apply (shopping_list_is_empty_iff page_of_two kitchen
           (Request.mk GET (Some alice) ∅) alice).
  - by_computation.
  - reflexivity.
  - reflexivity.
  - for_all_rows.
Defined.

(** ** What an operation leaves alone *)

(** X18: no operation writes [User], [Tag] or [Ingredient];
    [subscriptions] and [download_shopping_cart] write nothing at all;
    [subscribe], [favorite] and [shopping_cart] write at most their own
    table; creating and updating a recipe write no favorite, cart row or
    subscription; deleting a recipe writes no subscription. *)
Theorem dispatch_writes_only_its_tables (cfg : Settings) (action : Action)
    (request : Request.t) (st : State) :
  let st' := (dispatch cfg action request st).2 in
  User_objects st' = User_objects st
  ∧ Tag_objects st' = Tag_objects st
  ∧ Ingredient_objects st' = Ingredient_objects st
  ∧ match action with
    | subscriptions | download_shopping_cart => st' = st
    | subscribe _ =>
        Recipe_objects st' = Recipe_objects st
        ∧ Recipe_tags st' = Recipe_tags st
        ∧ RecipeIngredient_objects st' = RecipeIngredient_objects st
        ∧ Favorite_objects st' = Favorite_objects st
        ∧ ShoppingCart_objects st' = ShoppingCart_objects st
    | favorite _ =>
        Recipe_objects st' = Recipe_objects st
        ∧ Recipe_tags st' = Recipe_tags st
        ∧ RecipeIngredient_objects st' = RecipeIngredient_objects st
        ∧ ShoppingCart_objects st' = ShoppingCart_objects st
        ∧ Subscription_objects st' = Subscription_objects st
    | shopping_cart _ =>
        Recipe_objects st' = Recipe_objects st
        ∧ Recipe_tags st' = Recipe_tags st
        ∧ RecipeIngredient_objects st' = RecipeIngredient_objects st
        ∧ Favorite_objects st' = Favorite_objects st
        ∧ Subscription_objects st' = Subscription_objects st
    | recipe_create _ | recipe_partial_update _ _ =>
        Favorite_objects st' = Favorite_objects st
        ∧ ShoppingCart_objects st' = ShoppingCart_objects st
        ∧ Subscription_objects st' = Subscription_objects st
    | recipe_destroy _ => Subscription_objects st' = Subscription_objects st
    end.
Proof.
  cbv zeta. destruct action as [|id|pk|pk| |data|pk data|pk].
  - unfold dispatch, UserViewSet.subscriptions.
    by destruct (Request.method request).
  - unfold dispatch.
    destruct (subscribe_state request id st) as [[= -> -> -> -> -> -> _ -> ->] _].
    done.
  - unfold dispatch, RecipeViewSet.favorite.
    destruct (user_recipe_action_state (T:=Favorite.t) request pk
                "У вас нет этого рецепта в избранном" st)
      as [->|[(u & r & _ & ->)|(P & dec & ->)]]; done.
  - unfold dispatch, RecipeViewSet.shopping_cart.
    destruct (user_recipe_action_state (T:=ShoppingCart.t) request pk
                "У вас нет этого рецепта в списке покупок" st)
      as [->|[(u & r & _ & ->)|(P & dec & ->)]]; done.
  - unfold dispatch, RecipeViewSet.download_shopping_cart.
    destruct (Request.user request); [|done].
    by destruct (Request.method request).
  - unfold dispatch.
    destruct (create_state cfg request data st) as [->|(d' & recipe & Hc)];
      [done|].
    destruct (create_inr _ _ _ _ _ Hc) as (tags & items & _ & _ & _ & ->).
    done.
  - unfold dispatch.
    destruct (partial_update_state cfg request pk data st)
      as [->|(instance & d' & instance' & Hin & Hu)]; [done|].
    destruct (update_inr _ _ _ _ _ Hin Hu) as (tags & items & _ & _ & _ & ->).
    done.
  - unfold dispatch.
    destruct (destroy_state cfg request pk st) as [->| ->]; done.
Qed.
